(** * ZOMP command-and-control fabric: the wire codec, the controller's
    receiver and the agent's request handling.

    Shallow embedding of [zomp_cnc.py] (the controller) and [zompie.py]
    (the agent).  Python [str] and [bytes] values are modelled as [string]
    (sequences of 8-bit characters); on 7-bit ASCII data, which is all the
    protocol's own text, [encode]/[decode] are the identity, so one type
    serves for both.  Python [int] is [Z].  A dict is a [gmap]. *)

From Stdlib Require Import ZArith Lia Ascii String List Decimal DecimalString DecimalNat.
From stdpp Require Import base option list gmap strings.

Local Open Scope Z_scope.

(* ===================================================================== *)
(** * Python built-ins used by the two programs *)
(* ===================================================================== *)

Module Py.

(** Exceptions the two programs can raise and never catch, besides the
    [ValueError] their [try] blocks handle. *)
Inductive exn : Type :=
| ValueError
| IndexError
| KeyError
| UnboundLocalError.

(** A computation either returns or raises. *)
Inductive outcome (A : Type) : Type :=
| Return (a : A)
| Raise (e : exn).
Arguments Return {A} a.
Arguments Raise {A} e.

Definition CR : ascii := ascii_of_nat 13.
Definition LF : ascii := ascii_of_nat 10.
Definition CRLF : string := String CR (String LF EmptyString).

(** [len(s)] *)
Definition len (s : string) : Z := Z.of_nat (String.length s).

(** [bool(s)]: a string is truthy unless it is empty. *)
Definition truthy (s : string) : bool :=
  match s with EmptyString => false | String _ _ => true end.

(** [s.startswith(p)] *)
Definition startswith (s p : string) : bool := String.prefix p s.

(** [s[:n]] for [0 <= n]. *)
Fixpoint take (n : nat) (s : string) : string :=
  match n, s with
  | S n', String c s' => String c (take n' s')
  | _, _ => EmptyString
  end.

(** [s[n:]] for [0 <= n]. *)
Fixpoint drop (n : nat) (s : string) : string :=
  match n, s with
  | S n', String _ s' => drop n' s'
  | _, _ => s
  end.

(** [s.find(sub)]: the lowest index where [sub] occurs; [None] stands for
    Python's [-1]. *)
Fixpoint find (s sub : string) : option nat :=
  if String.prefix sub s then Some 0%nat
  else match s with
       | EmptyString => None
       | String _ s' => S <$> find s' sub
       end.

(** [s.split(sep, maxsplit)] for a non-empty [sep]: cut at the occurrences
    of [sep] from the left, at most [maxsplit] times ([None]: no limit).
    Each cut removes at least one character, so [String.length s] rounds
    are enough. *)
Fixpoint split_rounds (rounds : nat) (s sep : string) (maxsplit : option nat)
  : list string :=
  match rounds with
  | O => [s]
  | S rounds' =>
      match maxsplit with
      | Some O => [s]
      | _ =>
          match find s sep with
          | None => [s]
          | Some i =>
              take i s ::
              split_rounds rounds' (drop (i + String.length sep) s) sep
                           (Nat.pred <$> maxsplit)
          end
      end
  end.

Definition split (s sep : string) (maxsplit : option nat) : list string :=
  split_rounds (String.length s) s sep maxsplit.

(** [sep.join(parts)] *)
Definition join (sep : string) (parts : list string) : string :=
  String.concat sep parts.

(** [c.isspace()] on the 7-bit range: TAB, LF, VT, FF, CR, the four
    separators FS, GS, RS, US, and the space. *)
Definition isspace (c : ascii) : bool :=
  match nat_of_ascii c with
  | 9 | 10 | 11 | 12 | 13 | 28 | 29 | 30 | 31 | 32 => true
  | _ => false
  end%nat.

Fixpoint lstrip (s : string) : string :=
  match s with
  | EmptyString => EmptyString
  | String c s' => if isspace c then lstrip s' else s
  end.

Fixpoint rstrip (s : string) : string :=
  match s with
  | EmptyString => EmptyString
  | String c s' =>
      match rstrip s' with
      | EmptyString => if isspace c then EmptyString else String c EmptyString
      | r => String c r
      end
  end.

(** [s.strip()] *)
Definition strip (s : string) : string := rstrip (lstrip s).

Definition map_chars (f : ascii -> ascii) : string -> string :=
  fix go s :=
    match s with
    | EmptyString => EmptyString
    | String c s' => String (f c) (go s')
    end.

Definition lower_char (c : ascii) : ascii :=
  let n := nat_of_ascii c in
  if ((65 <=? n) && (n <=? 90))%nat then ascii_of_nat (n + 32) else c.

Definition upper_char (c : ascii) : ascii :=
  let n := nat_of_ascii c in
  if ((97 <=? n) && (n <=? 122))%nat then ascii_of_nat (n - 32) else c.

(** [s.casefold()] and [s.upper()] on the 7-bit range. *)
Definition casefold : string -> string := map_chars lower_char.
Definition upper : string -> string := map_chars upper_char.

(** [str(n)] for a length [n]: its decimal digits. *)
Definition str (n : nat) : string := NilZero.string_of_uint (Nat.to_uint n).

Definition digit_value (c : ascii) : option Z :=
  let n := nat_of_ascii c in
  if ((48 <=? n) && (n <=? 57))%nat then Some (Z.of_nat (n - 48)) else None.

Definition isdigit (c : ascii) : bool :=
  match digit_value c with Some _ => true | None => false end.

(** The digits of an [int(...)] argument: at least one digit, single
    underscores allowed between digits only.  [after_digit] tells whether
    the previous character was a digit. *)
Fixpoint int_digits (acc : Z) (after_digit : bool) (s : string) : option Z :=
  match s with
  | EmptyString => if after_digit then Some acc else None
  | String c s' =>
      match digit_value c with
      | Some d => int_digits (10 * acc + d) true s'
      | None =>
          if (Ascii.eqb c "_" && after_digit)%bool
          then int_digits acc false s'
          else None
      end
  end.

(** [int(s)] in base ten: surrounding whitespace is skipped, one sign is
    allowed; [None] stands for the [ValueError] Python raises. *)
Definition int (s : string) : option Z :=
  match strip s with
  | EmptyString => None
  | String c r =>
      if Ascii.eqb c "-" then Z.opp <$> int_digits 0 false r
      else if Ascii.eqb c "+" then int_digits 0 false r
      else int_digits 0 false (String c r)
  end.

End Py.

(* ===================================================================== *)
(** * Sockets and standard output *)
(* ===================================================================== *)

(** A connection's inbound side is the list of values the successive
    [sock.recv(1024)] calls return, oldest first (on a real socket each is
    at most 1024 bytes long); once the list is used up [recv] returns the
    empty value, which is how a closed peer shows.  What a program sends on
    the connection and what it prints are collected in [effects]
    ([print]'s own line break is left out); [send] is taken to succeed. *)
Module Io.

Record effects : Type := {
  sent : list string;
  stdout : list string
}.

Definition silent : effects := {| sent := []; stdout := [] |}.

Definition send (msg : string) (fx : effects) : effects :=
  {| sent := sent fx ++ [msg]; stdout := stdout fx |}.

Definition print (line : string) (fx : effects) : effects :=
  {| sent := sent fx; stdout := stdout fx ++ [line] |}.

End Io.

(* ===================================================================== *)
(** * zomp_cnc.py: the controller *)
(* ===================================================================== *)

Module zomp_cnc.
Import Py Io.

Definition ACCEPT_MSG : string := "ZOMP/1.0 0 ACCEPT" +:+ CRLF +:+ CRLF.
Definition CLOSE_MSG : string := "ZOMP/1.0 9 CLOSE" +:+ CRLF +:+ CRLF.
Definition NOT_UNDERSTOOD : string := "ZOMP/1.0 5 NOT UNDERSTOOD" +:+ CRLF +:+ CRLF.

Record ZOMPResponseBuffer : Type := {
  buf : string;
  signal : string;
  code : string;
  status_message : string;
  script_invocation : string;
  num_chars : Z
}.

(** [ZOMPResponseBuffer.__init__] *)
Definition init : ZOMPResponseBuffer :=
  {| buf := ""; signal := CRLF +:+ CRLF; code := ""; status_message := "";
     script_invocation := ""; num_chars := 0 |}.

Definition set_buf (v : string) (self : ZOMPResponseBuffer) : ZOMPResponseBuffer :=
  {| buf := v; signal := signal self; code := code self;
     status_message := status_message self;
     script_invocation := script_invocation self; num_chars := num_chars self |}.

Definition set_status (c msg : string) (self : ZOMPResponseBuffer) : ZOMPResponseBuffer :=
  {| buf := buf self; signal := signal self; code := c; status_message := msg;
     script_invocation := script_invocation self; num_chars := num_chars self |}.

Definition set_script_invocation (v : string) (self : ZOMPResponseBuffer)
  : ZOMPResponseBuffer :=
  {| buf := buf self; signal := signal self; code := code self;
     status_message := status_message self;
     script_invocation := v; num_chars := num_chars self |}.

Definition set_num_chars (n : Z) (self : ZOMPResponseBuffer) : ZOMPResponseBuffer :=
  {| buf := buf self; signal := signal self; code := code self;
     status_message := status_message self;
     script_invocation := script_invocation self; num_chars := n |}.

(** What one call of [bufferMessages] leaves behind: its result (or the
    exception that escaped), the buffer object, the receives not yet
    consumed, and the effects so far. *)
Definition decoded : Type :=
  (outcome (option string) * ZOMPResponseBuffer * list string * effects)%type.

(** The two unpacking assignments inside the [try]; [None] is the
    [ValueError] the [except] clause catches. *)
Definition unpack_status_line (header : string)
  : option (list string * string * string * string) :=
  match split header CRLF None with
  | status_line :: rest_of_header =>
      match split (strip status_line) " " (Some 2%nat) with
      | [version; c; msg] => Some (rest_of_header, version, c, msg)
      | _ => None
      end
  | [] => None
  end.

(** Lines 70-78: the entity-body loop.  [data.decode()] is taken on 7-bit
    receives, where it returns the bytes as characters and [len] counts
    both alike. *)
Fixpoint read_body (self : ZOMPResponseBuffer) (inc : list string) (fx : effects)
  : decoded :=
  if len (buf self) <? num_chars self then
    match inc with
    | [] => (Return None, self, [], fx)
    | data :: rest =>
        if len data =? 0 then (Return None, self, rest, fx)
        else read_body (set_buf (buf self +:+ data) self) rest fx
    end
  else (Return (Some (buf self)), self, inc, fx).

(** [ZOMPResponseBuffer.bufferMessages].  An iteration of the outer
    [while True] either receives (when [num_chars <= 0]) or enters the body
    loop and returns, so the recursion follows the receives.
    [data.decode()] is taken on 7-bit receives, where it returns the bytes
    as characters and cannot raise. *)
Fixpoint bufferMessages (self : ZOMPResponseBuffer) (inc : list string)
         (fx : effects) {struct inc} : decoded :=
  if num_chars self <=? 0 then
    match inc with
    | [] => (Return None, self, [], fx)
    | data :: rest =>
        if len data =? 0 then (Return None, self, rest, fx)
        else
          let self := set_buf (buf self +:+ data) self in
          match find (buf self) (signal self) with
          | None => bufferMessages self rest fx
          | Some signal_index =>
              let header := take signal_index (buf self) in
              let fx := print (header +:+ String LF "") fx in
              let self :=
                set_buf (drop (signal_index + String.length (signal self)) (buf self))
                        self in
              match unpack_status_line header with
              | None =>
                  (Return None, self, rest,
                   send NOT_UNDERSTOOD (print "Unpacking failed!" fx))
              | Some (rest_of_header, version, c, msg) =>
                  let self := set_status c msg self in
                  if String.eqb c "00" then
                    (Return None, self, rest, send ACCEPT_MSG fx)
                  else if (String.eqb c "01" || String.eqb c "02")%bool then
                    (Return None, self, rest,
                     print ("Error: " +:+ c +:+ " " +:+ msg) fx)
                  else
                    match rest_of_header with
                    | [script_line; content_length] =>
                        let self := set_script_invocation script_line self in
                        match split content_length ": " None !! 1%nat with
                        | None => (Raise IndexError, self, rest, fx)
                        | Some digits =>
                            match int digits with
                            | None => (Raise ValueError, self, rest, fx)
                            | Some n =>
                                let self := set_num_chars n self in
                                if (negb (String.eqb c "12") && negb (String.eqb c "30"))%bool
                                then (Return None, self, rest, fx)
                                else if 0 <? num_chars self
                                     then read_body self rest fx
                                     else bufferMessages self rest fx
                            end
                        end
                    | _ => (Raise ValueError, self, rest, fx)
                    end
              end
          end
    end
  else read_body self inc fx.

(** [makeZOMPRequest] with its default [version]; an unknown command leaves
    [code] unbound. *)
Definition version : string := "1.0".

Definition makeZOMPRequest (command script_invocation : string) : outcome string :=
  let code :=
    let c := casefold command in
    if String.eqb c "run" then Some "1"
    else if String.eqb c "stop" then Some "2"
    else if String.eqb c "report" then Some "3"
    else None in
  match code with
  | None => Raise UnboundLocalError
  | Some code =>
      Return ("ZOMP/" +:+ version +:+ " " +:+ code +:+ " " +:+ upper command +:+ CRLF
              +:+ script_invocation +:+ CRLF
              +:+ CRLF)
  end.

(** The state of one receiver process: its buffer object, the receives
    still to come on its connection, its effects, and the report files
    written so far (name to contents). *)
Record receiver : Type := {
  buffer : ZOMPResponseBuffer;
  conn : list string;
  fx : effects;
  files : gmap string string
}.

Inductive task : Type :=
| Running (r : receiver)
| Crashed (e : exn) (r : receiver).

(** [handleResponses] starts from a fresh buffer. *)
Definition spawn (inc : list string) : receiver :=
  {| buffer := init; conn := inc; fx := silent; files := ∅ |}.

(** One turn of the [while True] of [handleResponses]; [open] and [write]
    are taken to succeed. *)
Definition handleResponses_turn (zombie_id : string) (r : receiver) : task :=
  match bufferMessages (buffer r) (conn r) (fx r) with
  | (Raise e, self, inc, fx') =>
      Crashed e {| buffer := self; conn := inc; fx := fx'; files := files r |}
  | (Return msg, self, inc, fx') =>
      match msg with
      | Some (String _ _ as body) =>
          Running
            {| buffer := set_buf "" (set_num_chars 0 self);
               conn := inc; fx := fx';
               files := <[zombie_id +:+ " " +:+ script_invocation self +:+ ".txt" := body]>
                          (files r) |}
      | _ => Running {| buffer := self; conn := inc; fx := fx'; files := files r |}
      end
  end.

(** [handleResponses] after [turns] turns of its loop: the loop has no exit,
    so the process is either still running or has died of an exception. *)
Fixpoint handleResponses (turns : nat) (zombie_id : string) (r : receiver) : task :=
  match turns with
  | O => Running r
  | S turns' =>
      match handleResponses_turn zombie_id r with
      | Running r' => handleResponses turns' zombie_id r'
      | Crashed e r' => Crashed e r'
      end
  end.

(** The process has ended. *)
Definition ended (t : task) : Prop :=
  match t with
  | Running _ => False
  | Crashed _ _ => True
  end.

(** A registry entry: the agent's address and its receiver process (which
    holds the connection). *)
Record Zombie : Type := {
  addr : string;
  process : task
}.

(** Lines 193-197 of [main]: a new connection is appended to the registry
    and its receiver is started. *)
Definition accept (inc : list string) (a : string) (zombies : list Zombie)
  : list Zombie :=
  zombies ++ [{| addr := a; process := Running (spawn inc) |}].

(** The receiver of one entry runs [turns] more turns. *)
Definition advance (turns : nat) (z : Zombie) : Zombie :=
  {| addr := addr z;
     process := match process z with
                | Running r => handleResponses turns (addr z) r
                | Crashed e r => Crashed e r
                end |}.

Definition receiver_runs (i turns : nat) (zombies : list Zombie) : list Zombie :=
  alter (advance turns) i zombies.

End zomp_cnc.

(* ===================================================================== *)
(** * zompie.py: the agent *)
(* ===================================================================== *)

Module zompie.
Import Py Io.

Definition READY_MSG : string :=
  "ZOMP/1.0 00 Ready to be registered" +:+ CRLF +:+ CRLF.

Definition version : string := "1.0".
Definition curdir : string := ".".

(** [makeZOMPResponse] with its default [version]; an omitted
    [script_invocation] or [report] is the empty string. *)
Definition makeZOMPResponse (code status_message script_invocation report : string)
  : string :=
  let response :=
    "ZOMP/" +:+ version +:+ " " +:+ code +:+ " " +:+ status_message +:+ CRLF in
  let response :=
    if negb (startswith code "0")
    then response +:+
         (script_invocation +:+ CRLF
          +:+ "Content-Length: " +:+ str (String.length report) +:+ CRLF)
    else response in
  let response := response +:+ CRLF in
  if truthy report then response +:+ report else response.

Record ZOMPRequestBuffer : Type := {
  buf : string;
  signal : string;
  code : string;
  command : string;
  script_invocation : string;
  filepath : string;
  args : list string
}.

(** [ZOMPRequestBuffer.__init__] *)
Definition init : ZOMPRequestBuffer :=
  {| buf := ""; signal := CRLF +:+ CRLF; code := ""; command := "";
     script_invocation := ""; filepath := ""; args := [] |}.

Definition set_buf (v : string) (self : ZOMPRequestBuffer) : ZOMPRequestBuffer :=
  {| buf := v; signal := signal self; code := code self; command := command self;
     script_invocation := script_invocation self; filepath := filepath self;
     args := args self |}.

Definition set_request (c cmd : string) (self : ZOMPRequestBuffer) : ZOMPRequestBuffer :=
  {| buf := buf self; signal := signal self; code := c; command := cmd;
     script_invocation := script_invocation self; filepath := filepath self;
     args := args self |}.

Definition set_script (inv path : string) (argv : list string) (self : ZOMPRequestBuffer)
  : ZOMPRequestBuffer :=
  {| buf := buf self; signal := signal self; code := code self; command := command self;
     script_invocation := inv; filepath := path; args := argv |}.

Definition decoded : Type :=
  (outcome (option string) * ZOMPRequestBuffer * list string * effects)%type.

(** The two unpacking assignments inside the [try]; [None] is the
    [ValueError] the [except] clause catches. *)
Definition unpack_request_line (header : string)
  : option (list string * string * string * string) :=
  match split header CRLF None with
  | request_line :: script_line =>
      match split (strip request_line) " " (Some 2%nat) with
      | [version; c; cmd] => Some (script_line, version, c, cmd)
      | _ => None
      end
  | [] => None
  end.

(** [ZOMPRequestBuffer.bufferMessages]; [fs] is the set of paths for which
    [path.exists] holds.  [data.decode()] is taken on 7-bit receives, where
    it returns the bytes as characters and cannot raise. *)
Fixpoint bufferMessages (fs : gset string) (self : ZOMPRequestBuffer)
         (inc : list string) (fx : effects) {struct inc} : decoded :=
  match inc with
  | [] => (Return None, self, [], fx)
  | data :: rest =>
      if len data =? 0 then (Return None, self, rest, fx)
      else
        let self := set_buf (buf self +:+ data) self in
        match find (buf self) (signal self) with
        | None => bufferMessages fs self rest fx
        | Some signal_index =>
            let header := take signal_index (buf self) in
            let fx := print (header +:+ String LF "") fx in
            let self :=
              set_buf (drop (signal_index + String.length (signal self)) (buf self))
                      self in
            match unpack_request_line header with
            | None =>
                (Return None, self, rest,
                 send (makeZOMPResponse "01" "Bad request" "" "")
                      (print "Unpacking failed!" fx))
            | Some (script_line, version, c, cmd) =>
                let self := set_request c cmd self in
                if (negb (String.eqb c "9") && negb (String.eqb c "0")
                    && match script_line with [] => true | _ => false end)%bool
                then (Return None, self, rest,
                      send (makeZOMPResponse "01" "Bad request" "" "") fx)
                else if String.eqb c "9" then
                  (Return None, self, rest,
                   print "CLOSE command received. Terminating." fx)
                else if String.eqb c "5" then
                  (Return None, self, rest,
                   print "C&C did not understand. Not doing anything about it, though!" fx)
                else if String.eqb c "0" then
                  (Return None, self, rest, fx)
                else if (String.eqb c "1" || String.eqb c "2" || String.eqb c "3")%bool then
                  let inv := join " " script_line in
                  match split inv " " None with
                  | [] => (Raise IndexError, set_script inv (filepath self) [] self, rest, fx)
                  | scriptname :: more =>
                      let self :=
                        set_script inv (curdir +:+ "/" +:+ scriptname)
                                   (("./" +:+ scriptname) :: more) self in
                      if negb (bool_decide (filepath self ∈ fs)) then
                        (Return None, self, rest,
                         send (makeZOMPResponse "02" "Script not found" "" "") fx)
                      else (Return (Some (script_invocation self)), self, rest, fx)
                  end
                else (Return (Some (script_invocation self)), self, rest, fx)
            end
        end
  end.

(** A [multiprocessing.Process] whose target is [storeResult]: the process
    id it runs under once started, and the target's arguments. *)
Record Process : Type := {
  pid : nat;
  target_invocation : string;
  target_args : list string
}.

(** The agent's [main]: its local variables and the part of the operating
    system it acts on.  [alive] holds the ids of the background processes
    that have been started and have neither exited nor been terminated,
    [fs] the paths that exist, [executable] the paths [chmod +x] was run
    on. *)
Record agent : Type := {
  buffer : ZOMPRequestBuffer;
  conn : list string;
  fx : effects;
  processes : gmap string Process;
  reports : gmap string string;
  alive : gset nat;
  next_pid : nat;
  fs : gset string;
  executable : gset string
}.

(** [main] up to the loop: the READY message is sent on a fresh connection. *)
Definition boot (paths : gset string) (inc : list string) : agent :=
  {| buffer := init; conn := inc; fx := send READY_MSG silent;
     processes := ∅; reports := ∅; alive := ∅; next_pid := 0%nat;
     fs := paths; executable := ∅ |}.

(** [p.is_alive()] *)
Definition is_alive (a : agent) (p : Process) : bool :=
  bool_decide (pid p ∈ alive a).

(** [k in processes and processes[k].is_alive()] *)
Definition running (a : agent) (k : string) : bool :=
  match processes a !! k with
  | Some p => is_alive a p
  | None => false
  end.

Definition with_io (self : ZOMPRequestBuffer) (inc : list string) (fx' : effects)
           (a : agent) : agent :=
  {| buffer := self; conn := inc; fx := fx';
     processes := processes a; reports := reports a; alive := alive a;
     next_pid := next_pid a; fs := fs a; executable := executable a |}.

Definition reply (msg : string) (a : agent) : agent :=
  with_io (buffer a) (conn a) (send msg (fx a)) a.

Definition say (line : string) (a : agent) : agent :=
  with_io (buffer a) (conn a) (print line (fx a)) a.

(** [subprocess.run(["chmod", "+x", path])] *)
Definition chmod_x (path : string) (a : agent) : agent :=
  {| buffer := buffer a; conn := conn a; fx := fx a;
     processes := processes a; reports := reports a; alive := alive a;
     next_pid := next_pid a; fs := fs a; executable := {[path]} ∪ executable a |}.

(** Lines 126-127: a new [Process] is stored under the key and started. *)
Definition start_process (k : string) (argv : list string) (a : agent) : agent :=
  let p := {| pid := next_pid a; target_invocation := k; target_args := argv |} in
  {| buffer := buffer a; conn := conn a; fx := fx a;
     processes := <[k := p]> (processes a); reports := reports a;
     alive := {[pid p]} ∪ alive a;
     next_pid := S (next_pid a); fs := fs a; executable := executable a |}.

(** [p.terminate()] *)
Definition terminate (p : Process) (a : agent) : agent :=
  {| buffer := buffer a; conn := conn a; fx := fx a;
     processes := processes a; reports := reports a;
     alive := alive a ∖ {[pid p]};
     next_pid := next_pid a; fs := fs a; executable := executable a |}.

(** [del processes[k]] *)
Definition del_process (k : string) (a : agent) : agent :=
  {| buffer := buffer a; conn := conn a; fx := fx a;
     processes := delete k (processes a); reports := reports a;
     alive := alive a;
     next_pid := next_pid a; fs := fs a; executable := executable a |}.

(** [storeResult] in a live background process [p], seen from the agent:
    when the script exits with status zero, [check_output] returns its
    output, which is stored under the invocation key, and the process
    ends. *)
Definition storeResult_returns (p : Process) (output : string) (a : agent) : agent :=
  {| buffer := buffer a; conn := conn a; fx := fx a;
     processes := processes a;
     reports := <[target_invocation p := output]> (reports a);
     alive := alive a ∖ {[pid p]};
     next_pid := next_pid a; fs := fs a; executable := executable a |}.

(** When the script exits with a non-zero status, [check_output] raises in
    the background process, which dies before the assignment: nothing is
    stored. *)
Definition storeResult_raises (p : Process) (a : agent) : agent :=
  terminate p a.

(** How one turn of [main]'s loop ends. *)
Inductive turn : Type :=
| Continue (a : agent)
| Exit (a : agent)
| Crash (e : exn) (a : agent).

(** [k in d] for a dict [d] *)
Definition has_key {V : Type} (d : gmap string V) (k : string) : bool :=
  match d !! k with Some _ => true | None => false end.

(** Lines 125-127: the new background process for the key. *)
Definition run_script (k : string) (a : agent) : turn :=
  let a := say ("Running " +:+ k +:+ "...") a in
  Continue (start_process k (args (buffer a)) a).

(** Lines 116-127 *)
Definition on_run (k : string) (a : agent) : turn :=
  if running a k then
    Continue (reply (makeZOMPResponse "11" "Ignore, script already running" k "") a)
  else
    match reports a !! k with
    | Some report =>
        run_script k
          (reply (makeZOMPResponse "12" "OK, returning existing report" k report) a)
    | None =>
        match args (buffer a) with
        | arg0 :: _ =>
            run_script k
              (reply (makeZOMPResponse "10" "OK, running script" k "") (chmod_x arg0 a))
        | [] => Crash IndexError a
        end
    end.

(** Lines 129-138 *)
Definition on_stop (k : string) (a : agent) : turn :=
  if running a k then
    match processes a !! k with
    | Some p =>
        let a := say ("Stopping " +:+ k +:+ "...") a in
        let a := terminate p a in
        let a := reply (makeZOMPResponse "20" "OK, stopping script" k "") a in
        Continue (del_process k a)
    | None => Crash KeyError a
    end
  else if has_key (reports a) k then
    Continue (reply (makeZOMPResponse "22" "Ignore, script completed running" k "") a)
  else
    Continue (reply (makeZOMPResponse "21" "Ignore, script not currently running" k "") a).

(** Lines 140-148 *)
Definition on_report (k : string) (a : agent) : turn :=
  match processes a !! k with
  | Some p =>
      if is_alive a p then
        Continue (reply (makeZOMPResponse "31" "No report, waiting on completion" k "") a)
      else
        let a := say ("Reporting on " +:+ k +:+ "...") a in
        match reports a !! k with
        | Some report => Continue (reply (makeZOMPResponse "30" "OK, reporting" k report) a)
        | None => Crash KeyError a
        end
  | None =>
      Continue (reply (makeZOMPResponse "32" "No report, not running script" k "") a)
  end.

(** Lines 150-151: every process of the table is terminated. *)
Definition terminate_all (a : agent) : agent :=
  map_fold (fun _ p acc => terminate p acc) a (processes a).

(** One turn of the [while True] of [main]. *)
Definition main_turn (a : agent) : turn :=
  match bufferMessages (fs a) (buffer a) (conn a) (fx a) with
  | (Raise e, self, inc, fx') => Crash e (with_io self inc fx' a)
  | (Return r, self, inc, fx') =>
      let a := with_io self inc fx' a in
      match r with
      | Some (String _ _ as k) =>
          if String.eqb (code self) "1" then on_run k a
          else if String.eqb (code self) "2" then on_stop k a
          else if String.eqb (code self) "3" then on_report k a
          else Continue a
      | _ =>
          if String.eqb (code self) "9" then Exit (terminate_all a)
          else Continue a
      end
  end.

(** [main]'s loop for [turns] turns, or until it exits or crashes. *)
Fixpoint main_loop (turns : nat) (a : agent) : turn :=
  match turns with
  | O => Continue a
  | S turns' =>
      match main_turn a with
      | Continue a' => main_loop turns' a'
      | ended => ended
      end
  end.

End zompie.

(* ===================================================================== *)
(** * The wire format as the specification words it *)
(* ===================================================================== *)

Module Wire.
Import Py Io.

(** The unit of communication of the data model: code, text, invocation and
    body; an absent invocation or body is the empty string, as in the
    encoder's defaults. *)
Record ZompMessage : Type := {
  m_code : string;
  m_text : string;
  m_invocation : string;
  m_body : string
}.

(** The encoder's output for a code that does not start with "0", in the
    words of the encode contract: the status line, the invocation line, the
    Content-Length line, the terminator (whose first line break ends the
    Content-Length line), then the body. *)
Definition framed (code text invocation body : string) : string :=
  "ZOMP/1.0 " +:+ code +:+ " " +:+ text +:+ CRLF
  +:+ invocation +:+ CRLF
  +:+ "Content-Length: " +:+ str (String.length body)
  +:+ CRLF +:+ CRLF
  +:+ body.

(** The codes of the protocol table. *)
Definition table_codes : list string :=
  ["00"; "0"; "01"; "02"; "1"; "2"; "3"; "5"; "9";
   "10"; "11"; "12"; "20"; "21"; "22"; "30"; "31"; "32"].

(** The codes an agent sends to the controller: without an invocation and
    a body, without a body, with a body. *)
Definition bare_codes : list string := ["00"; "01"; "02"].
Definition status_codes : list string := ["10"; "11"; "20"; "21"; "22"; "31"; "32"].
Definition report_codes : list string := ["12"; "30"].

Definition among (codes : list string) (c : string) : bool :=
  existsb (String.eqb c) codes.

(** Encoding is the agent's [makeZOMPResponse]. *)
Definition encode (m : ZompMessage) : string :=
  zompie.makeZOMPResponse (m_code m) (m_text m) (m_invocation m) (m_body m).

(** Decoding is one call of the controller's [bufferMessages] on a fresh
    buffer: the tuple is read off the buffer object's fields and the
    returned body, and the receives left unconsumed come with it.  [None]
    when an exception escapes the call. *)
Definition decode (stream : list string) : option (ZompMessage * list string) :=
  match zomp_cnc.bufferMessages zomp_cnc.init stream silent with
  | (Return body, self, rest, _) =>
      Some ({| m_code := zomp_cnc.code self;
               m_text := zomp_cnc.status_message self;
               m_invocation := zomp_cnc.script_invocation self;
               m_body := default "" body |},
            rest)
  | (Raise _, _, _, _) => None
  end.

(** Every character of [s] satisfies [p]. *)
Fixpoint all_chars (p : ascii -> bool) (s : string) : bool :=
  match s with
  | EmptyString => true
  | String x s' => p x && all_chars p s'
  end.

(** [c] does not occur in [s]. *)
Definition lacks (c : ascii) (s : string) : bool :=
  all_chars (fun x => negb (Ascii.eqb x c)) s.

(** The tuples the agent's replies are made of: a non-empty text without a
    carriage return that does not end in whitespace; for 00, 01 and 02
    neither invocation nor body; otherwise a non-empty invocation without
    a carriage return, and a body that is non-empty for 12 and 30 and empty
    for the other codes. *)
Definition reply_tuple (m : ZompMessage) : bool :=
  truthy (m_text m) && lacks CR (m_text m)
  && String.eqb (rstrip (m_text m)) (m_text m)
  && (if among bare_codes (m_code m)
      then negb (truthy (m_invocation m)) && negb (truthy (m_body m))
      else truthy (m_invocation m) && lacks CR (m_invocation m)
           && (if among report_codes (m_code m)
               then truthy (m_body m)
               else among status_codes (m_code m) && negb (truthy (m_body m)))).

End Wire.

(* ===================================================================== *)
(** * Concrete messages and states used in the examples *)
(* ===================================================================== *)

Module Scenario.
Import Py Io.

Definition echo : string := "echo.sh hi".

Definition RUN_echo : string :=
  "ZOMP/1.0 1 RUN" +:+ CRLF +:+ echo +:+ CRLF +:+ CRLF.
Definition STOP_echo : string :=
  "ZOMP/1.0 2 STOP" +:+ CRLF +:+ echo +:+ CRLF +:+ CRLF.
Definition REPORT_echo : string :=
  "ZOMP/1.0 3 REPORT" +:+ CRLF +:+ echo +:+ CRLF +:+ CRLF.

(** A code 30 reply declaring five body bytes, received together with the
    first three bytes of the next message. *)
Definition report_and_surplus : string :=
  "ZOMP/1.0 30 OK, reporting" +:+ CRLF +:+ echo +:+ CRLF
  +:+ "Content-Length: 5" +:+ CRLF +:+ CRLF +:+ "hello" +:+ "ZOM".

(** A reply with a status line only. *)
Definition headless_reply : string := "ZOMP/1.0 10 OK, running script" +:+ CRLF +:+ CRLF.

Definition after (t : zompie.turn) : zompie.agent :=
  match t with
  | zompie.Continue a => a
  | zompie.Exit a => a
  | zompie.Crash _ a => a
  end.

Definition the_process (a : zompie.agent) : zompie.Process :=
  default {| zompie.pid := 0; zompie.target_invocation := ""; zompie.target_args := [] |}
          (zompie.processes a !! echo).

(** An agent in whose directory [echo.sh] exists, with the given requests
    on their way. *)
Definition agent0 (requests : list string) : zompie.agent :=
  zompie.boot {["./echo.sh"]} requests.

(** RUN was served and the script is still running. *)
Definition agent_running (requests : list string) : zompie.agent :=
  after (zompie.main_turn (agent0 (RUN_echo :: requests))).

(** RUN was served and the script has exited with a non-zero status. *)
Definition agent_failed (requests : list string) : zompie.agent :=
  let a := agent_running requests in
  zompie.storeResult_raises (the_process a) a.

(** RUN was served and the script has printed "hi" and exited normally. *)
Definition agent_done (requests : list string) : zompie.agent :=
  let a := agent_running requests in
  zompie.storeResult_returns (the_process a) ("hi" +:+ String LF "") a.

(** After a completed run, a second RUN was served and then stopped. *)
Definition agent_rerun_stopped (requests : list string) : zompie.agent :=
  after (zompie.main_loop 2 (agent_done (RUN_echo :: STOP_echo :: requests))).

End Scenario.


(* ===================================================================== *)
(** * The agent over time *)
(* ===================================================================== *)

Module Lifecycle.
Import Py Io zompie.

(** The agent a turn leaves behind, however the turn ends. *)
Definition state_of (t : turn) : agent :=
  match t with
  | Continue a => a
  | Exit a => a
  | Crash _ a => a
  end.

(** What can happen to a serving agent: [main] serves one more turn and
    goes on, or a live background process of the table finishes
    [storeResult], with some output or with an exception. *)
Inductive step : agent -> agent -> Prop :=
| step_turn (a a' : agent) :
    main_turn a = Continue a' -> step a a'
| step_returns (a : agent) (k : string) (p : Process) (output : string) :
    processes a !! k = Some p -> is_alive a p = true ->
    step a (storeResult_returns p output a)
| step_raises (a : agent) (k : string) (p : Process) :
    processes a !! k = Some p -> is_alive a p = true ->
    step a (storeResult_raises p a).

(** The states an agent started in the directory [paths] can be in, with
    [requests] the receives of its connection. *)
Definition reachable (paths : gset string) (requests : list string) (a : agent) : Prop :=
  rtc step (boot paths requests) a.

(** The bookkeeping of background processes: every entry of the task table
    was started for its own key with an id below the next one, every live
    process is an entry of the table, and no two keys share a process id. *)
Definition tidy (a : agent) : Prop :=
  (forall k p, processes a !! k = Some p ->
               (pid p < next_pid a)%nat /\ target_invocation p = k)
  /\ (forall n, n ∈ alive a -> exists k p, processes a !! k = Some p /\ pid p = n)
  /\ (forall k1 k2 p1 p2,
        processes a !! k1 = Some p1 -> processes a !! k2 = Some p2 ->
        pid p1 = pid p2 -> k1 = k2).

End Lifecycle.

(* ===================================================================== *)
(** * Where bytes and characters agree *)
(* ===================================================================== *)

(** Both decoders append [data.decode()] to their buffer (zompie.py line
    30; zomp_cnc.py lines 35 and 77): strict UTF-8, outside any [try].  On
    a receive made of 7-bit bytes the decoded string has the same characters
    as the receive has bytes and no [UnicodeDecodeError] is possible, which
    is what the embedding of the decoders, appending the receive unchanged,
    assumes.  The properties of what the decoders do with receives are
    therefore stated for 7-bit receives. *)
Module Transport.
Import Py Wire.

(** [data.isascii()] *)
Definition isascii (s : string) : bool :=
  all_chars (fun c => (nat_of_ascii c <? 128)%nat) s.

(** Text, invocation and body of a tuple are 7-bit: so is its encoding. *)
Definition ascii_tuple (m : ZompMessage) : bool :=
  isascii (m_text m) && isascii (m_invocation m) && isascii (m_body m).

(** A name under which [open(name, 'w')] creates a file in the working
    directory (taken to be writable): no path separator, no NUL, at most
    255 bytes. *)
Definition plain_name (name : string) : bool :=
  lacks "/" name && lacks Ascii.zero name && (String.length name <=? 255)%nat.

End Transport.

(* ===================================================================== *)
(** * The receiver between two replies *)
(* ===================================================================== *)

Module Receiving.
Import Py Io Wire zomp_cnc.

(** The header of a reply that carries an invocation line and a
    Content-Length line, up to the terminator. *)
Definition framed_header (c text invocation : string) (n : nat) : string :=
  "ZOMP/1.0 " +:+ c +:+ " " +:+ text +:+ CRLF +:+ invocation +:+ CRLF
  +:+ "Content-Length: " +:+ str n.

(** The header of a reply that is a status line only. *)
Definition bare_header (c text : string) : string :=
  "ZOMP/1.0 " +:+ c +:+ " " +:+ text.

(** What the controller's decoder does on a header that is a status line
    only (lines 40, 54-60): the header is printed, ACCEPT is sent in answer
    to 00, the error is printed for 01 and 02. *)
Definition bare_effects (c text : string) (fx0 : effects) : effects :=
  let fx := print (bare_header c text +:+ String LF "") fx0 in
  if String.eqb c "00" then send ACCEPT_MSG fx
  else print ("Error: " +:+ c +:+ " " +:+ text) fx.

(** The receiver is between two messages: nothing buffered, no body
    pending. *)
Definition idle (r : receiver) : Prop :=
  buf (buffer r) = ""
  /\ num_chars (buffer r) <= 0
  /\ signal (buffer r) = CRLF +:+ CRLF.

(** The report files after a reply has been handled: a reply that carries a
    report (12, 30) is written to the file named after the agent and the
    invocation, the others leave the files alone. *)
Definition file_reply (zombie_id : string) (fs : gmap string string) (m : ZompMessage)
  : gmap string string :=
  if among report_codes (m_code m)
  then <[zombie_id +:+ " " +:+ m_invocation m +:+ ".txt" := m_body m]> fs
  else fs.

(** The ACCEPT messages owed to a sequence of replies: one for each 00. *)
Definition accepts (ms : list ZompMessage) : list string :=
  flat_map (fun m => if String.eqb (m_code m) "00" then [ACCEPT_MSG] else []) ms.

(** The file of a report can be written (lines 141-143): the reply carries
    no report, or the name of its file is one [open] accepts. *)
Definition storable (zombie_id : string) (m : ZompMessage) : bool :=
  negb (among report_codes (m_code m))
  || Transport.plain_name (zombie_id +:+ " " +:+ m_invocation m +:+ ".txt").

(** One way the transport may deliver a reply: non-empty receives that add
    up to its encoding. *)
Definition delivers (m : ZompMessage) (pieces : list string) : Prop :=
  Forall (fun d => d <> "") pieces /\ join "" pieces = encode m.

End Receiving.

(* ===================================================================== *)
(** * zomp_cnc.py: the operator's console *)
(* ===================================================================== *)

(** [main], [selectTarget] and the two printing helpers.  Standard input is
    the list of values the successive [sys.stdin.readline()] calls return,
    each with its line break; once the list is used up [readline] returns
    the empty string, which is how the end of the input shows. *)
Module Console.
Import Py Io zomp_cnc.

Definition NEED_SCRIPTNAME : string := "Need scriptname and arguments (if any)!".
Definition RETURN_MAIN : string := "Returning to main loop.".

(** [s.isdigit()] on the 7-bit range: at least one character, all of them
    digits. *)
Definition str_isdigit (s : string) : bool :=
  (truthy s && Wire.all_chars isdigit s)%bool.

(** [int(s)] as the console uses it, on a string of digits or a word: the
    interpreter refuses, with a [ValueError], to convert more digits than
    its limit allows ([sys.int_max_str_digits], 4300 unless it is
    reconfigured). *)
Definition int_max_str_digits : nat := 4300.

Definition to_int (s : string) : option Z :=
  if (int_max_str_digits <? String.length (strip s))%nat then None else int s.

(** The position [l[i]] reads for a Python int [i]: a negative index counts
    from the end; [None] stands for the [IndexError]. *)
Definition position {A : Type} (l : list A) (i : Z) : option nat :=
  if (0 <=? i) && (i <? Z.of_nat (length l)) then Some (Z.to_nat i)
  else if (i <? 0) && (- Z.of_nat (length l) <=? i)
       then Some (Z.to_nat (Z.of_nat (length l) + i))
       else None.

(** A registry entry seen from [main]: the [Zombie] object, what [main] has
    sent on its socket, and whether [main] has closed the socket and
    terminated the receiver process. *)
Record peer : Type := {
  zombie : Zombie;
  outbox : list string;
  sock_closed : bool;
  terminated : bool
}.

(** [zombie.sock.send(msg)] *)
Definition send_to (msg : string) (p : peer) : peer :=
  {| zombie := zombie p; outbox := outbox p ++ [msg];
     sock_closed := sock_closed p; terminated := terminated p |}.

(** Lines 168-170: CLOSE is sent, the socket closed and the receiver
    terminated. *)
Definition shut (p : peer) : peer :=
  {| zombie := zombie p; outbox := outbox p ++ [CLOSE_MSG];
     sock_closed := true; terminated := true |}.

(** The local variables of [main] and its standard streams. *)
Record console : Type := {
  zombies : list peer;
  stdin : list string;
  out : list string;
  listening : bool
}.

Definition with_out (lines : list string) (s : console) : console :=
  {| zombies := zombies s; stdin := stdin s; out := lines; listening := listening s |}.

Definition say (line : string) (s : console) : console :=
  with_out (out s ++ [line]) s.

(** [printHowTo] *)
Definition printHowTo (out : list string) : list string :=
  out ++ ["Usage: [RUN | STOP | REPORT] <scriptname> <args...>";
          "EXIT to end";
          "HELP to see this message again."].

(** [prettyPrintZombies]; a [Zombie] prints as its address. *)
Definition prettyPrintZombies (zs : list peer) (out : list string) : list string :=
  out ++ "0: ALL zombies"
      :: imap (fun i z => str (i + 1) +:+ ": " +:+ addr (zombie z)) zs
      ++ [""].

(** How a call of [selectTarget] ends. *)
Inductive selection : Type :=
| Chosen (target : Z)
| Fails (e : exn)
| Spins.

(** The condition of line 129, [(not choice.isdigit() or int(choice) >
    len(zombies)) and choice != "back"]; [None] stands for a [ValueError]
    of [int]. *)
Definition invalid (n : nat) (choice : string) : option bool :=
  if negb (str_isdigit choice) then Some (negb (String.eqb choice "back"))
  else match to_int choice with
       | Some k => Some ((Z.of_nat n <? k) && negb (String.eqb choice "back"))%bool
       | None => None
       end.

Definition INVALID_INPUT : string :=
  "Invalid input. Try again! BACK to return to main menu.".

(** The loop of lines 127-133 for a registry of [n] entries.  Each turn
    reads a line; at the end of the input [readline] returns the empty
    string for ever, the choice is invalid each time and the loop never
    ends. *)
Fixpoint selectTarget_loop (n : nat) (lines out : list string)
  : selection * list string * list string :=
  match lines with
  | [] => (Spins, [], out)
  | line :: rest =>
      let choice := strip line in
      match invalid n choice with
      | None => (Fails ValueError, rest, out)
      | Some true =>
          let out := out ++ [INVALID_INPUT] in
          if String.eqb (casefold choice) "back" then (Chosen (-1), rest, out)
          else selectTarget_loop n rest out
      | Some false =>
          match to_int choice with
          | Some k => (Chosen k, rest, out)
          | None => (Fails ValueError, rest, out)
          end
      end
  end.

(** [selectTarget]: the result, the input left and the output so far. *)
Definition selectTarget (zs : list peer) (lines out : list string)
  : selection * list string * list string :=
  if (length zs =? 0)%nat then (Chosen (-1), lines, out ++ ["No zombies available."])
  else selectTarget_loop (length zs) lines
         (prettyPrintZombies zs (out ++ ["Which zombie?"])).

(** What [select] reports ready in a turn of [main]'s loop: standard
    input, the welcome socket (an agent at address [a] connects, [inc] being
    what it will send), or the connection of a registered zombie, which
    [main] added to the list it selects on (line 196). *)
Inductive event : Type :=
| Stdin
| Connects (a : string) (inc : list string)
| Readable (i : nat).

(** How a turn of [main]'s loop ends: the loop goes on, the program exits,
    an exception escapes, or the turn never ends. *)
Inductive ending : Type :=
| Goes_on (s : console)
| Exits (s : console)
| Dies (e : exn) (s : console)
| Hangs (s : console).

(** Lines 179-188.  [makeZOMPRequest] does not depend on the zombie, so in
    the loop of line 184 it raises before the first send or not at all. *)
Definition dispatch (command script_invocation : string) (s : console) : ending :=
  match selectTarget (zombies s) (stdin s) (out s) with
  | (Spins, lines, out') =>
      Hangs {| zombies := zombies s; stdin := lines; out := out';
               listening := listening s |}
  | (Fails e, lines, out') =>
      Dies e {| zombies := zombies s; stdin := lines; out := out';
                listening := listening s |}
  | (Chosen target, lines, out') =>
      let s := {| zombies := zombies s; stdin := lines; out := out';
                  listening := listening s |} in
      if target =? -1 then Goes_on (say RETURN_MAIN s)
      else if target =? 0 then
        match zombies s with
        | [] => Goes_on s
        | _ :: _ =>
            match makeZOMPRequest command script_invocation with
            | Raise e => Dies e s
            | Return request =>
                Goes_on {| zombies := map (send_to request) (zombies s);
                           stdin := stdin s; out := out s; listening := listening s |}
            end
        end
      else
        match position (zombies s) (target - 1) with
        | None => Dies IndexError s
        | Some i =>
            match makeZOMPRequest command script_invocation with
            | Raise e => Dies e s
            | Return request =>
                Goes_on {| zombies := alter (send_to request) i (zombies s);
                           stdin := stdin s; out := out s; listening := listening s |}
            end
        end
  end.

(** Lines 161-191: a line of standard input. *)
Definition on_stdin (s : console) : ending :=
  let choice := hd "" (stdin s) in
  let s := {| zombies := zombies s; stdin := tl (stdin s); out := out s;
              listening := listening s |} in
  match split (strip choice) " " (Some 1%nat) with
  | [] => Dies ValueError s
  | command :: script_invocation =>
      let c := casefold command in
      if String.eqb c "exit" then
        Exits {| zombies := map shut (zombies s); stdin := stdin s;
                 out := out s ++ ["Shutting down C&C server..."];
                 listening := false |}
      else if String.eqb c "help" then Goes_on (with_out (printHowTo (out s)) s)
      else if (String.eqb c "run" || String.eqb c "stop" || String.eqb c "report")%bool
      then
        match script_invocation with
        | [] => Goes_on (say NEED_SCRIPTNAME s)
        | _ :: _ => dispatch command (join " " script_invocation) s
        end
      else Goes_on (say "Unknown command. HELP for more info." s)
  end.

(** Lines 193-197: the new zombie is appended to the registry and its
    receiver started. *)
Definition on_connect (a : string) (inc : list string) (s : console) : console :=
  {| zombies := zombies s
                ++ [{| zombie := {| addr := a; process := Running (spawn inc) |};
                       outbox := []; sock_closed := false; terminated := false |}];
     stdin := stdin s; out := out s; listening := listening s |}.

(** One turn of the [for sock in ready_sockets] of [main], lines 159-197;
    for a zombie's connection neither branch is taken. *)
Definition main_step (ev : event) (s : console) : ending :=
  match ev with
  | Stdin => on_stdin s
  | Connects a inc => Goes_on (on_connect a inc s)
  | Readable _ => Goes_on s
  end.

(** [main] up to its loop, lines 148-156. *)
Definition start (lines : list string) : console :=
  {| zombies := []; stdin := lines; out := printHowTo []; listening := true |}.

End Console.
(* ===================================================================== *)
(** * The built-ins on examples *)
(* ===================================================================== *)

Section BuiltinExamples.
Import Py.

Example find_examples :
  find "abcabc" "ca" = Some 2%nat /\ find "abc" "x" = None /\ find "" "" = Some 0%nat.
Proof. repeat split. Qed.

Example split_examples :
  split "ZOMP/1.0 10 OK, running script" " " (Some 2%nat)
  = ["ZOMP/1.0"; "10"; "OK, running script"]
  /\ split "a: b: " ": " None = ["a"; "b"; ""]
  /\ split ("a" +:+ CRLF +:+ CRLF +:+ "b") CRLF None = ["a"; ""; "b"]
  /\ split "" CRLF None = [""]
  /\ split "a b" " " (Some 0%nat) = ["a b"]
  /\ split "ZOMP/1.0  x" " " (Some 2%nat) = ["ZOMP/1.0"; ""; "x"].
Proof. repeat split. Qed.

Example strip_examples :
  strip "  a b  " = "a b" /\ strip (String CR (String LF "")) = ""
  /\ strip ("x" +:+ CRLF) = "x".
Proof. repeat split. Qed.

Example int_examples :
  int " -1_000 " = Some (-1000) /\ int "+5" = Some 5 /\ int "007" = Some 7
  /\ int "1__0" = None /\ int "" = None /\ int "_1" = None /\ int "1_" = None
  /\ int "- 5" = None /\ int "5 bytes" = None.
Proof. repeat split. Qed.

Example str_examples : str 1024 = "1024" /\ str 0 = "0".
Proof. repeat split. Qed.

Example case_examples :
  upper "run" = "RUN" /\ casefold "RePort" = "report" /\ upper "stop 1" = "STOP 1".
Proof. repeat split. Qed.

End BuiltinExamples.

(* ===================================================================== *)
(** * Strings: concatenation and slices *)
(* ===================================================================== *)

Section Strings.
Import Py.

Lemma app_cons c s t : String c s +:+ t = String c (s +:+ t).
Proof. reflexivity. Qed.

Lemma app_empty_l s : "" +:+ s = s.
Proof. reflexivity. Qed.

Lemma app_empty_r s : s +:+ "" = s.
Proof. induction s as [|c s IH]; [reflexivity|]. rewrite app_cons, IH. reflexivity. Qed.

Lemma app_assoc_str s t u : (s +:+ t) +:+ u = s +:+ t +:+ u.
Proof.
  induction s as [|c s IH]; [reflexivity|].
  rewrite !app_cons, IH. reflexivity.
Qed.

Lemma length_app_str s t :
  String.length (s +:+ t) = (String.length s + String.length t)%nat.
Proof.
  induction s as [|c s IH]; [reflexivity|].
  rewrite app_cons. simpl. rewrite IH. reflexivity.
Qed.

Lemma take_app_exact s t : take (String.length s) (s +:+ t) = s.
Proof.
  induction s as [|c s IH]; [destruct t; reflexivity|].
  rewrite app_cons. simpl. rewrite IH. reflexivity.
Qed.

Lemma drop_app_exact s t : drop (String.length s) (s +:+ t) = t.
Proof.
  induction s as [|c s IH]; [destruct t; reflexivity|].
  rewrite app_cons. simpl. exact IH.
Qed.

Lemma drop_app_more s t n :
  drop (String.length s + n) (s +:+ t) = drop n t.
Proof.
  induction s as [|c s IH]; [reflexivity|].
  rewrite app_cons. simpl. exact IH.
Qed.

Lemma prefix_app s t : String.prefix s (s +:+ t) = true.
Proof.
  induction s as [|c s IH]; [destruct t; reflexivity|].
  rewrite app_cons. simpl. destruct (ascii_dec c c); [exact IH|contradiction].
Qed.

End Strings.

(* ===================================================================== *)
(** * Strings: searching *)
(* ===================================================================== *)

Section Search.
Import Py Wire.

Lemma all_chars_app p s t : all_chars p (s +:+ t) = all_chars p s && all_chars p t.
Proof.
  induction s as [|c s IH]; [reflexivity|].
  rewrite app_cons. simpl. rewrite IH, andb_assoc. reflexivity.
Qed.

Lemma all_chars_weaken (p q : ascii -> bool) s :
  (forall c, p c = true -> q c = true) ->
  all_chars p s = true -> all_chars q s = true.
Proof.
  intros Hpq. induction s as [|c s IH]; [reflexivity|]. simpl.
  intros [Hc Hs]%andb_prop. rewrite (Hpq _ Hc), (IH Hs). reflexivity.
Qed.

Lemma lacks_app c s t : lacks c (s +:+ t) = lacks c s && lacks c t.
Proof. apply all_chars_app. Qed.

Lemma prefix_other_head c0 sub c s :
  Ascii.eqb c c0 = false -> String.prefix (String c0 sub) (String c s) = false.
Proof.
  intros H. simpl. destruct (ascii_dec c0 c) as [->|]; [|reflexivity].
  rewrite Ascii.eqb_refl in H. discriminate.
Qed.

(** A stretch without the first character of [sub] is skipped. *)
Lemma find_skip c0 sub a s :
  lacks c0 a = true ->
  find (a +:+ s) (String c0 sub) = (fun i => (String.length a + i)%nat) <$> find s (String c0 sub).
Proof.
  intros H. induction a as [|c a IH].
  - rewrite app_empty_l. destruct (find s _); reflexivity.
  - simpl in H. apply andb_prop in H as [Hc Ha]. apply negb_true_iff in Hc.
    rewrite app_cons. cbn [find]. rewrite (prefix_other_head _ _ _ _ Hc), (IH Ha).
    destruct (find s _); reflexivity.
Qed.

Lemma find_here s sub : String.prefix sub s = true -> find s sub = Some 0%nat.
Proof. intros H. destruct s; simpl in *; rewrite H; reflexivity. Qed.

Lemma find_absent c0 sub s : lacks c0 s = true -> find s (String c0 sub) = None.
Proof.
  intros H. rewrite <- (app_empty_r s), (find_skip _ _ _ _ H). reflexivity.
Qed.

(** The first cut: [a] lacks the separator's first character. *)
Lemma find_first c0 sub a s :
  lacks c0 a = true ->
  find (a +:+ String c0 sub +:+ s) (String c0 sub) = Some (String.length a).
Proof.
  intros H. rewrite (find_skip _ _ _ _ H), (find_here _ _ (prefix_app _ _)).
  simpl. f_equal. lia.
Qed.

End Search.

(* ===================================================================== *)
(** * Strings: splitting *)
(* ===================================================================== *)

Section Splitting.
Import Py Wire.

Lemma length_drop n : forall s, String.length (drop n s) = (String.length s - n)%nat.
Proof.
  induction n as [|n IH]; intros [|c s]; simpl; try reflexivity. apply IH.
Qed.

Lemma find_empty c0 sub : find "" (String c0 sub) = None.
Proof. reflexivity. Qed.

(** More rounds than characters change nothing. *)
Lemma split_rounds_enough c0 sub : forall r1 r2 s m,
  (String.length s <= r1)%nat -> (String.length s <= r2)%nat ->
  split_rounds r1 s (String c0 sub) m = split_rounds r2 s (String c0 sub) m.
Proof.
  induction r1 as [|r1 IH]; intros r2 s m H1 H2.
  - destruct s; [|simpl in H1; lia].
    destruct r2 as [|r2]; [reflexivity|]. simpl. destruct m as [[|m]|]; reflexivity.
  - destruct r2 as [|r2].
    + destruct s; [|simpl in H2; lia]. simpl. destruct m as [[|m]|]; reflexivity.
    + cbn [split_rounds].
      destruct s as [|c s].
      { rewrite find_empty. reflexivity. }
      assert (Hdrop : forall i,
                 (String.length (drop (i + String.length (String c0 sub)) (String c s))
                  <= String.length s)%nat).
      { intros i. rewrite length_drop. simpl. lia. }
      simpl in H1, H2.
      destruct m as [[|m]|]; [reflexivity| |];
        (destruct (find (String c s) (String c0 sub)) as [i|]; [|reflexivity]);
        f_equal; apply IH; specialize (Hdrop i); lia.
Qed.

Lemma split_unfold c0 sub s m :
  split s (String c0 sub) m =
  match m with
  | Some O => [s]
  | _ =>
      match find s (String c0 sub) with
      | None => [s]
      | Some i =>
          take i s :: split (drop (i + String.length (String c0 sub)) s) (String c0 sub)
                            (Nat.pred <$> m)
      end
  end.
Proof.
  unfold split. destruct s as [|c s].
  - simpl. destruct m as [[|m]|]; reflexivity.
  - cbn [String.length split_rounds].
    destruct m as [[|m]|]; [reflexivity| |];
      (destruct (find (String c s) (String c0 sub)) as [i|]; [|reflexivity]);
      f_equal; apply split_rounds_enough; rewrite ?length_drop; simpl; lia.
Qed.

(** A piece without the separator's first character, then the separator. *)
Lemma split_cut c0 sub a b m :
  lacks c0 a = true ->
  m <> Some 0%nat ->
  split (a +:+ String c0 sub +:+ b) (String c0 sub) m
  = a :: split b (String c0 sub) (Nat.pred <$> m).
Proof.
  intros Ha Hm. rewrite split_unfold, (find_first _ _ _ _ Ha).
  rewrite take_app_exact, drop_app_more, drop_app_exact.
  destruct m as [[|m]|]; [contradiction|reflexivity|reflexivity].
Qed.

(** The last piece. *)
Lemma split_whole c0 sub a m :
  lacks c0 a = true -> split a (String c0 sub) m = [a].
Proof.
  intros Ha. rewrite split_unfold, (find_absent _ _ _ Ha).
  destruct m as [[|m]|]; reflexivity.
Qed.

Lemma split_spent s sep : split s sep (Some 0%nat) = [s].
Proof. unfold split. destruct (String.length s); reflexivity. Qed.

End Splitting.

(* ===================================================================== *)
(** * Strings: stripping *)
(* ===================================================================== *)

Section Stripping.
Import Py Wire.

Lemma rstrip_app a t : rstrip t = t -> t <> "" -> rstrip (a +:+ t) = a +:+ t.
Proof.
  intros Ht Hne. induction a as [|c a IH]; [exact Ht|].
  rewrite app_cons. cbn [rstrip]. rewrite IH.
  destruct (a +:+ t) eqn:E; [|reflexivity].
  destruct a; [rewrite app_empty_l in E; contradiction|discriminate].
Qed.

Lemma rstrip_no_space s : all_chars (fun c => negb (isspace c)) s = true -> rstrip s = s.
Proof.
  induction s as [|c s IH]; [reflexivity|]. simpl.
  intros [Hc Hs]%andb_prop. rewrite (IH Hs). apply negb_true_iff in Hc. rewrite Hc.
  destruct s; reflexivity.
Qed.

Lemma lstrip_head c s : isspace c = false -> lstrip (String c s) = String c s.
Proof. intros H. simpl. rewrite H. reflexivity. Qed.

End Stripping.

(* ===================================================================== *)
(** * Decimal digits: [str] and [int] *)
(* ===================================================================== *)

Section Digits.
Import Py Wire.

Lemma digits_of_uint d : all_chars isdigit (NilEmpty.string_of_uint d) = true.
Proof. induction d; simpl; try reflexivity; exact IHd. Qed.

Lemma int_digits_of_uint d : forall a,
  int_digits (Z.of_nat a) true (NilEmpty.string_of_uint d)
  = Some (Z.of_nat (Nat.of_uint_acc d a)).
Proof.
  induction d; intros a; cbn [NilEmpty.string_of_uint Nat.of_uint_acc];
    [reflexivity|..];
    cbn [int_digits]; 
    match goal with
    | |- context [digit_value ?c] =>
        let v := eval vm_compute in (digit_value c) in
        change (digit_value c) with v
    end; cbv iota;
    rewrite <- IHd; f_equal; rewrite Nat.tail_mul_spec; lia.
Qed.

Lemma str_shape n :
  exists c rest,
    str n = String c rest
    /\ isdigit c = true
    /\ all_chars isdigit rest = true
    /\ int_digits 0 false (String c rest) = Some (Z.of_nat n).
Proof.
  unfold str.
  assert (Hn : n = Nat.of_uint (Nat.to_uint n)) by (symmetry; apply Unsigned.of_to).
  remember (Nat.to_uint n) as u eqn:Hu. clear Hu. subst n.
  unfold Nat.of_uint.
  destruct u as [|d|d|d|d|d|d|d|d|d|d];
    cbn [NilZero.string_of_uint NilEmpty.string_of_uint];
    eexists _, _; (split; [reflexivity|]); (split; [reflexivity|]);
    (split; [try reflexivity; apply digits_of_uint|]);
    try reflexivity;
    cbn [int_digits Nat.of_uint_acc];
    match goal with
    | |- context [digit_value ?c] =>
        let v := eval vm_compute in (digit_value c) in
        change (digit_value c) with v
    end; cbv iota;
    rewrite <- int_digits_of_uint; f_equal.
Qed.

Lemma digit_properties c :
  isdigit c = true ->
  isspace c = false /\ Ascii.eqb c "-" = false /\ Ascii.eqb c "+" = false
  /\ Ascii.eqb c ":" = false /\ Ascii.eqb c CR = false /\ Ascii.eqb c LF = false.
Proof.
  destruct c as [[] [] [] [] [] [] [] []]; vm_compute; intros H;
    first [discriminate H | repeat split].
Qed.

Lemma digits_lack c s :
  isdigit c = false -> all_chars isdigit s = true -> lacks c s = true.
Proof.
  intros Hc. apply all_chars_weaken. intros x Hx.
  apply negb_true_iff. destruct (Ascii.eqb_spec x c) as [->|]; [|reflexivity].
  rewrite Hx in Hc. discriminate.
Qed.

Lemma digits_no_space s :
  all_chars isdigit s = true -> all_chars (fun c => negb (isspace c)) s = true.
Proof.
  apply all_chars_weaken. intros c Hc.
  destruct (digit_properties c Hc) as [-> _]. reflexivity.
Qed.

(** [int(str(n)) == n] *)
Lemma int_str n : int (str n) = Some (Z.of_nat n).
Proof.
  destruct (str_shape n) as (c & rest & -> & Hc & Hrest & Hint).
  unfold int, strip.
  destruct (digit_properties c Hc) as (Hsp & Hminus & Hplus & _).
  rewrite (lstrip_head _ _ Hsp).
  rewrite rstrip_no_space.
  - rewrite Hminus, Hplus. exact Hint.
  - simpl. rewrite Hsp. exact (digits_no_space _ Hrest).
Qed.

Lemma str_lacks c n : isdigit c = false -> lacks c (str n) = true.
Proof.
  intros Hc. destruct (str_shape n) as (d & rest & -> & Hd & Hrest & _).
  apply digits_lack; [exact Hc|]. simpl. rewrite Hd. exact Hrest.
Qed.

End Digits.

(* ===================================================================== *)
(** * The lines of a header *)
(* ===================================================================== *)

Section Lines.
Import Py Wire.

(** Over a line break that a non-empty line without CR follows. *)
Lemma find_signal_next_line L s :
  lacks CR L = true -> L <> "" ->
  find (CRLF +:+ L +:+ s) (CRLF +:+ CRLF)
  = (fun i => (2 + String.length L + i)%nat) <$> find s (CRLF +:+ CRLF).
Proof.
  intros HL Hne. destruct L as [|x L]; [contradiction|].
  pose proof HL as HL'. simpl in HL'. apply andb_prop in HL' as [Hx _].
  apply negb_true_iff in Hx.
  change (CRLF +:+ String x L +:+ s)
    with (String CR (String LF (String x L +:+ s))).
  change (CRLF +:+ CRLF) with (String CR (String LF (String CR (String LF "")))).
  assert (H0 : String.prefix (String CR (String LF (String CR (String LF ""))))
                             (String CR (String LF (String x L +:+ s))) = false).
  { rewrite app_cons. cbn [String.prefix].
    destruct (ascii_dec CR CR); [|contradiction].
    destruct (ascii_dec LF LF); [|contradiction].
    destruct (ascii_dec CR x) as [<-|]; [|reflexivity].
    rewrite Ascii.eqb_refl in Hx. discriminate. }
  cbn [find]. rewrite H0.
  rewrite (prefix_other_head CR _ LF _ eq_refl).
  rewrite (find_skip CR _ (String x L) s HL).
  destruct (find s _); reflexivity.
Qed.

Lemma find_signal_bare L tail :
  lacks CR L = true ->
  find (L +:+ CRLF +:+ CRLF +:+ tail) (CRLF +:+ CRLF) = Some (String.length L).
Proof. intros HL. exact (find_first CR _ L tail HL). Qed.

Lemma find_signal_framed L1 L2 L3 tail :
  lacks CR L1 = true -> lacks CR L2 = true -> lacks CR L3 = true ->
  L2 <> "" -> L3 <> "" ->
  find ((L1 +:+ CRLF +:+ L2 +:+ CRLF +:+ L3) +:+ CRLF +:+ CRLF +:+ tail) (CRLF +:+ CRLF)
  = Some (String.length (L1 +:+ CRLF +:+ L2 +:+ CRLF +:+ L3)).
Proof.
  intros H1 H2 H3 N2 N3.
  rewrite !app_assoc_str.
  change (CRLF +:+ CRLF) with (String CR (String LF (String CR (String LF "")))).
  rewrite (find_skip CR _ L1 _ H1).
  change (String CR (String LF (String CR (String LF "")))) with (CRLF +:+ CRLF).
  rewrite (find_signal_next_line L2 _ H2 N2), (find_signal_next_line L3 _ H3 N3).
  assert (Hp : String.prefix (CRLF +:+ CRLF) (CRLF +:+ CRLF +:+ tail) = true)
    by exact (prefix_app (CRLF +:+ CRLF) tail).
  rewrite (find_here _ _ Hp).
  simpl. f_equal. rewrite !length_app_str. simpl. lia.
Qed.

Lemma split_lines_cut a b :
  lacks CR a = true -> split (a +:+ CRLF +:+ b) CRLF None = a :: split b CRLF None.
Proof. intros Ha. exact (split_cut CR _ a b None Ha ltac:(discriminate)). Qed.

Lemma split_lines_last a : lacks CR a = true -> split a CRLF None = [a].
Proof. intros Ha. exact (split_whole CR _ a None Ha). Qed.

Lemma status_line_strip code text :
  text <> "" -> rstrip text = text ->
  strip ("ZOMP/1.0 " +:+ code +:+ " " +:+ text) = "ZOMP/1.0 " +:+ code +:+ " " +:+ text.
Proof.
  intros Hne Hr. unfold strip.
  change ("ZOMP/1.0 " +:+ code +:+ " " +:+ text)
    with (String "Z" ("OMP/1.0 " +:+ code +:+ " " +:+ text)).
  rewrite (lstrip_head "Z" _ eq_refl).
  change (String "Z" ("OMP/1.0 " +:+ code +:+ " " +:+ text))
    with ("ZOMP/1.0 " +:+ code +:+ " " +:+ text).
  rewrite <- !app_assoc_str. apply rstrip_app; assumption.
Qed.

Lemma status_line_split code text :
  lacks " " code = true ->
  split ("ZOMP/1.0 " +:+ code +:+ " " +:+ text) " " (Some 2%nat)
  = ["ZOMP/1.0"; code; text].
Proof.
  intros Hc.
  change ("ZOMP/1.0 " +:+ code +:+ " " +:+ text)
    with ("ZOMP/1.0" +:+ " " +:+ code +:+ " " +:+ text).
  rewrite (split_cut " " "" "ZOMP/1.0" _ (Some 2%nat) eq_refl ltac:(discriminate)).
  cbn [fmap option_fmap option_map Nat.pred].
  rewrite (split_cut " " "" code text (Some 1%nat) Hc ltac:(discriminate)).
  cbn [fmap option_fmap option_map Nat.pred].
  rewrite split_spent. reflexivity.
Qed.

Lemma content_length_value n :
  split ("Content-Length: " +:+ str n) ": " None !! 1%nat = Some (str n).
Proof.
  change ("Content-Length: " +:+ str n) with ("Content-Length" +:+ ": " +:+ str n).
  rewrite (split_cut ":" " " "Content-Length" _ None eq_refl ltac:(discriminate)).
  cbn [fmap option_fmap option_map].
  rewrite (split_whole ":" " " (str n) None (str_lacks ":" n eq_refl)).
  reflexivity.
Qed.

End Lines.

(* ===================================================================== *)
(** * The encoders *)
(* ===================================================================== *)

Section Encoders.
Import Py.

(** The agent's encoder on a code that does not start with "0". *)
Lemma makeZOMPResponse_framed code text invocation body :
  startswith code "0" = false ->
  zompie.makeZOMPResponse code text invocation body
  = Wire.framed code text invocation body.
Proof.
  intros H. unfold zompie.makeZOMPResponse, Wire.framed. rewrite H. cbn [negb].
  destruct body as [|b body]; cbn [truthy];
    rewrite ?app_assoc_str, ?app_empty_r; reflexivity.
Qed.

(** The agent's encoder on a code that starts with "0": the status line
    and the closing line break, nothing else. *)
Lemma makeZOMPResponse_bare code text :
  startswith code "0" = true ->
  zompie.makeZOMPResponse code text "" ""
  = "ZOMP/1.0 " +:+ code +:+ " " +:+ text +:+ CRLF +:+ CRLF.
Proof.
  intros H. unfold zompie.makeZOMPResponse. rewrite H. cbn [negb truthy].
  rewrite ?app_assoc_str. reflexivity.
Qed.

End Encoders.
(* ===================================================================== *)
(** * The agent: what a decoded request guarantees *)
(* ===================================================================== *)

Section AgentDecode.
Import Py Io zompie.

(** A call that hands back an invocation has sent nothing. *)
Lemma agent_decode_some_sends_nothing fs0 inc : forall self fx0 k self' inc' fx',
  bufferMessages fs0 self inc fx0 = (Return (Some k), self', inc', fx') ->
  sent fx' = sent fx0.
Proof.
  induction inc as [|data rest IH]; intros self fx0 k self' inc' fx' H; simpl in H.
  - discriminate.
  - destruct (len data =? 0); [discriminate|].
    destruct (find _ _) as [i|]; [|exact (IH _ _ _ _ _ _ H)].
    destruct (unpack_request_line _) as [[[[sl v] c] cmd]|]; [|discriminate].
    repeat match type of H with
           | (if ?b then _ else _) = _ => destruct b
           | match ?l with [] => _ | _ :: _ => _ end = _ => destruct l
           end; try discriminate; injection H as <- <- <- <-; reflexivity.
Qed.

(** When the call hands back an invocation under code 1, 2 or 3, the
    invocation is the one just parsed, its script exists, and [args] starts
    with the script's path. *)
Lemma agent_decode_command fs0 inc : forall self fx0 k self' inc' fx',
  bufferMessages fs0 self inc fx0 = (Return (Some k), self', inc', fx') ->
  (code self' = "1" \/ code self' = "2" \/ code self' = "3") ->
  exists scriptname more,
    args self' = ("./" +:+ scriptname) :: more
    /\ filepath self' = "./" +:+ scriptname
    /\ filepath self' ∈ fs0
    /\ script_invocation self' = k.
Proof.
  induction inc as [|data rest IH]; intros self fx0 k self' inc' fx' H Hc; simpl in H.
  - discriminate.
  - destruct (len data =? 0); [discriminate|].
    destruct (find _ _) as [i|]; [|exact (IH _ _ _ _ _ _ H Hc)].
    destruct (unpack_request_line _) as [[[[sl v] c] cmd]|]; [|discriminate].
    destruct (_ && _)%bool; [discriminate|].
    destruct (String.eqb c "9"); [discriminate|].
    destruct (String.eqb c "5"); [discriminate|].
    destruct (String.eqb c "0"); [discriminate|].
    destruct (_ || _)%bool eqn:E123.
    + destruct (split _ _ _) as [|scriptname more]; [discriminate|].
      destruct (bool_decide _) eqn:Hex; simpl in H; [|discriminate].
      injection H as <- <- <- <-. exists scriptname, more.
      apply bool_decide_eq_true in Hex. simpl in *. auto.
    + injection H as <- <- <- <-. simpl in Hc.
      destruct Hc as [->| [->| ->]]; discriminate.
Qed.

(** A turn whose decode hands back a non-empty invocation dispatches on the
    code. *)
Lemma main_turn_dispatch (a : agent) k self inc fx' :
  bufferMessages (fs a) (buffer a) (conn a) (fx a) = (Return (Some k), self, inc, fx') ->
  k <> "" ->
  main_turn a =
    let served := with_io self inc fx' a in
    if String.eqb (code self) "1" then on_run k served
    else if String.eqb (code self) "2" then on_stop k served
    else if String.eqb (code self) "3" then on_report k served
    else Continue served.
Proof.
  intros H Hk. unfold main_turn. rewrite H.
  destruct k as [|c k']; [contradiction|reflexivity].
Qed.

End AgentDecode.

(* ===================================================================== *)
(** * The agent: RUN, STOP and REPORT *)
(* ===================================================================== *)

Section AgentRequests.
Import Py Io zompie.

(** C4.  A RUN request for an existing script: when a task for the key is
    running the agent replies 11 and changes nothing else; otherwise it
    replies 12 with the cached report as the body when the cache holds one
    and 10 when it does not, and in both cases stores and starts a new
    background process for the key. *)
Theorem run_request_handling (a : agent) (k : string) self inc fx' :
  bufferMessages (fs a) (buffer a) (conn a) (fx a) = (Return (Some k), self, inc, fx') ->
  k <> "" ->
  code self = "1" ->
  (running a k = true ->
   main_turn a =
     Continue (reply (makeZOMPResponse "11" "Ignore, script already running" k "")
                     (with_io self inc fx' a)))
  /\ (running a k = false ->
      exists a',
        main_turn a = Continue a'
        /\ sent (fx a') =
             sent (fx a) ++
             [match reports a !! k with
              | Some report =>
                  "ZOMP/1.0 12 OK, returning existing report" +:+ CRLF
                  +:+ k +:+ CRLF
                  +:+ "Content-Length: " +:+ str (String.length report) +:+ CRLF
                  +:+ CRLF +:+ report
              | None => makeZOMPResponse "10" "OK, running script" k ""
              end]
        /\ processes a' =
             <[k := {| pid := next_pid a; target_invocation := k;
                       target_args := args self |}]> (processes a)
        /\ alive a' = {[next_pid a]} ∪ alive a
        /\ running a' k = true
        /\ reports a' = reports a).
Proof.
  intros Hdec Hk Hcode.
  pose proof (agent_decode_some_sends_nothing _ _ _ _ _ _ _ _ Hdec) as Hsent.
  destruct (agent_decode_command _ _ _ _ _ _ _ _ Hdec (or_introl Hcode))
    as (scriptname & more & Hargs & _).
  rewrite (main_turn_dispatch _ _ _ _ _ Hdec Hk), Hcode. cbn zeta.
  change (String.eqb "1" "1") with true. cbv iota.
  unfold on_run.
  change (running (with_io self inc fx' a) k) with (running a k).
  split; intros Hrun; rewrite Hrun; [reflexivity|].
  change (reports (with_io self inc fx' a)) with (reports a).
  destruct (reports a !! k) as [report|] eqn:Hrep.
  - eexists; split; [reflexivity|]. simpl. rewrite Hsent.
    repeat split.
    + rewrite makeZOMPResponse_framed by reflexivity. reflexivity.
    + unfold running. simpl. rewrite lookup_insert_eq. unfold is_alive. simpl.
      apply bool_decide_eq_true, elem_of_union_l, elem_of_singleton. reflexivity.
  - simpl. rewrite Hargs.
    eexists; split; [reflexivity|]. simpl. rewrite Hsent, Hargs.
    repeat split.
    unfold running. simpl. rewrite lookup_insert_eq. unfold is_alive. simpl.
    apply bool_decide_eq_true, elem_of_union_l, elem_of_singleton. reflexivity.
Qed.

(** Witness for C4: the first RUN of [echo.sh hi] on a fresh agent. *)
Lemma run_request_handling_witness :
  exists self inc fx',
    bufferMessages (fs (Scenario.agent0 [Scenario.RUN_echo]))
                   (buffer (Scenario.agent0 [Scenario.RUN_echo]))
                   (conn (Scenario.agent0 [Scenario.RUN_echo]))
                   (fx (Scenario.agent0 [Scenario.RUN_echo]))
    = (Return (Some Scenario.echo), self, inc, fx')
    /\ code self = "1"
    /\ running (Scenario.agent0 [Scenario.RUN_echo]) Scenario.echo = false
    /\ exists a',
         main_turn (Scenario.agent0 [Scenario.RUN_echo]) = Continue a'
         /\ sent (fx a') =
              [READY_MSG; makeZOMPResponse "10" "OK, running script" Scenario.echo ""]
         /\ running a' Scenario.echo = true.
Proof.
  eexists _, _, _.
  split; [vm_compute; reflexivity|].
  split; [reflexivity|].
  split; [reflexivity|].
  edestruct (run_request_handling (Scenario.agent0 [Scenario.RUN_echo]) Scenario.echo)
    as [_ H]; [vm_compute; reflexivity|discriminate|reflexivity|].
  destruct (H eq_refl) as (a' & Hturn & Hsent & _ & _ & Hrun & _).
  exists a'. split; [exact Hturn|]. split; [exact Hsent|exact Hrun].
Defined.



(** C9.  A REPORT request for a key whose task-table entry is there, whose
    process is no longer alive and for which the report cache holds
    nothing: the cache lookup raises KeyError, nothing is sent, and the
    serve loop ends with that exception. *)
Theorem report_without_cached_result_raises (a : agent) (k : string) self inc fx' p :
  bufferMessages (fs a) (buffer a) (conn a) (fx a) = (Return (Some k), self, inc, fx') ->
  k <> "" ->
  code self = "3" ->
  processes a !! k = Some p ->
  is_alive a p = false ->
  reports a !! k = None ->
  exists a',
    main_turn a = Crash KeyError a'
    /\ sent (fx a') = sent (fx a)
    /\ forall turns, main_loop (S turns) a = Crash KeyError a'.
Proof.
  intros Hdec Hk Hcode Hp Hdead Hrep.
  pose proof (agent_decode_some_sends_nothing _ _ _ _ _ _ _ _ Hdec) as Hsent.
  assert (Hturn : main_turn a =
                  Crash KeyError (say ("Reporting on " +:+ k +:+ "...")
                                      (with_io self inc fx' a))).
  { rewrite (main_turn_dispatch _ _ _ _ _ Hdec Hk), Hcode. cbn zeta.
    change (String.eqb "3" "1") with false. change (String.eqb "3" "2") with false.
    change (String.eqb "3" "3") with true. cbv iota. unfold on_report.
    change (processes (with_io self inc fx' a)) with (processes a).
    rewrite Hp.
    change (is_alive (with_io self inc fx' a) p) with (is_alive a p).
    rewrite Hdead. cbn zeta.
    change (reports (say _ _)) with (reports a). rewrite Hrep. reflexivity. }
  eexists. split; [exact Hturn|]. split; [exact Hsent|].
  intros turns. cbn [main_loop]. rewrite Hturn. reflexivity.
Qed.

(** Witness for C9: RUN was served, the script exited with a non-zero
    status, and REPORT arrives. *)
Lemma report_without_cached_result_raises_witness :
  exists self inc fx',
    bufferMessages (fs (Scenario.agent_failed [Scenario.REPORT_echo]))
                   (buffer (Scenario.agent_failed [Scenario.REPORT_echo]))
                   (conn (Scenario.agent_failed [Scenario.REPORT_echo]))
                   (fx (Scenario.agent_failed [Scenario.REPORT_echo]))
    = (Return (Some Scenario.echo), self, inc, fx')
    /\ code self = "3"
    /\ exists a',
         main_turn (Scenario.agent_failed [Scenario.REPORT_echo]) = Crash KeyError a'
         /\ sent (fx a') = sent (fx (Scenario.agent_failed [Scenario.REPORT_echo])).
Proof.
  eexists _, _, _.
  split; [vm_compute; reflexivity|].
  split; [reflexivity|].
  edestruct (report_without_cached_result_raises
               (Scenario.agent_failed [Scenario.REPORT_echo]) Scenario.echo)
    as (a' & Hturn & Hsent & _);
    [vm_compute; reflexivity|discriminate|reflexivity
    |vm_compute; reflexivity|vm_compute; reflexivity|vm_compute; reflexivity|].
  exists a'. split; [exact Hturn|exact Hsent].
Defined.

(** C6.  REPORT branches on the task table, not on the report cache.  With
    an entry whose process has died without storing a report the turn ends
    in KeyError and no reply is sent; with a cached report but no entry
    (a completed run, then a second RUN stopped before it completed) the
    reply is 32. *)
Example report_ignores_the_cache :
  (running (Scenario.agent_failed [Scenario.REPORT_echo]) Scenario.echo = false
   /\ reports (Scenario.agent_failed [Scenario.REPORT_echo]) !! Scenario.echo = None
   /\ exists a',
        main_turn (Scenario.agent_failed [Scenario.REPORT_echo]) = Crash KeyError a'
        /\ sent (fx a') = sent (fx (Scenario.agent_failed [Scenario.REPORT_echo])))
  /\ (running (Scenario.agent_rerun_stopped [Scenario.REPORT_echo]) Scenario.echo = false
      /\ reports (Scenario.agent_rerun_stopped [Scenario.REPORT_echo]) !! Scenario.echo
         = Some ("hi" +:+ String LF "")
      /\ exists a',
           main_turn (Scenario.agent_rerun_stopped [Scenario.REPORT_echo]) = Continue a'
           /\ sent (fx a') =
                sent (fx (Scenario.agent_rerun_stopped [Scenario.REPORT_echo]))
                ++ [makeZOMPResponse "32" "No report, not running script"
                                     Scenario.echo ""]).
Proof.
  split.
  - split; [vm_compute; reflexivity|]. split; [vm_compute; reflexivity|].
    eexists. split; [vm_compute; reflexivity|]. vm_compute; reflexivity.
  - split; [vm_compute; reflexivity|]. split; [vm_compute; reflexivity|].
    eexists. split; [vm_compute; reflexivity|]. vm_compute; reflexivity.
Qed.

(** C7.  The controller's NOT UNDERSTOOD message carries no invocation
    line, so the missing-invocation guard, which exempts only the codes 9
    and 0, answers it with 01 before the code 5 branch is reached: the
    agent sends a reply and logs nothing about the message. *)
Example not_understood_is_answered :
  exists a',
    main_turn (Scenario.agent0 [zomp_cnc.NOT_UNDERSTOOD]) = Continue a'
    /\ code (buffer a') = "5"
    /\ sent (fx a') = [READY_MSG; makeZOMPResponse "01" "Bad request" "" ""]
    /\ stdout (fx a') = ["ZOMP/1.0 5 NOT UNDERSTOOD" +:+ String LF ""].
Proof.
  eexists. split; [vm_compute; reflexivity|].
  repeat split.
Qed.

End AgentRequests.

(* ===================================================================== *)
(** * The controller: decoding replies *)
(* ===================================================================== *)

Section ControllerDecode.
Import Py Io zomp_cnc.

Lemma len_nonempty data : data <> "" -> (len data =? 0) = false.
Proof.
  intros H. destruct data as [|c d]; [contradiction|].
  apply Z.eqb_neq. unfold len. simpl. lia.
Qed.

(** C1.  A code 30 reply that declares five body bytes arrives together
    with three bytes of the next message: the decoder hands back all eight
    bytes, all eight are written to the report file, and the receiver then
    empties the buffer, so the three surplus bytes are gone. *)
Example body_decode_returns_the_surplus :
  (exists self fx',
     bufferMessages init [Scenario.report_and_surplus] silent
     = (Return (Some ("hello" +:+ "ZOM")), self, [], fx')
     /\ num_chars self = 5
     /\ buf self = "hello" +:+ "ZOM")
  /\ exists r,
       handleResponses_turn "agent" (spawn [Scenario.report_and_surplus]) = Running r
       /\ files r !! "agent echo.sh hi.txt" = Some ("hello" +:+ "ZOM")
       /\ buf (buffer r) = "".
Proof.
  split.
  - eexists _, _. split; [vm_compute; reflexivity|]. split; reflexivity.
  - eexists. split; [vm_compute; reflexivity|]. split; vm_compute; reflexivity.
Qed.

(** C10.  A header whose status line parses, whose code is none of 00, 01
    and 02, and which has not exactly two further lines: the two-element
    unpacking raises ValueError outside the [try], nothing is sent (no NOT
    UNDERSTOOD), and the receiver process dies of the exception. *)
Theorem short_header_raises_ValueError
        (self : ZOMPResponseBuffer) (data : string) (rest : list string)
        (fx0 : effects) (i : nat) (status_line : string)
        (rest_of_header : list string) (version c msg : string) :
  num_chars self <= 0 ->
  data <> "" ->
  find (buf self +:+ data) (signal self) = Some i ->
  split (take i (buf self +:+ data)) CRLF None = status_line :: rest_of_header ->
  split (strip status_line) " " (Some 2%nat) = [version; c; msg] ->
  c <> "00" -> c <> "01" -> c <> "02" ->
  length rest_of_header <> 2%nat ->
  exists self' fx',
    bufferMessages self (data :: rest) fx0 = (Raise ValueError, self', rest, fx')
    /\ sent fx' = sent fx0
    /\ forall zombie_id reports turns,
         handleResponses (S turns) zombie_id
           {| buffer := self; conn := data :: rest; fx := fx0; files := reports |}
         = Crashed ValueError
             {| buffer := self'; conn := rest; fx := fx'; files := reports |}.
Proof.
  intros Hn Hdata Hfind Hsplit Hstatus H00 H01 H02 Hlen.
  assert (Hdec : exists self' fx',
             bufferMessages self (data :: rest) fx0 = (Raise ValueError, self', rest, fx')
             /\ sent fx' = sent fx0).
  { cbn [bufferMessages].
    apply Z.leb_le in Hn. rewrite Hn, (len_nonempty _ Hdata).
    cbn zeta. cbn [buf signal set_buf]. rewrite Hfind.
    unfold unpack_status_line. rewrite Hsplit, Hstatus.
    apply String.eqb_neq in H00, H01, H02. rewrite H00, H01, H02. cbn [orb].
    destruct rest_of_header as [|l1 [|l2 [|l3 more]]];
      try (eexists _, _; split; reflexivity).
    contradiction. }
  destruct Hdec as (self' & fx' & Hdec & Hsent).
  exists self', fx'. split; [exact Hdec|]. split; [exact Hsent|].
  intros zombie_id reports turns.
  cbn [handleResponses]. unfold handleResponses_turn. cbn [buffer conn fx files].
  rewrite Hdec. reflexivity.
Qed.

(** Witness for C10: a code 10 reply that consists of its status line only. *)
Lemma short_header_raises_ValueError_witness :
  exists self' fx',
    bufferMessages init [Scenario.headless_reply] silent
    = (Raise ValueError, self', [], fx')
    /\ sent fx' = [].
Proof.
  destruct (short_header_raises_ValueError
              init Scenario.headless_reply [] silent 30
              "ZOMP/1.0 10 OK, running script" [] "ZOMP/1.0" "10" "OK, running script")
    as (self' & fx' & Hdec & Hsent & _).
  - vm_compute. discriminate.
  - discriminate.
  - reflexivity.
  - reflexivity.
  - reflexivity.
  - discriminate.
  - discriminate.
  - discriminate.
  - discriminate.
  - exists self', fx'. split; [exact Hdec|exact Hsent].
Defined.

End ControllerDecode.

(* ===================================================================== *)
(** * The controller: a receiver whose peer has closed *)
(* ===================================================================== *)

Section ControllerReceiver.
Import Py Io zomp_cnc.

(** A receive of zero bytes ends the decode call with [None] and leaves the
    buffer object as it was. *)
Lemma decode_on_closed_connection (self : ZOMPResponseBuffer) (fx0 : effects) :
  num_chars self <= 0 \/ len (buf self) < num_chars self ->
  bufferMessages self [] fx0 = (Return None, self, [], fx0).
Proof.
  intros H. cbn [bufferMessages].
  destruct (num_chars self <=? 0) eqn:Hle; [reflexivity|].
  apply Z.leb_gt in Hle. cbn [read_body].
  destruct H as [H|H]; [lia|].
  apply Z.ltb_lt in H. rewrite H. reflexivity.
Qed.

Lemma turn_on_closed_connection (r : receiver) (zombie_id : string) :
  conn r = [] ->
  num_chars (buffer r) <= 0 \/ len (buf (buffer r)) < num_chars (buffer r) ->
  handleResponses_turn zombie_id r = Running r.
Proof.
  intros Hc Hn. unfold handleResponses_turn.
  rewrite Hc, (decode_on_closed_connection _ _ Hn).
  destruct r as [b c f fl]. simpl in Hc. subst c. reflexivity.
Qed.

Lemma loop_on_closed_connection (r : receiver) (zombie_id : string) :
  conn r = [] ->
  num_chars (buffer r) <= 0 \/ len (buf (buffer r)) < num_chars (buffer r) ->
  forall turns, handleResponses turns zombie_id r = Running r.
Proof.
  intros Hc Hn turns. induction turns as [|turns IH]; [reflexivity|].
  cbn [handleResponses]. rewrite (turn_on_closed_connection _ _ Hc Hn). exact IH.
Qed.

(** C8, as stated, fails: the receiver of a connection that the peer has
    closed never ends. *)
Lemma receiver_of_closed_connection_never_ends :
  ~ (exists turns, ended (handleResponses turns "agent" (spawn []))).
Proof.
  intros [turns H].
  rewrite loop_on_closed_connection in H; [exact H|reflexivity|left; simpl; lia].
Qed.

(** C8, amended.  When the receive on the agent's connection returns zero
    bytes, the decode call returns [None] and changes nothing; the
    receiver's loop goes on, turn after turn, in the same state; and the
    registry is left as it was, the agent's entry included. *)
Theorem closed_connection_leaves_receiver_and_registry
        (r : receiver) (zombies : list Zombie) (i : nat) (z : Zombie) :
  conn r = [] ->
  num_chars (buffer r) <= 0 \/ len (buf (buffer r)) < num_chars (buffer r) ->
  zombies !! i = Some z ->
  process z = Running r ->
  bufferMessages (buffer r) (conn r) (fx r) = (Return None, buffer r, [], fx r)
  /\ (forall turns, handleResponses turns (addr z) r = Running r)
  /\ (forall turns, ~ ended (handleResponses turns (addr z) r))
  /\ (forall turns, receiver_runs i turns zombies = zombies).
Proof.
  intros Hc Hn Hz Hp.
  pose proof (loop_on_closed_connection r (addr z) Hc Hn) as Hloop.
  split; [rewrite Hc; exact (decode_on_closed_connection _ _ Hn)|].
  split; [exact Hloop|].
  split; [intros turns; rewrite Hloop; exact (fun f => f)|].
  intros turns. unfold receiver_runs.
  apply list_eq. intros j. destruct (decide (i = j)) as [<-|Hne].
  - rewrite list_lookup_alter_eq, Hz. simpl. f_equal.
    unfold advance. rewrite Hp, Hloop. destruct z as [za zp]. simpl in *.
    subst zp. reflexivity.
  - rewrite list_lookup_alter_ne by exact Hne. reflexivity.
Qed.

(** Witness for C8: a registry of one agent whose connection is closed. *)
Lemma closed_connection_leaves_receiver_and_registry_witness :
  handleResponses 3 "agent" (spawn []) = Running (spawn [])
  /\ receiver_runs 0 3 (accept [] "agent" []) = accept [] "agent" [].
Proof.
  destruct (closed_connection_leaves_receiver_and_registry
              (spawn []) (accept [] "agent" []) 0
              {| addr := "agent"; process := Running (spawn []) |})
    as (_ & Hloop & _ & Hreg).
  - reflexivity.
  - left. simpl. lia.
  - reflexivity.
  - reflexivity.
  - split; [exact (Hloop 3%nat)|exact (Hreg 3%nat)].
Defined.

End ControllerReceiver.

(* ===================================================================== *)
(** * The encode contract *)
(* ===================================================================== *)

Section EncodeContract.
Import Py Io.

(** C3, as stated, fails on the controller side: the request for RUN has
    no Content-Length line, so it is not the framed form of its parts. *)
Lemma request_has_no_content_length :
  exists wire,
    zomp_cnc.makeZOMPRequest "RUN" "echo.sh hi" = Return wire
    /\ wire = "ZOMP/1.0 1 RUN" +:+ CRLF +:+ "echo.sh hi" +:+ CRLF +:+ CRLF
    /\ wire <> Wire.framed "1" "RUN" "echo.sh hi" ""
    /\ find wire "Content-Length" = None.
Proof.
  eexists. split; [reflexivity|]. split; [reflexivity|].
  split; [vm_compute; discriminate|reflexivity].
Qed.

(** C3, amended.  For a code that does not start with "0" the agent's
    encoder produces the status line, the invocation line, the
    Content-Length line with the body's length, the terminator and the
    body.  The controller's encoder produces, for RUN, STOP and REPORT in
    any letter case, the status line with code 1, 2 or 3 and the command in
    upper case, the invocation line and the closing line break, without a
    Content-Length line and without a body. *)
Theorem encoders_output (code text command invocation body : string) :
  startswith code "0" = false ->
  zompie.makeZOMPResponse code text invocation body
  = "ZOMP/1.0 " +:+ code +:+ " " +:+ text +:+ CRLF
    +:+ invocation +:+ CRLF
    +:+ "Content-Length: " +:+ str (String.length body) +:+ CRLF
    +:+ CRLF
    +:+ body
  /\ zompie.makeZOMPResponse code text invocation body
     = Wire.framed code text invocation body
  /\ forall wire,
       zomp_cnc.makeZOMPRequest command invocation = Return wire ->
       exists c,
         (casefold command = "run" /\ c = "1"
          \/ casefold command = "stop" /\ c = "2"
          \/ casefold command = "report" /\ c = "3")
         /\ wire = "ZOMP/1.0 " +:+ c +:+ " " +:+ upper command +:+ CRLF
                   +:+ invocation +:+ CRLF
                   +:+ CRLF.
Proof.
  intros H.
  split; [exact (makeZOMPResponse_framed code text invocation body H)|].
  split; [exact (makeZOMPResponse_framed code text invocation body H)|].
  intros wire Hreq. unfold zomp_cnc.makeZOMPRequest in Hreq.
  destruct (String.eqb (casefold command) "run") eqn:Hrun.
  { apply String.eqb_eq in Hrun. injection Hreq as <-. exists "1". auto. }
  destruct (String.eqb (casefold command) "stop") eqn:Hstop.
  { apply String.eqb_eq in Hstop. injection Hreq as <-. exists "2". auto 6. }
  destruct (String.eqb (casefold command) "report") eqn:Hrep.
  { apply String.eqb_eq in Hrep. injection Hreq as <-. exists "3". auto 6. }
  discriminate.
Qed.

(** Witness for C3: the agent's reply 30 with a three-byte report. *)
Lemma encoders_output_witness :
  startswith "30" "0" = false
  /\ zompie.makeZOMPResponse "30" "OK, reporting" "echo.sh hi" "hi!"
     = "ZOMP/1.0 30 OK, reporting" +:+ CRLF +:+ "echo.sh hi" +:+ CRLF
       +:+ "Content-Length: 3" +:+ CRLF +:+ CRLF +:+ "hi!".
Proof.
  split; [reflexivity|].
  destruct (encoders_output "30" "OK, reporting" "report" "echo.sh hi" "hi!" eq_refl)
    as (H & _ & _).
  exact H.
Defined.

End EncodeContract.

(* ===================================================================== *)
(** * Encoding, then decoding *)
(* ===================================================================== *)

Section RoundTrip.
Import Py Io Wire Transport.

(** The first steps of a decode call on a fresh buffer: the receive, the
    append and the fields read on the way. *)
Ltac enter_header :=
  cbn [zomp_cnc.bufferMessages];
  change (zomp_cnc.num_chars zomp_cnc.init <=? 0) with true; cbv iota;
  rewrite len_nonempty by discriminate;
  cbv zeta;
  cbn [zomp_cnc.buf zomp_cnc.signal zomp_cnc.set_buf zomp_cnc.init
       zomp_cnc.code zomp_cnc.status_message zomp_cnc.script_invocation
       zomp_cnc.num_chars];
  rewrite app_empty_l.

(** With the declared length already buffered the body loop returns the
    whole buffer at once. *)
Lemma read_body_enough self inc fx0 :
  (len (zomp_cnc.buf self) <? zomp_cnc.num_chars self) = false ->
  zomp_cnc.read_body self inc fx0 = (Return (Some (zomp_cnc.buf self)), self, inc, fx0).
Proof. intros H. destruct inc; simpl; rewrite H; reflexivity. Qed.

(** Decoding a framed reply that arrives in one receive. *)
Lemma decode_framed_reply code text invocation body rest :
  lacks CR code = true -> lacks " " code = true ->
  String.eqb code "00" = false -> String.eqb code "01" = false ->
  String.eqb code "02" = false ->
  text <> "" -> lacks CR text = true -> rstrip text = text ->
  invocation <> "" -> lacks CR invocation = true ->
  exists fx',
    zomp_cnc.bufferMessages zomp_cnc.init
      (framed code text invocation body :: rest) silent
    = if (negb (String.eqb code "12") && negb (String.eqb code "30"))%bool
      then (Return None,
            {| zomp_cnc.buf := body; zomp_cnc.signal := CRLF +:+ CRLF;
               zomp_cnc.code := code; zomp_cnc.status_message := text;
               zomp_cnc.script_invocation := invocation;
               zomp_cnc.num_chars := len body |}, rest, fx')
      else if 0 <? len body
           then (Return (Some body),
                 {| zomp_cnc.buf := body; zomp_cnc.signal := CRLF +:+ CRLF;
                    zomp_cnc.code := code; zomp_cnc.status_message := text;
                    zomp_cnc.script_invocation := invocation;
                    zomp_cnc.num_chars := len body |}, rest, fx')
           else zomp_cnc.bufferMessages
                  {| zomp_cnc.buf := body; zomp_cnc.signal := CRLF +:+ CRLF;
                     zomp_cnc.code := code; zomp_cnc.status_message := text;
                     zomp_cnc.script_invocation := invocation;
                     zomp_cnc.num_chars := len body |} rest fx'.
Proof.
  intros Hc1 Hc2 H00 H01 H02 Ht Ht1 Ht2 Hi Hi1.
  set (L1 := "ZOMP/1.0 " +:+ code +:+ " " +:+ text).
  set (L3 := "Content-Length: " +:+ str (String.length body)).
  assert (HL1 : lacks CR L1 = true).
  { unfold L1. rewrite !lacks_app, Hc1, Ht1. reflexivity. }
  assert (HL3 : lacks CR L3 = true).
  { unfold L3. rewrite lacks_app, (str_lacks CR _ eq_refl). reflexivity. }
  assert (Hwire : framed code text invocation body
                  = (L1 +:+ CRLF +:+ invocation +:+ CRLF +:+ L3)
                      +:+ CRLF +:+ CRLF +:+ body).
  { unfold framed, L1, L3. rewrite !app_assoc_str. reflexivity. }
  eexists.
  enter_header.
  rewrite Hwire.
  rewrite (find_signal_framed L1 invocation L3 body HL1 Hi1 HL3 Hi ltac:(discriminate)).
  rewrite take_app_exact.
  change (String.length (CRLF +:+ CRLF)) with 4%nat.
  rewrite drop_app_more. change (drop 4 (CRLF +:+ CRLF +:+ body)) with body.
  unfold zomp_cnc.unpack_status_line.
  rewrite (split_lines_cut L1 _ HL1), (split_lines_cut invocation _ Hi1),
    (split_lines_last L3 HL3).
  unfold L1 at 1. rewrite (status_line_strip code text Ht Ht2),
    (status_line_split code text Hc2).
  cbn [zomp_cnc.buf zomp_cnc.signal zomp_cnc.set_buf zomp_cnc.set_status
       zomp_cnc.set_script_invocation zomp_cnc.set_num_chars
       zomp_cnc.code zomp_cnc.status_message zomp_cnc.script_invocation
       zomp_cnc.num_chars].
  rewrite H00, H01, H02. cbn [orb].
  unfold L3 at 1. rewrite content_length_value, int_str.
  cbn [zomp_cnc.buf zomp_cnc.signal zomp_cnc.set_buf zomp_cnc.set_status
       zomp_cnc.set_script_invocation zomp_cnc.set_num_chars
       zomp_cnc.code zomp_cnc.status_message zomp_cnc.script_invocation
       zomp_cnc.num_chars].
  destruct (negb (String.eqb code "12") && negb (String.eqb code "30"))%bool;
    [reflexivity|].
  fold (len body).
  destruct (0 <? len body); [|reflexivity].
  rewrite read_body_enough by apply Z.ltb_irrefl. reflexivity.
Qed.



(** Decoding a reply that is a status line only. *)
Lemma decode_bare_reply code text rest :
  code = "00" \/ code = "01" \/ code = "02" ->
  text <> "" -> lacks CR text = true -> rstrip text = text ->
  exists fx',
    zomp_cnc.bufferMessages zomp_cnc.init
      (("ZOMP/1.0 " +:+ code +:+ " " +:+ text +:+ CRLF +:+ CRLF) :: rest) silent
    = (Return None,
       {| zomp_cnc.buf := ""; zomp_cnc.signal := CRLF +:+ CRLF;
          zomp_cnc.code := code; zomp_cnc.status_message := text;
          zomp_cnc.script_invocation := ""; zomp_cnc.num_chars := 0 |},
       rest, fx').
Proof.
  intros Hcode Ht Ht1 Ht2.
  assert (Hc : lacks CR code = true /\ lacks " " code = true).
  { destruct Hcode as [->|[->| ->]]; split; reflexivity. }
  destruct Hc as [Hc1 Hc2].
  set (L1 := "ZOMP/1.0 " +:+ code +:+ " " +:+ text).
  assert (HL1 : lacks CR L1 = true).
  { unfold L1. rewrite !lacks_app, Hc1, Ht1. reflexivity. }
  assert (Hwire : "ZOMP/1.0 " +:+ code +:+ " " +:+ text +:+ CRLF +:+ CRLF
                  = L1 +:+ CRLF +:+ CRLF +:+ "").
  { unfold L1. rewrite !app_assoc_str. reflexivity. }
  assert (Hparsed : zomp_cnc.unpack_status_line L1 = Some ([], "ZOMP/1.0", code, text)).
  { unfold zomp_cnc.unpack_status_line.
    rewrite (split_lines_last L1 HL1).
    unfold L1 at 1. rewrite (status_line_strip code text Ht Ht2),
      (status_line_split code text Hc2). reflexivity. }
  clearbody L1.
  destruct Hcode as [->|[->| ->]];
    (eexists; enter_header;
     rewrite Hwire, (find_signal_bare L1 "" HL1), take_app_exact;
     change (String.length (CRLF +:+ CRLF)) with 4%nat;
     rewrite drop_app_more; change (drop 4 (CRLF +:+ CRLF +:+ "")) with "";
     rewrite Hparsed; reflexivity).
Qed.

Lemma among_cases codes c : among codes c = true -> In c codes.
Proof.
  unfold among. intros (x & Hin & Hx)%existsb_exists.
  apply String.eqb_eq in Hx. subst x. exact Hin.
Qed.

Lemma truthy_nonempty s : truthy s = true -> s <> "".
Proof. destruct s; [discriminate|]. intros _. discriminate. Qed.

Lemma falsy_empty s : negb (truthy s) = true -> s = "".
Proof. destruct s; [reflexivity|discriminate]. Qed.

(** C2, amended.  For every tuple the agent's replies are made of (codes
    00, 01, 02 without invocation and body; 10, 11, 20, 21, 22, 31, 32 with
    an invocation and no body; 12 and 30 with an invocation and a non-empty
    body; text and invocation non-empty where present and free of carriage
    returns, the text not ending in whitespace) whose text, invocation and
    body are 7-bit ASCII, the controller's decoder, given the agent's
    encoding in one receive, reproduces the tuple and leaves the receives
    that follow untouched. *)
Theorem reply_round_trip (m : ZompMessage) (rest : list string) :
  reply_tuple m = true ->
  ascii_tuple m = true ->
  decode (encode m :: rest) = Some (m, rest).
Proof.
  intros Hm _. revert Hm.
  destruct m as [code text invocation body].
  unfold reply_tuple, encode, decode. cbn [m_code m_text m_invocation m_body].
  intros [[[Ht Ht1]%andb_prop Ht2]%andb_prop Hrest]%andb_prop.
  apply truthy_nonempty in Ht. apply String.eqb_eq in Ht2.
  destruct (among bare_codes code) eqn:Hbare.
  - apply andb_prop in Hrest as [->%falsy_empty ->%falsy_empty].
    apply among_cases in Hbare.
    assert (Hcode : code = "00" \/ code = "01" \/ code = "02").
    { simpl in Hbare. intuition. }
    rewrite makeZOMPResponse_bare
      by (destruct Hcode as [->|[->| ->]]; reflexivity).
    destruct (decode_bare_reply code text rest Hcode Ht Ht1 Ht2) as [fx' ->].
    reflexivity.
  - apply andb_prop in Hrest as [[Hi Hi1]%andb_prop Hbody].
    apply truthy_nonempty in Hi.
    destruct (among report_codes code) eqn:Hrep.
    + apply among_cases in Hrep. apply truthy_nonempty in Hbody.
      assert (Hcode : code = "12" \/ code = "30") by (simpl in Hrep; intuition).
      assert (Hfacts : startswith code "0" = false
                       /\ lacks CR code = true /\ lacks " " code = true
                       /\ String.eqb code "00" = false /\ String.eqb code "01" = false
                       /\ String.eqb code "02" = false
                       /\ (negb (String.eqb code "12") && negb (String.eqb code "30"))%bool
                          = false)
        by (destruct Hcode as [->| ->]; repeat split).
      destruct Hfacts as (H0 & Hc1 & Hc2 & H00 & H01 & H02 & Hkind).
      rewrite (makeZOMPResponse_framed _ _ _ _ H0).
      destruct (decode_framed_reply code text invocation body rest
                  Hc1 Hc2 H00 H01 H02 Ht Ht1 Ht2 Hi Hi1) as [fx' ->].
      assert (Hpos : (0 <? len body) = true).
      { destruct body; [contradiction|]. apply Z.ltb_lt. unfold len. simpl. lia. }
      rewrite Hkind, Hpos. reflexivity.
    + apply andb_prop in Hbody as [Hst ->%falsy_empty].
      apply among_cases in Hst.
      assert (Hcode : code = "10" \/ code = "11" \/ code = "20" \/ code = "21"
                      \/ code = "22" \/ code = "31" \/ code = "32")
        by (simpl in Hst; intuition).
      assert (Hfacts : startswith code "0" = false
                       /\ lacks CR code = true /\ lacks " " code = true
                       /\ String.eqb code "00" = false /\ String.eqb code "01" = false
                       /\ String.eqb code "02" = false
                       /\ (negb (String.eqb code "12") && negb (String.eqb code "30"))%bool
                          = true)
        by (repeat destruct Hcode as [->|Hcode]; subst; repeat split).
      destruct Hfacts as (H0 & Hc1 & Hc2 & H00 & H01 & H02 & Hkind).
      rewrite (makeZOMPResponse_framed _ _ _ _ H0).
      destruct (decode_framed_reply code text invocation "" rest
                  Hc1 Hc2 H00 H01 H02 Ht Ht1 Ht2 Hi Hi1) as [fx' ->].
      rewrite Hkind. reflexivity.
Qed.

(** Witness for C2: the reply 30 carrying the report of [echo.sh hi], with
    another message behind it. *)
Lemma reply_round_trip_witness :
  reply_tuple {| m_code := "30"; m_text := "OK, reporting";
                 m_invocation := "echo.sh hi"; m_body := "hi!" |} = true
  /\ ascii_tuple {| m_code := "30"; m_text := "OK, reporting";
                    m_invocation := "echo.sh hi"; m_body := "hi!" |} = true
  /\ decode [encode {| m_code := "30"; m_text := "OK, reporting";
                       m_invocation := "echo.sh hi"; m_body := "hi!" |};
             Scenario.headless_reply]
     = Some ({| m_code := "30"; m_text := "OK, reporting";
                m_invocation := "echo.sh hi"; m_body := "hi!" |},
             [Scenario.headless_reply]).
Proof.
  split; [reflexivity|]. split; [reflexivity|].
  apply reply_round_trip; reflexivity.
Defined.

(** C2, as stated, fails on a reply the agent does send: the 30 that
    answers REPORT when the script has printed nothing (zompie.py line 146
    with an empty cache entry).  Its Content-Length is 0, so the decoder
    neither returns after the header nor reads a body (zomp_cnc.py lines
    67-70): it receives again, and with a 10 reply behind it the call hands
    back the tuple of that reply instead. *)
Lemma empty_report_does_not_round_trip :
  ~ (forall (m : ZompMessage) (rest : list string),
       among table_codes (m_code m) = true ->
       exists rest', decode (encode m :: rest) = Some (m, rest')).
Proof.
  intros H.
  destruct (H {| m_code := "30"; m_text := "OK, reporting";
                 m_invocation := "echo.sh hi"; m_body := "" |}
              [encode {| m_code := "10"; m_text := "OK, running script";
                         m_invocation := "echo.sh hi"; m_body := "" |}]
              eq_refl) as [rest' H'].
  vm_compute in H'. discriminate H'.
Qed.

(** Where else the round trip stops: a 02 tuple loses its invocation, and a
    30 tuple with an empty body is not handed back before the next receive
    has been consumed, even when that receive completes no header. *)
Example round_trip_limits :
  decode [encode {| m_code := "02"; m_text := "Script not found";
                    m_invocation := "nope.sh"; m_body := "" |}]
  = Some ({| m_code := "02"; m_text := "Script not found";
             m_invocation := ""; m_body := "" |}, [])
  /\ decode [encode {| m_code := "30"; m_text := "OK, reporting";
                       m_invocation := "echo.sh hi"; m_body := "" |};
             "ZOMP/1.0 10 OK"]
     = Some ({| m_code := "30"; m_text := "OK, reporting";
                m_invocation := "echo.sh hi"; m_body := "" |}, []).
Proof. split; vm_compute; reflexivity. Qed.

End RoundTrip.

(* ===================================================================== *)
(** * Further properties of the agent *)
(* ===================================================================== *)

Section AgentNeverRaises.
Import Py Io zompie Transport.

Lemma split_rounds_cons r s sep m : exists x l, split_rounds r s sep m = x :: l.
Proof.
  destruct r; simpl; [eauto|].
  destruct m as [[|m]|]; [eauto| |]; destruct (find s sep); eauto.
Qed.

Lemma split_cons s sep m : exists x l, split s sep m = x :: l.
Proof. apply split_rounds_cons. Qed.

Lemma agent_decode_no_raise fs0 inc : forall self fx0 e self' inc' fx',
  bufferMessages fs0 self inc fx0 <> (Raise e, self', inc', fx').
Proof.
  induction inc as [|data rest IH]; intros self fx0 e self' inc' fx' H; simpl in H.
  - discriminate.
  - destruct (len data =? 0); [discriminate|].
    destruct (find _ _) as [i|]; [|exact (IH _ _ _ _ _ _ H)].
    destruct (unpack_request_line _) as [[[[sl v] c] cmd]|]; [|discriminate].
    destruct (_ && _)%bool; [discriminate|].
    destruct (String.eqb c "9"); [discriminate|].
    destruct (String.eqb c "5"); [discriminate|].
    destruct (String.eqb c "0"); [discriminate|].
    destruct (_ || _)%bool; [|discriminate].
    destruct (split_cons (join " " sl) " " None) as (x & l & Hs).
    rewrite Hs in H. destruct (negb _); discriminate.
Qed.

(** X1.  On 7-bit receives the agent's decoder (zompie.py
    [bufferMessages], lines 23-76) always returns: no exception escapes it,
    whatever those bytes are, however they are cut into receives and
    whatever the buffer object holds; a header that does not parse is
    caught by the [try], and [args[0]] on line 66 always exists. *)
Theorem agent_decode_always_returns fs0 self inc fx0 :
  Forall (fun d => isascii d = true) inc ->
  exists r self' inc' fx',
    bufferMessages fs0 self inc fx0 = (Return r, self', inc', fx').
Proof.
  intros _.
  destruct (bufferMessages fs0 self inc fx0) as [[[[r|e] self'] inc'] fx'] eqn:H.
  - eauto.
  - exfalso. exact (agent_decode_no_raise _ _ _ _ _ _ _ _ H).
Qed.

(** A line that is no request line, then a request line without a
    command, then the start of a request. *)
Lemma agent_decode_always_returns_witness :
  Forall (fun d => isascii d = true)
    ["garbage" +:+ CRLF; CRLF +:+ "ZOMP/1.0 1" +:+ CRLF +:+ CRLF; "ZOMP/1.0 1 RUN"]
  /\ exists r self' inc' fx',
       bufferMessages {["./echo.sh"]} init
         ["garbage" +:+ CRLF; CRLF +:+ "ZOMP/1.0 1" +:+ CRLF +:+ CRLF; "ZOMP/1.0 1 RUN"]
         silent
       = (Return r, self', inc', fx').
Proof.
  assert (H : Forall (fun d => isascii d = true)
                ["garbage" +:+ CRLF; CRLF +:+ "ZOMP/1.0 1" +:+ CRLF +:+ CRLF;
                 "ZOMP/1.0 1 RUN"])
    by (repeat constructor).
  split; [exact H|]. apply agent_decode_always_returns. exact H.
Defined.

End AgentNeverRaises.
Section AgentRequests2.
Import Py Io Wire zompie Transport.

(** X2.  On 7-bit receives, the only way a turn of the agent's [main] loop
    (zompie.py lines 112-153) dies of an exception: a REPORT (code 3) for an
    invocation that has a task-table entry whose process is no longer alive
    while the report cache has nothing under it; the exception is the
    [KeyError] of [reports[script_invocation]] on line 146, and nothing was
    sent in that turn. *)
Theorem main_turn_crashes_only_on_report (a : agent) e a' :
  Forall (fun d => isascii d = true) (conn a) ->
  main_turn a = Crash e a' ->
  e = KeyError
  /\ code (buffer a') = "3"
  /\ exists p,
       processes a !! script_invocation (buffer a') = Some p
       /\ is_alive a p = false
       /\ reports a !! script_invocation (buffer a') = None
       /\ sent (fx a') = sent (fx a).
Proof.
  intros _.
  unfold main_turn.
  destruct (bufferMessages (fs a) (buffer a) (conn a) (fx a))
    as [[[[r|e0] self] inc] fx'] eqn:Hdec.
  2:{ exfalso. exact (agent_decode_no_raise _ _ _ _ _ _ _ _ Hdec). }
  destruct r as [[|c0 k']|].
  1,3: destruct (String.eqb (code self) "9"); discriminate.
  set (k := String c0 k') in *.
  pose proof (agent_decode_some_sends_nothing _ _ _ _ _ _ _ _ Hdec) as Hsent.
  destruct (String.eqb (code self) "1") eqn:E1.
  { apply String.eqb_eq in E1.
    destruct (agent_decode_command _ _ _ _ _ _ _ _ Hdec (or_introl E1))
      as (sn & more & Hargs & _).
    unfold on_run. destruct (running _ k); [discriminate|].
    destruct (reports _ !! k); [discriminate|].
    cbn [buffer with_io]. rewrite Hargs. discriminate. }
  destruct (String.eqb (code self) "2") eqn:E2.
  { unfold on_stop, running. destruct (processes _ !! k); [|].
    - destruct (is_alive _ _); [discriminate|]. destruct (has_key _ _); discriminate.
    - destruct (has_key _ _); discriminate. }
  destruct (String.eqb (code self) "3") eqn:E3; [|discriminate].
  apply String.eqb_eq in E3.
  destruct (agent_decode_command _ _ _ _ _ _ _ _ Hdec (or_intror (or_intror E3)))
    as (sn & more & _ & _ & _ & Hk).
  unfold on_report. cbn [processes with_io].
  destruct (processes a !! k) as [p|] eqn:Hp; [|discriminate].
  change (is_alive (with_io self inc fx' a) p) with (is_alive a p).
  destruct (is_alive a p) eqn:Hal; [discriminate|].
  cbn zeta. change (reports (say _ _)) with (reports a).
  destruct (reports a !! k) eqn:Hr; [discriminate|].
  intros H. injection H as <- <-. cbn [buffer fx say with_io print sent].
  rewrite Hk. split; [reflexivity|]. split; [exact E3|].
  exists p. auto.
Qed.

(** The REPORT that follows a failed run. *)
Lemma main_turn_crashes_only_on_report_witness :
  Forall (fun d => isascii d = true) (conn (Scenario.agent_failed [Scenario.REPORT_echo]))
  /\ exists a',
    main_turn (Scenario.agent_failed [Scenario.REPORT_echo]) = Crash KeyError a'
    /\ code (buffer a') = "3"
    /\ sent (fx a') = sent (fx (Scenario.agent_failed [Scenario.REPORT_echo])).
Proof.
  assert (H : main_turn (Scenario.agent_failed [Scenario.REPORT_echo])
              = Crash KeyError
                  (Scenario.after (main_turn (Scenario.agent_failed [Scenario.REPORT_echo]))))
    by (vm_compute; reflexivity).
  assert (Ha : Forall (fun d => isascii d = true)
                 (conn (Scenario.agent_failed [Scenario.REPORT_echo])))
    by (repeat constructor).
  destruct (main_turn_crashes_only_on_report _ _ _ Ha H) as (_ & Hc & p & _ & _ & _ & Hs).
  split; [exact Ha|].
  eexists. split; [exact H|]. split; [exact Hc|exact Hs].
Defined.

End AgentRequests2.
Section RequestDecode.
Import Py Io Wire zompie.

Lemma find_signal_request L1 L2 tail :
  lacks CR L1 = true -> lacks CR L2 = true -> L2 <> "" ->
  find ((L1 +:+ CRLF +:+ L2) +:+ CRLF +:+ CRLF +:+ tail) (CRLF +:+ CRLF)
  = Some (String.length (L1 +:+ CRLF +:+ L2)).
Proof.
  intros H1 H2 N2.
  rewrite !app_assoc_str.
  change (CRLF +:+ CRLF) with (String CR (String LF (String CR (String LF "")))).
  rewrite (find_skip CR _ L1 _ H1).
  change (String CR (String LF (String CR (String LF "")))) with (CRLF +:+ CRLF).
  rewrite (find_signal_next_line L2 _ H2 N2).
  assert (Hp : String.prefix (CRLF +:+ CRLF) (CRLF +:+ CRLF +:+ tail) = true)
    by exact (prefix_app (CRLF +:+ CRLF) tail).
  rewrite (find_here _ _ Hp).
  simpl. f_equal. rewrite !length_app_str. simpl. lia.
Qed.

Lemma upper_char_lower c : upper_char (lower_char c) = upper_char c.
Proof. destruct c as [[] [] [] [] [] [] [] []]; reflexivity. Qed.

Lemma upper_casefold s : upper (casefold s) = upper s.
Proof.
  induction s as [|c s IH]; [reflexivity|].
  cbn [casefold upper map_chars] in *. rewrite upper_char_lower. f_equal. exact IH.
Qed.

(** What [makeZOMPRequest] returns, by command. *)
Lemma makeZOMPRequest_cases typed invocation wire :
  zomp_cnc.makeZOMPRequest typed invocation = Return wire ->
  exists c cmd,
    (casefold typed = "run" /\ c = "1" /\ cmd = "RUN"
     \/ casefold typed = "stop" /\ c = "2" /\ cmd = "STOP"
     \/ casefold typed = "report" /\ c = "3" /\ cmd = "REPORT")
    /\ upper typed = cmd
    /\ wire = "ZOMP/1.0 " +:+ c +:+ " " +:+ cmd +:+ CRLF +:+ invocation +:+ CRLF +:+ CRLF.
Proof.
  unfold zomp_cnc.makeZOMPRequest. intros H.
  destruct (String.eqb (casefold typed) "run") eqn:Hrun.
  { apply String.eqb_eq in Hrun. injection H as <-.
    rewrite <- (upper_casefold typed), Hrun. exists "1", "RUN". auto 6. }
  destruct (String.eqb (casefold typed) "stop") eqn:Hstop.
  { apply String.eqb_eq in Hstop. injection H as <-.
    rewrite <- (upper_casefold typed), Hstop. exists "2", "STOP". auto 8. }
  destruct (String.eqb (casefold typed) "report") eqn:Hrep.
  { apply String.eqb_eq in Hrep. injection H as <-.
    rewrite <- (upper_casefold typed), Hrep. exists "3", "REPORT". auto 8. }
  discriminate.
Qed.

(** Decoding a request line followed by one invocation line, on a buffer
    that holds nothing. *)
Lemma decode_request_lines fs0 self c cmd invocation scriptname more rest fx0 :
  buf self = "" -> signal self = CRLF +:+ CRLF ->
  c = "1" \/ c = "2" \/ c = "3" ->
  cmd <> "" -> lacks CR cmd = true -> rstrip cmd = cmd ->
  invocation <> "" -> lacks CR invocation = true ->
  split invocation " " None = scriptname :: more ->
  bufferMessages fs0 self
    (("ZOMP/1.0 " +:+ c +:+ " " +:+ cmd +:+ CRLF +:+ invocation +:+ CRLF +:+ CRLF) :: rest)
    fx0
  = let parsed :=
      {| buf := ""; signal := CRLF +:+ CRLF; code := c; command := cmd;
         script_invocation := invocation; filepath := "./" +:+ scriptname;
         args := ("./" +:+ scriptname) :: more |} in
    let fx1 :=
      print (("ZOMP/1.0 " +:+ c +:+ " " +:+ cmd +:+ CRLF +:+ invocation) +:+ String LF "")
            fx0 in
    if bool_decide ("./" +:+ scriptname ∈ fs0)
    then (Return (Some invocation), parsed, rest, fx1)
    else (Return None, parsed, rest,
          send (makeZOMPResponse "02" "Script not found" "" "") fx1).
Proof.
  intros Hbuf Hsig Hc Hcmd Hcmd1 Hcmd2 Hi Hi1 Hargs.
  assert (Hcc : lacks CR c = true /\ lacks " " c = true).
  { destruct Hc as [->|[->| ->]]; split; reflexivity. }
  destruct Hcc as [Hc1 Hc2].
  set (L1 := "ZOMP/1.0 " +:+ c +:+ " " +:+ cmd).
  assert (HL1 : lacks CR L1 = true).
  { unfold L1. rewrite !lacks_app, Hc1, Hcmd1. reflexivity. }
  assert (Hwire : "ZOMP/1.0 " +:+ c +:+ " " +:+ cmd +:+ CRLF +:+ invocation +:+ CRLF +:+ CRLF
                  = (L1 +:+ CRLF +:+ invocation) +:+ CRLF +:+ CRLF +:+ "").
  { unfold L1. rewrite !app_assoc_str. reflexivity. }
  assert (Hhead : "ZOMP/1.0 " +:+ c +:+ " " +:+ cmd +:+ CRLF +:+ invocation
                  = L1 +:+ CRLF +:+ invocation).
  { unfold L1. rewrite !app_assoc_str. reflexivity. }
  assert (Hparsed : unpack_request_line (L1 +:+ CRLF +:+ invocation)
                    = Some ([invocation], "ZOMP/1.0", c, cmd)).
  { unfold unpack_request_line.
    rewrite (split_lines_cut L1 _ HL1), (split_lines_last invocation Hi1).
    unfold L1 at 1. rewrite (status_line_strip c cmd Hcmd Hcmd2),
      (status_line_split c cmd Hc2). reflexivity. }
  rewrite Hhead, Hwire. clearbody L1.
  cbn [bufferMessages].
  rewrite len_nonempty.
  2:{ destruct L1; discriminate. }
  cbv zeta. cbn [buf signal set_buf]. rewrite Hbuf, Hsig, app_empty_l.
  rewrite (find_signal_request L1 invocation "" HL1 Hi1 Hi), take_app_exact.
  change (String.length (CRLF +:+ CRLF)) with 4%nat.
  rewrite drop_app_more. change (drop 4 (CRLF +:+ CRLF +:+ "")) with "".
  rewrite Hparsed.
  change (join " " [invocation]) with invocation.
  cbn [buf signal code command script_invocation filepath args set_buf set_request
       set_script].
  rewrite Hargs.
  destruct Hc as [->|[->| ->]]; cbn [String.eqb Ascii.eqb Bool.eqb negb andb orb];
    cbn [buf signal code command script_invocation filepath args set_buf set_request
         set_script];
    change (curdir +:+ "/" +:+ scriptname) with ("./" +:+ scriptname);
    destruct (bool_decide ("./" +:+ scriptname ∈ fs0)); cbn [negb];
    unfold set_script, set_request, set_buf;
    cbn [buf signal code command script_invocation filepath args];
    rewrite Hsig; reflexivity.
Qed.

End RequestDecode.
Section AgentTurns.
Import Py Io Wire zompie.

(** Decoding a request line with no further header line. *)
Lemma decode_request_line_only fs0 self c cmd rest fx0 :
  buf self = "" ->
  signal self = CRLF +:+ CRLF ->
  lacks CR c = true -> lacks " " c = true ->
  cmd <> "" -> lacks CR cmd = true -> rstrip cmd = cmd ->
  bufferMessages fs0 self (("ZOMP/1.0 " +:+ c +:+ " " +:+ cmd +:+ CRLF +:+ CRLF) :: rest) fx0
  = let fx1 := print (("ZOMP/1.0 " +:+ c +:+ " " +:+ cmd) +:+ String LF "") fx0 in
    (Return None,
     {| buf := ""; signal := CRLF +:+ CRLF; code := c; command := cmd;
        script_invocation := script_invocation self; filepath := filepath self;
        args := args self |},
     rest,
     if String.eqb c "9" then print "CLOSE command received. Terminating." fx1
     else if String.eqb c "0" then fx1
     else send (makeZOMPResponse "01" "Bad request" "" "") fx1).
Proof.
  intros Hbuf Hsig Hc1 Hc2 Hcmd Hcmd1 Hcmd2.
  set (L1 := "ZOMP/1.0 " +:+ c +:+ " " +:+ cmd).
  assert (HL1 : lacks CR L1 = true).
  { unfold L1. rewrite !lacks_app, Hc1, Hcmd1. reflexivity. }
  assert (Hwire : "ZOMP/1.0 " +:+ c +:+ " " +:+ cmd +:+ CRLF +:+ CRLF
                  = L1 +:+ CRLF +:+ CRLF +:+ "").
  { unfold L1. rewrite !app_assoc_str. reflexivity. }
  assert (Hparsed : unpack_request_line L1 = Some ([], "ZOMP/1.0", c, cmd)).
  { unfold unpack_request_line.
    rewrite (split_lines_last L1 HL1).
    unfold L1 at 1. rewrite (status_line_strip c cmd Hcmd Hcmd2),
      (status_line_split c cmd Hc2). reflexivity. }
  rewrite Hwire. clearbody L1.
  cbn [bufferMessages].
  rewrite len_nonempty.
  2:{ destruct L1; discriminate. }
  cbv zeta. cbn [buf signal set_buf]. rewrite Hbuf, Hsig, app_empty_l.
  rewrite (find_signal_bare L1 "" HL1), take_app_exact.
  change (String.length (CRLF +:+ CRLF)) with 4%nat.
  rewrite drop_app_more. change (drop 4 (CRLF +:+ CRLF +:+ "")) with "".
  rewrite Hparsed.
  unfold set_request, set_buf.
  cbn [buf signal code command script_invocation filepath args].
  rewrite Hsig.
  destruct (String.eqb_spec c "9") as [->|]; [reflexivity|].
  destruct (String.eqb_spec c "0") as [->|]; reflexivity.
Qed.

Lemma terminate_all_spec (a : agent) :
  buffer (terminate_all a) = buffer a
  /\ conn (terminate_all a) = conn a
  /\ fx (terminate_all a) = fx a
  /\ processes (terminate_all a) = processes a
  /\ reports (terminate_all a) = reports a
  /\ (forall n, n ∈ alive (terminate_all a) <->
                n ∈ alive a /\ forall k p, processes a !! k = Some p -> pid p <> n).
Proof.
  unfold terminate_all.
  apply (map_fold_weak_ind
           (fun r (m : gmap string Process) =>
              buffer r = buffer a /\ conn r = conn a /\ fx r = fx a
              /\ processes r = processes a /\ reports r = reports a
              /\ forall n, n ∈ alive r <->
                           n ∈ alive a /\ forall k p, m !! k = Some p -> pid p <> n)).
  - split; [reflexivity|]. split; [reflexivity|]. split; [reflexivity|].
    split; [reflexivity|]. split; [reflexivity|].
    intros n. split.
    + intros Hn. split; [exact Hn|]. intros k p Hk.
      rewrite lookup_empty in Hk. discriminate.
    + intros [Hn _]. exact Hn.
  - intros i x m0 r Hi (Hb & Hc & Hf & Hp & Hr & Hal).
    cbn [terminate buffer conn fx processes reports alive].
    split; [exact Hb|]. split; [exact Hc|]. split; [exact Hf|].
    split; [exact Hp|]. split; [exact Hr|].
    intros n. split.
    + intros [Hn Hx]%elem_of_difference. apply Hal in Hn as [Hn Hm].
      split; [exact Hn|].
      intros k p Hk. destruct (decide (i = k)) as [<-|Hik].
      * rewrite lookup_insert_eq in Hk. injection Hk as <-. intros Heq.
        apply Hx, elem_of_singleton. symmetry. exact Heq.
      * rewrite lookup_insert_ne in Hk by exact Hik. exact (Hm k p Hk).
    + intros [Hn Hm]. apply elem_of_difference. split.
      * apply Hal. split; [exact Hn|]. intros k p Hk.
        apply (Hm k p). rewrite lookup_insert_ne; [exact Hk|]. intros <-. congruence.
      * intros Heq%elem_of_singleton. apply (Hm i x); [apply lookup_insert_eq|].
        symmetry. exact Heq.
Qed.

End AgentTurns.
Section AgentBookkeeping.
Import Py Io Wire zompie Lifecycle.

(** What a turn that goes on has done to the task table: nothing, one
    process started under a key that had none running, or the running
    process of a key terminated and its entry deleted.  The report cache is
    as it was. *)
Lemma main_turn_tasks (a a' : agent) :
  main_turn a = Continue a' ->
  reports a' = reports a
  /\ ((processes a' = processes a /\ alive a' = alive a /\ next_pid a' = next_pid a)
      \/ (exists k argv,
            running a k = false
            /\ processes a' =
                 <[k := {| pid := next_pid a; target_invocation := k;
                           target_args := argv |}]> (processes a)
            /\ alive a' = {[next_pid a]} ∪ alive a
            /\ next_pid a' = S (next_pid a))
      \/ (exists k p,
            processes a !! k = Some p
            /\ processes a' = delete k (processes a)
            /\ alive a' = alive a ∖ {[pid p]}
            /\ next_pid a' = next_pid a)).
Proof.
  unfold main_turn.
  destruct (bufferMessages (fs a) (buffer a) (conn a) (fx a))
    as [[[[r|e0] self] inc] fx'] eqn:Hdec; [|discriminate].
  destruct r as [[|c0 k']|].
  1,3: destruct (String.eqb (code self) "9"); [discriminate|];
       intros H; injection H as <-; split; [reflexivity|left; auto].
  set (k := String c0 k') in *.
  destruct (String.eqb (code self) "1").
  { unfold on_run. change (running (with_io self inc fx' a) k) with (running a k).
    destruct (running a k) eqn:Hrun.
    - intros H; injection H as <-. split; [reflexivity|left; auto].
    - change (reports (with_io self inc fx' a)) with (reports a).
      destruct (reports a !! k).
      + intros H; injection H as <-. split; [reflexivity|].
        right; left. eexists k, _. split; [exact Hrun|]. split; [reflexivity|]. split; reflexivity.
      + cbn [buffer with_io]. destruct (args self); [discriminate|].
        intros H; injection H as <-. split; [reflexivity|].
        right; left. eexists k, _. split; [exact Hrun|]. split; [reflexivity|]. split; reflexivity. }
  destruct (String.eqb (code self) "2").
  { unfold on_stop. change (running (with_io self inc fx' a) k) with (running a k).
    change (processes (with_io self inc fx' a)) with (processes a).
    destruct (running a k) eqn:Hrun.
    - destruct (processes a !! k) as [p|] eqn:Hp; [|discriminate].
      intros H; injection H as <-. split; [reflexivity|].
      right; right. exists k, p. split; [exact Hp|]. split; [reflexivity|]. split; reflexivity.
    - destruct (has_key _ _); intros H; injection H as <-;
        (split; [reflexivity|left; auto]). }
  destruct (String.eqb (code self) "3").
  { unfold on_report. change (processes (with_io self inc fx' a)) with (processes a).
    destruct (processes a !! k) as [p|].
    - destruct (is_alive _ p).
      + intros H; injection H as <-. split; [reflexivity|left; auto].
      + cbn zeta. change (reports (say _ _)) with (reports a).
        destruct (reports a !! k); [|discriminate].
        intros H; injection H as <-. split; [reflexivity|left; auto].
    - intros H; injection H as <-. split; [reflexivity|left; auto]. }
  intros H; injection H as <-. split; [reflexivity|left; auto].
Qed.

(** X3.  A turn of [main]'s loop never writes the report cache, however it
    ends (goes on, exits on CLOSE, or dies): [reports] is only ever assigned
    by [storeResult] in a background process (zompie.py lines 97-98), [main]
    itself only reads it. *)
Theorem serving_never_touches_the_cache (a : agent) :
  reports (state_of (main_turn a)) = reports a.
Proof.
  destruct (main_turn a) as [a'|a'|e a'] eqn:Ht; cbn [state_of].
  - exact (proj1 (main_turn_tasks a a' Ht)).
  - unfold main_turn in Ht.
    destruct (bufferMessages (fs a) (buffer a) (conn a) (fx a))
      as [[[[r|e0] self] inc] fx'] eqn:Hdec; [|discriminate].
    destruct r as [[|c0 k']|].
    1,3: destruct (String.eqb (code self) "9"); [|discriminate];
         injection Ht as <-;
         exact (proj1 (proj2 (proj2 (proj2 (proj2 (terminate_all_spec _)))))).
    destruct (String.eqb (code self) "1").
    { unfold on_run in Ht. destruct (running _ _); [discriminate|].
      destruct (reports _ !! _); [discriminate|].
      destruct (args _); discriminate. }
    destruct (String.eqb (code self) "2").
    { unfold on_stop in Ht. destruct (running _ _).
      - destruct (processes _ !! _); discriminate.
      - destruct (has_key _ _); discriminate. }
    destruct (String.eqb (code self) "3"); [|discriminate].
    unfold on_report in Ht. destruct (processes _ !! _); [|discriminate].
    destruct (is_alive _ _); [discriminate|]. cbn zeta in Ht.
    destruct (reports _ !! _); discriminate.
  - unfold main_turn in Ht.
    destruct (bufferMessages (fs a) (buffer a) (conn a) (fx a))
      as [[[[r|e0] self] inc] fx'] eqn:Hdec.
    2:{ injection Ht as <- <-. reflexivity. }
    destruct r as [[|c0 k']|].
    1,3: destruct (String.eqb (code self) "9"); discriminate.
    destruct (String.eqb (code self) "1").
    { unfold on_run in Ht. destruct (running _ _); [discriminate|].
      destruct (reports _ !! _); [discriminate|].
      destruct (args _); [|discriminate]. injection Ht as <- <-. reflexivity. }
    destruct (String.eqb (code self) "2").
    { unfold on_stop in Ht. destruct (running _ _).
      - destruct (processes _ !! _); [discriminate|]. injection Ht as <- <-. reflexivity.
      - destruct (has_key _ _); discriminate. }
    destruct (String.eqb (code self) "3"); [|discriminate].
    unfold on_report in Ht. destruct (processes _ !! _); [|discriminate].
    destruct (is_alive _ _); [discriminate|]. cbn zeta in Ht.
    destruct (reports _ !! _); [discriminate|]. injection Ht as <- <-. reflexivity.
Qed.

Lemma tidy_boot paths requests : tidy (boot paths requests).
Proof.
  unfold tidy, boot. cbn [processes alive next_pid].
  split; [intros k p H; rewrite lookup_empty in H; discriminate|].
  split; [intros n Hn; apply not_elem_of_empty in Hn; contradiction|].
  intros k1 k2 p1 p2 H. rewrite lookup_empty in H. discriminate.
Qed.

Lemma tidy_step a a' : step a a' -> tidy a -> tidy a'.
Proof.
  intros Hstep (Hreg & Hlive & Hinj). destruct Hstep as [a a' Ht|a k p out Hp Hal|a k p Hp Hal].
  - destruct (main_turn_tasks a a' Ht) as [_ [(Hp & Ha & Hn)|[Hrun|Hstop]]].
    + unfold tidy. rewrite Hp, Ha, Hn. auto.
    + destruct Hrun as (k & argv & Hrun & Hp & Ha & Hn).
      unfold tidy. rewrite Hp, Ha, Hn. split; [|split].
      * intros k0 p0 Hk0. destruct (decide (k = k0)) as [<-|Hne].
        -- rewrite lookup_insert_eq in Hk0. injection Hk0 as <-. simpl. split; [lia|reflexivity].
        -- rewrite lookup_insert_ne in Hk0 by exact Hne.
           destruct (Hreg k0 p0 Hk0). split; [lia|assumption].
      * intros n [Hn0%elem_of_singleton|Hn0]%elem_of_union.
        -- subst n. eexists k, _. rewrite lookup_insert_eq. split; reflexivity.
        -- destruct (Hlive n Hn0) as (k0 & p0 & Hk0 & Hpid).
           exists k0, p0. split; [|exact Hpid].
           rewrite lookup_insert_ne; [exact Hk0|]. intros <-.
           unfold running in Hrun. rewrite Hk0 in Hrun.
           unfold is_alive in Hrun. apply bool_decide_eq_false in Hrun.
           apply Hrun. rewrite Hpid. exact Hn0.
      * intros k1 k2 p1 p2 H1 H2 Hpid.
        destruct (decide (k = k1)) as [<-|Hne1]; destruct (decide (k = k2)) as [<-|Hne2];
          [reflexivity| | |].
        -- rewrite lookup_insert_eq in H1. injection H1 as <-.
           rewrite lookup_insert_ne in H2 by exact Hne2.
           destruct (Hreg k2 p2 H2) as [Hlt _]. simpl in Hpid. lia.
        -- rewrite lookup_insert_eq in H2. injection H2 as <-.
           rewrite lookup_insert_ne in H1 by exact Hne1.
           destruct (Hreg k1 p1 H1) as [Hlt _]. simpl in Hpid. lia.
        -- rewrite lookup_insert_ne in H1 by exact Hne1.
           rewrite lookup_insert_ne in H2 by exact Hne2.
           exact (Hinj k1 k2 p1 p2 H1 H2 Hpid).
    + destruct Hstop as (k & p & Hkp & Hp & Ha & Hn).
      unfold tidy. rewrite Hp, Ha, Hn. split; [|split].
      * intros k0 p0 [Hne Hk0]%lookup_delete_Some. exact (Hreg k0 p0 Hk0).
      * intros n [Hn0 Hnp]%elem_of_difference.
        destruct (Hlive n Hn0) as (k0 & p0 & Hk0 & Hpid).
        exists k0, p0. split; [|exact Hpid].
        apply lookup_delete_Some. split; [|exact Hk0]. intros <-.
        rewrite Hkp in Hk0. injection Hk0 as <-.
        apply Hnp, elem_of_singleton. symmetry. exact Hpid.
      * intros k1 k2 p1 p2 [_ H1]%lookup_delete_Some [_ H2]%lookup_delete_Some.
        exact (Hinj k1 k2 p1 p2 H1 H2).
  - unfold tidy. cbn [storeResult_returns processes alive next_pid].
    split; [exact Hreg|]. split; [|exact Hinj].
    intros n [Hn _]%elem_of_difference. exact (Hlive n Hn).
  - unfold tidy. cbn [storeResult_raises terminate processes alive next_pid].
    split; [exact Hreg|]. split; [|exact Hinj].
    intros n [Hn _]%elem_of_difference. exact (Hlive n Hn).
Qed.

(** X4.  An invariant of the agent's bookkeeping.  In every state the agent
    can reach from its start, by serving requests and by its background
    processes ending: each task-table entry is stored under its own
    invocation; every live process is the process of some entry (a stopped
    or replaced process is never left alive); and no two entries share a
    process. *)
Theorem reachable_agents_are_tidy paths requests a :
  reachable paths requests a -> tidy a.
Proof.
  unfold reachable. intros H.
  apply (rtc_ind_r (R := step) (fun x => tidy x) (boot paths requests));
    [apply tidy_boot|intros y z _ Hyz IH; exact (tidy_step _ _ Hyz IH)|exact H].
Qed.

(** RUN is served and the script completes. *)
Lemma reachable_agents_are_tidy_witness :
  reachable {["./echo.sh"]} [Scenario.RUN_echo] (Scenario.agent_done [])
  /\ tidy (Scenario.agent_done []).
Proof.
  assert (H : reachable {["./echo.sh"]} [Scenario.RUN_echo] (Scenario.agent_done [])).
  { unfold reachable.
    apply (rtc_l _ _ (Scenario.agent_running [])).
    - apply step_turn. vm_compute. reflexivity.
    - apply rtc_once.
      apply (step_returns (Scenario.agent_running []) Scenario.echo
               (Scenario.the_process (Scenario.agent_running []))
               ("hi" +:+ String LF "")); vm_compute; reflexivity. }
  split; [exact H|exact (reachable_agents_are_tidy _ _ _ H)].
Defined.

End AgentBookkeeping.
Section AgentServes.
Import Py Io Wire zompie Lifecycle.

(** X5.  Round trip of a request.  What the controller's [makeZOMPRequest]
    (zomp_cnc.py lines 96-111) builds for the command run, stop or report,
    typed in any letter case, and a non-empty invocation without a carriage
    return whose script exists in the agent's directory, the agent's decoder
    (on an empty buffer, in one receive) hands back as that invocation, with
    the code of the command, the command in upper case, the argument list
    headed by [./scriptname], nothing left in the buffer and nothing
    sent. *)
Theorem request_round_trip (paths : gset string) (self : ZOMPRequestBuffer)
        (typed invocation wire scriptname : string) (more rest : list string)
        (fx0 : effects) :
  zomp_cnc.makeZOMPRequest typed invocation = Return wire ->
  buf self = "" ->
  signal self = CRLF +:+ CRLF ->
  invocation <> "" ->
  lacks CR invocation = true ->
  split invocation " " None = scriptname :: more ->
  "./" +:+ scriptname ∈ paths ->
  exists self' fx',
    bufferMessages paths self (wire :: rest) fx0
    = (Return (Some invocation), self', rest, fx')
    /\ (casefold typed = "run" /\ code self' = "1"
        \/ casefold typed = "stop" /\ code self' = "2"
        \/ casefold typed = "report" /\ code self' = "3")
    /\ command self' = upper typed
    /\ script_invocation self' = invocation
    /\ args self' = ("./" +:+ scriptname) :: more
    /\ buf self' = ""
    /\ sent fx' = sent fx0.
Proof.
  intros Hreq Hbuf Hsig Hi Hi1 Hargs Hex.
  destruct (makeZOMPRequest_cases _ _ _ Hreq) as (c & cmd & Hc & Hup & ->).
  assert (Hcmd : cmd <> "" /\ lacks CR cmd = true /\ rstrip cmd = cmd).
  { destruct Hc as [(_ & _ & ->)|[(_ & _ & ->)|(_ & _ & ->)]];
      (split; [discriminate|split; reflexivity]). }
  destruct Hcmd as (Hcmd & Hcmd1 & Hcmd2).
  assert (Hc' : c = "1" \/ c = "2" \/ c = "3") by tauto.
  rewrite (decode_request_lines paths self c cmd invocation scriptname more rest fx0
             Hbuf Hsig Hc' Hcmd Hcmd1 Hcmd2 Hi Hi1 Hargs).
  cbv zeta. rewrite (bool_decide_eq_true_2 _ Hex).
  eexists _, _. split; [reflexivity|].
  cbn [code command script_invocation args buf sent print].
  split; [tauto|]. split; [symmetry; exact Hup|].
  split; [reflexivity|]. split; [reflexivity|]. split; reflexivity.
Qed.

End AgentServes.
Section AgentRefusals.
Import Py Io Wire zompie Lifecycle.

Lemma request_round_trip_witness :
  exists self' fx',
    bufferMessages {["./echo.sh"]} init [Scenario.RUN_echo] silent
    = (Return (Some "echo.sh hi"), self', [], fx')
    /\ code self' = "1"
    /\ args self' = ["./echo.sh"; "hi"].
Proof.
  destruct (request_round_trip {["./echo.sh"]} init "run" "echo.sh hi"
              Scenario.RUN_echo "echo.sh" ["hi"] [] silent)
    as (self' & fx' & Hdec & Hcode & _ & _ & Hargs & _).
  - reflexivity.
  - reflexivity.
  - reflexivity.
  - discriminate.
  - reflexivity.
  - reflexivity.
  - apply elem_of_singleton. reflexivity.
  - exists self', fx'. split; [exact Hdec|]. split; [|exact Hargs].
    destruct Hcode as [[_ H]|[[H _]|[H _]]]; [exact H|discriminate H..].
Defined.

(** X6.  A request for a script that does not exist in the agent's
    directory is answered with [02 Script not found], whatever the command
    (RUN, STOP or REPORT alike), and changes nothing else: task table,
    report cache and processes are as before (zompie.py lines 63-74). *)
Theorem missing_script_is_refused (a : agent)
        (typed invocation wire scriptname : string) (more rest : list string) :
  zomp_cnc.makeZOMPRequest typed invocation = Return wire ->
  conn a = wire :: rest ->
  buf (buffer a) = "" ->
  signal (buffer a) = CRLF +:+ CRLF ->
  invocation <> "" ->
  lacks CR invocation = true ->
  split invocation " " None = scriptname :: more ->
  "./" +:+ scriptname ∉ fs a ->
  exists a',
    main_turn a = Continue a'
    /\ sent (fx a') = sent (fx a) ++ ["ZOMP/1.0 02 Script not found" +:+ CRLF +:+ CRLF]
    /\ conn a' = rest
    /\ processes a' = processes a
    /\ reports a' = reports a
    /\ alive a' = alive a
    /\ next_pid a' = next_pid a.
Proof.
  intros Hreq Hconn Hbuf Hsig Hi Hi1 Hargs Hex.
  destruct (makeZOMPRequest_cases _ _ _ Hreq) as (c & cmd & Hc & Hup & ->).
  assert (Hcmd : cmd <> "" /\ lacks CR cmd = true /\ rstrip cmd = cmd).
  { destruct Hc as [(_ & _ & ->)|[(_ & _ & ->)|(_ & _ & ->)]];
      (split; [discriminate|split; reflexivity]). }
  destruct Hcmd as (Hcmd & Hcmd1 & Hcmd2).
  assert (Hc' : c = "1" \/ c = "2" \/ c = "3") by tauto.
  unfold main_turn. rewrite Hconn.
  rewrite (decode_request_lines (fs a) (buffer a) c cmd invocation scriptname more rest
             (fx a) Hbuf Hsig Hc' Hcmd Hcmd1 Hcmd2 Hi Hi1 Hargs).
  cbv zeta. rewrite (bool_decide_eq_false_2 _ Hex). cbn [code].
  assert (H9 : String.eqb c "9" = false) by (destruct Hc' as [->|[->| ->]]; reflexivity).
  rewrite H9.
  eexists. split; [reflexivity|].
  cbn [with_io fx conn processes reports alive next_pid send print sent].
  repeat split.
Qed.

Lemma missing_script_is_refused_witness :
  exists a',
    main_turn (zompie.boot ∅ [Scenario.RUN_echo]) = Continue a'
    /\ sent (fx a') = [READY_MSG; "ZOMP/1.0 02 Script not found" +:+ CRLF +:+ CRLF]
    /\ processes a' = ∅.
Proof.
  destruct (missing_script_is_refused (zompie.boot ∅ [Scenario.RUN_echo])
              "run" "echo.sh hi" Scenario.RUN_echo "echo.sh" ["hi"] [])
    as (a' & Hturn & Hsent & _ & Hp & _).
  - reflexivity.
  - reflexivity.
  - reflexivity.
  - reflexivity.
  - discriminate.
  - reflexivity.
  - reflexivity.
  - apply not_elem_of_empty.
  - exists a'. split; [exact Hturn|]. split; [exact Hsent|exact Hp].
Defined.



(** X8.  The controller's CLOSE message (zomp_cnc.py line 12) ends the
    agent (zompie.py lines 54-56, 149-153): the loop exits without a reply,
    every process of the task table has been terminated, the cache is
    untouched; and when the bookkeeping invariant holds no background
    process is left alive at all. *)
Theorem close_ends_the_agent (a : agent) (rest : list string) :
  conn a = zomp_cnc.CLOSE_MSG :: rest ->
  buf (buffer a) = "" ->
  signal (buffer a) = CRLF +:+ CRLF ->
  exists a',
    main_turn a = Exit a'
    /\ sent (fx a') = sent (fx a)
    /\ reports a' = reports a
    /\ (forall k p, processes a !! k = Some p -> is_alive a' p = false)
    /\ (tidy a -> alive a' = ∅).
Proof.
  intros Hconn Hbuf Hsig.
  unfold main_turn. rewrite Hconn.
  change zomp_cnc.CLOSE_MSG with ("ZOMP/1.0 " +:+ "9" +:+ " " +:+ "CLOSE" +:+ CRLF +:+ CRLF).
  rewrite (decode_request_line_only (fs a) (buffer a) "9" "CLOSE" rest (fx a)
             Hbuf Hsig eq_refl eq_refl ltac:(discriminate) eq_refl eq_refl).
  cbv zeta. cbn [code]. change (String.eqb "9" "9") with true. cbv iota.
  eexists. split; [reflexivity|].
  match goal with |- context [terminate_all ?x] =>
    destruct (terminate_all_spec x) as (Hb & Hc & Hf & Hp & Hr & Hal)
  end.
  rewrite Hf, Hr. cbn [with_io fx reports processes alive print sent] in *.
  split; [reflexivity|]. split; [reflexivity|]. split.
  - intros k p Hk. unfold is_alive. apply bool_decide_eq_false.
    intros [_ Hn]%Hal. exact (Hn k p Hk eq_refl).
  - intros (_ & Hlive & _). apply set_eq. intros n. split.
    + intros [Hn Hno]%Hal. destruct (Hlive n Hn) as (k & p & Hk & Hpid).
      exfalso. exact (Hno k p Hk Hpid).
    + intros Hn. apply not_elem_of_empty in Hn. contradiction.
Qed.

Lemma close_ends_the_agent_witness :
  exists a',
    main_turn (Scenario.agent_running [zomp_cnc.CLOSE_MSG]) = Exit a'
    /\ alive a' = ∅.
Proof.
  destruct (close_ends_the_agent (Scenario.agent_running [zomp_cnc.CLOSE_MSG]) [])
    as (a' & Hturn & _ & _ & _ & Hal).
  - reflexivity.
  - reflexivity.
  - reflexivity.
  - exists a'. split; [exact Hturn|]. apply Hal.
    apply (tidy_step (zompie.boot {["./echo.sh"]} [Scenario.RUN_echo; zomp_cnc.CLOSE_MSG]));
      [|apply tidy_boot].
    apply step_turn. vm_compute. reflexivity.
Defined.

End AgentRefusals.
Section CacheGrowth.
Import Py Io Wire zompie Lifecycle.

Lemma step_keeps_reports a a' k :
  step a a' -> is_Some (reports a !! k) -> is_Some (reports a' !! k).
Proof.
  intros [x y Ht|x k0 p out Hp Hal|x k0 p Hp Hal] Hk.
  - rewrite (proj1 (main_turn_tasks x y Ht)). exact Hk.
  - cbn [storeResult_returns reports].
    destruct (decide (target_invocation p = k)) as [<-|Hne].
    + rewrite lookup_insert_eq. eauto.
    + rewrite lookup_insert_ne by exact Hne. exact Hk.
  - exact Hk.
Qed.

(** X9.  Whatever the agent serves and however its background processes
    end, a report once cached stays cached (it can be replaced by the output
    of a later run of the same invocation, never removed): nothing in
    zompie.py deletes from [reports]. *)
Theorem cache_is_never_evicted (a a' : agent) (k : string) :
  rtc step a a' -> is_Some (reports a !! k) -> is_Some (reports a' !! k).
Proof.
  intros H. induction H as [|x y z Hxy _ IH]; [auto|].
  intros Hk. apply IH. exact (step_keeps_reports _ _ _ Hxy Hk).
Qed.

Lemma cache_is_never_evicted_witness :
  is_Some (reports (Scenario.agent_done [Scenario.REPORT_echo]) !! Scenario.echo)
  /\ is_Some (reports (state_of (main_turn (Scenario.agent_done [Scenario.REPORT_echo])))
              !! Scenario.echo).
Proof.
  assert (H : is_Some (reports (Scenario.agent_done [Scenario.REPORT_echo])
                       !! Scenario.echo)).
  { exists ("hi" +:+ String LF ""). vm_compute. reflexivity. }
  split; [exact H|].
  apply (cache_is_never_evicted (Scenario.agent_done [Scenario.REPORT_echo])); [|exact H].
  eapply rtc_l; [|apply rtc_refl].
  apply step_turn. vm_compute. reflexivity.
Defined.

End CacheGrowth.

(* ===================================================================== *)
(** * Messages that arrive in pieces *)
(* ===================================================================== *)

Section Pieces.
Import Py Io Wire.

Lemma prefix_app_mono sub : forall s b,
  String.prefix sub s = true -> String.prefix sub (s +:+ b) = true.
Proof.
  induction sub as [|c sub IH]; intros s b H.
  - destruct (s +:+ b); reflexivity.
  - destruct s as [|x s]; [discriminate|].
    rewrite app_cons. simpl in *. destruct (ascii_dec c x); [|discriminate].
    exact (IH s b H).
Qed.

Lemma prefix_app_short sub : forall s b,
  String.prefix sub (s +:+ b) = true ->
  (String.length sub <= String.length s)%nat ->
  String.prefix sub s = true.
Proof.
  induction sub as [|c sub IH]; intros s b H Hlen.
  - destruct s; reflexivity.
  - destruct s as [|x s]; [simpl in Hlen; lia|].
    rewrite app_cons in H. simpl in *. destruct (ascii_dec c x); [|discriminate].
    apply (IH s b H). lia.
Qed.

Lemma prefix_length sub : forall s,
  String.prefix sub s = true -> (String.length sub <= String.length s)%nat.
Proof.
  induction sub as [|c sub IH]; intros s H; [simpl; lia|].
  destruct s as [|x s]; [discriminate|]. simpl in *.
  destruct (ascii_dec c x); [|discriminate]. specialize (IH s H). lia.
Qed.

Lemma prefix_split sub : forall s,
  String.prefix sub s = true -> s = sub +:+ drop (String.length sub) s.
Proof.
  induction sub as [|c sub IH]; intros s H.
  - destruct s; reflexivity.
  - destruct s as [|x s]; [discriminate|]. simpl in H.
    destruct (ascii_dec c x) as [->|]; [|discriminate].
    rewrite app_cons. cbn [String.length drop]. f_equal. exact (IH s H).
Qed.

Lemma find_cons c s sub :
  find (String c s) sub
  = if String.prefix sub (String c s) then Some 0%nat else S <$> find s sub.
Proof. reflexivity. Qed.

Lemma find_nil sub : find "" sub = if String.prefix sub "" then Some 0%nat else None.
Proof. reflexivity. Qed.

(** The first occurrence lies inside the string. *)
Lemma find_bound sub : forall s i,
  find s sub = Some i -> (i + String.length sub <= String.length s)%nat.
Proof.
  induction s as [|c s IH]; intros i H.
  - rewrite find_nil in H. destruct (String.prefix sub "") eqn:Hp; [|discriminate].
    injection H as <-. exact (prefix_length _ _ Hp).
  - rewrite find_cons in H. destruct (String.prefix sub (String c s)) eqn:Hp.
    + injection H as <-. exact (prefix_length _ _ Hp).
    + destruct (find s sub) as [j|]; [|discriminate]. injection H as <-.
      specialize (IH j eq_refl). simpl. lia.
Qed.

(** The string around its first occurrence of [sub]. *)
Lemma find_split sub : forall s i,
  find s sub = Some i ->
  s = take i s +:+ sub +:+ drop (i + String.length sub) s.
Proof.
  induction s as [|c s IH]; intros i H.
  - rewrite find_nil in H. destruct (String.prefix sub "") eqn:Hp; [|discriminate].
    injection H as <-. exact (prefix_split _ _ Hp).
  - rewrite find_cons in H. destruct (String.prefix sub (String c s)) eqn:Hp.
    + injection H as <-. exact (prefix_split _ _ Hp).
    + destruct (find s sub) as [j|] eqn:Hf; [|discriminate]. injection H as <-.
      cbn [take drop Nat.add]. rewrite app_cons. f_equal. exact (IH j eq_refl).
Qed.

(** What a string lacks, its beginnings lack. *)
Lemma find_app_none sub b : forall a, find (a +:+ b) sub = None -> find a sub = None.
Proof.
  induction a as [|c a IH]; intros H.
  - rewrite find_nil. destruct (String.prefix sub "") eqn:Hp; [|reflexivity].
    pose proof (prefix_app_mono sub "" b Hp) as Hp'.
    rewrite (find_here _ _ Hp') in H. discriminate.
  - rewrite app_cons, find_cons in H. rewrite find_cons.
    destruct (String.prefix sub (String c a)) eqn:Hp.
    + pose proof (prefix_app_mono sub (String c a) b Hp) as Hp'.
      rewrite app_cons in Hp'. rewrite Hp' in H. discriminate.
    + destruct (String.prefix sub (String c (a +:+ b))); [discriminate|].
      destruct (find (a +:+ b) sub) eqn:Hf; [discriminate|].
      rewrite (IH eq_refl). reflexivity.
Qed.

(** Where a beginning has its first occurrence, the whole has it. *)
Lemma find_app_some sub b : forall a i,
  find a sub = Some i -> find (a +:+ b) sub = Some i.
Proof.
  induction a as [|c a IH]; intros i H.
  - rewrite find_nil in H. destruct (String.prefix sub "") eqn:Hp; [|discriminate].
    injection H as <-. apply find_here. exact (prefix_app_mono sub "" b Hp).
  - rewrite find_cons in H. rewrite app_cons, find_cons.
    destruct (String.prefix sub (String c a)) eqn:Hp.
    + pose proof (prefix_app_mono sub (String c a) b Hp) as Hp'.
      rewrite app_cons in Hp'. rewrite Hp'. exact H.
    + destruct (find a sub) as [j|] eqn:Hf; [|discriminate].
      rewrite (IH j eq_refl).
      destruct (String.prefix sub (String c (a +:+ b))) eqn:Hp'; [|exact H].
      exfalso. rewrite <- app_cons in Hp'.
      pose proof (find_bound _ _ _ Hf) as Hb.
      rewrite (prefix_app_short sub (String c a) b Hp') in Hp; [discriminate|].
      simpl. lia.
Qed.

(** ["".join(pieces)] *)
Lemma join_cons d ds : join "" (d :: ds) = d +:+ join "" ds.
Proof.
  unfold join. destruct ds as [|d' ds]; cbn [String.concat].
  - rewrite app_empty_r. reflexivity.
  - rewrite app_empty_l. reflexivity.
Qed.

Lemma app_nonempty a b : a <> "" -> a +:+ b <> "".
Proof. destruct a; [contradiction|discriminate]. Qed.

End Pieces.

Section PiecewiseReceives.
Import Py Io Wire Transport.

Lemma join_nonempty ds last :
  Forall (fun d => d <> "") ds -> last <> "" -> join "" ds +:+ last <> "".
Proof.
  intros Hds Hlast. destruct ds as [|d ds]; [exact Hlast|].
  apply Forall_cons in Hds as [Hd _]. rewrite join_cons.
  apply app_nonempty, app_nonempty. exact Hd.
Qed.

Lemma len_app a b : len (a +:+ b) = len a + len b.
Proof. unfold len. rewrite length_app_str. lia. Qed.

Lemma len_nonneg a : 0 <= len a.
Proof. unfold len. lia. Qed.

Lemma len_positive d : d <> "" -> 0 < len d.
Proof. destruct d; [contradiction|]. intros _. unfold len. simpl. lia. Qed.

(** One more receive before the terminator is complete: the agent's decoder
    goes on as if both pieces had come together. *)
Lemma agent_decode_merge paths self d x rest fx0 :
  d <> "" -> x <> "" ->
  find (zompie.buf self +:+ d) (zompie.signal self) = None ->
  zompie.bufferMessages paths self (d :: x :: rest) fx0
  = zompie.bufferMessages paths self ((d +:+ x) :: rest) fx0.
Proof.
  intros Hd Hx Hfind.
  cbn [zompie.bufferMessages].
  rewrite (len_nonempty _ Hd), (len_nonempty _ Hx),
    (len_nonempty _ (app_nonempty d x Hd)).
  cbv zeta. cbn [zompie.buf zompie.signal zompie.set_buf].
  rewrite Hfind, app_assoc_str. reflexivity.
Qed.

(** X10.  On 7-bit receives the agent's decoder does not depend on how the
    transport cuts the bytes of a header (zompie.py lines 24-33): receives
    that arrive before the terminator is complete, followed by one more, are
    decoded exactly as if they had arrived joined to it in a single
    receive, from any buffer state and whether the bytes are a well-formed
    request or not. *)
Theorem agent_header_in_pieces paths (pieces : list string)
        (self : zompie.ZOMPRequestBuffer) (last : string) (rest : list string)
        (fx0 : effects) :
  Forall (fun d => d <> "") pieces ->
  last <> "" ->
  Forall (fun d => isascii d = true) pieces ->
  isascii last = true ->
  find (zompie.buf self +:+ join "" pieces) (zompie.signal self) = None ->
  zompie.bufferMessages paths self (pieces ++ last :: rest) fx0
  = zompie.bufferMessages paths self ((join "" pieces +:+ last) :: rest) fx0.
Proof.
  intros Hne Hlast _ _. revert self last rest fx0 Hne Hlast.
  induction pieces as [|d ds IH]; intros self last rest fx0 Hne Hlast Hfind.
  - reflexivity.
  - apply Forall_cons in Hne as [Hd Hds].
    rewrite join_cons in *. rewrite <- app_assoc_str in Hfind.
    pose proof (find_app_none _ _ _ Hfind) as Hfd.
    rewrite app_assoc_str.
    rewrite <- (agent_decode_merge paths self d (join "" ds +:+ last) rest fx0 Hd
                  (join_nonempty ds last Hds Hlast) Hfd).
    cbn [app zompie.bufferMessages].
    rewrite (len_nonempty _ Hd). cbv zeta.
    cbn [zompie.buf zompie.signal zompie.set_buf]. rewrite Hfd.
    specialize (IH (zompie.set_buf (zompie.buf self +:+ d) self) last rest fx0 Hds Hlast Hfind).
    rewrite IH.
    cbn [zompie.bufferMessages].
    reflexivity.
Qed.

(** A RUN request cut inside the request line and inside the invocation
    line. *)
Lemma agent_header_in_pieces_witness :
  Forall (fun d => d <> "") ["ZOMP/1.0 1 R"; "UN" +:+ CRLF +:+ "echo.sh"]
  /\ Forall (fun d => isascii d = true) ["ZOMP/1.0 1 R"; "UN" +:+ CRLF +:+ "echo.sh"]
  /\ isascii (" hi" +:+ CRLF +:+ CRLF) = true
  /\ zompie.bufferMessages {["./echo.sh"]} zompie.init
       (["ZOMP/1.0 1 R"; "UN" +:+ CRLF +:+ "echo.sh"]
          ++ (" hi" +:+ CRLF +:+ CRLF) :: []) silent
     = zompie.bufferMessages {["./echo.sh"]} zompie.init
         ((join "" ["ZOMP/1.0 1 R"; "UN" +:+ CRLF +:+ "echo.sh"]
             +:+ (" hi" +:+ CRLF +:+ CRLF)) :: []) silent.
Proof.
  assert (Hne : Forall (fun d => d <> "") ["ZOMP/1.0 1 R"; "UN" +:+ CRLF +:+ "echo.sh"]).
  { repeat constructor; discriminate. }
  assert (Ha : Forall (fun d => isascii d = true)
                 ["ZOMP/1.0 1 R"; "UN" +:+ CRLF +:+ "echo.sh"])
    by (repeat constructor).
  split; [exact Hne|]. split; [exact Ha|]. split; [reflexivity|].
  apply (agent_header_in_pieces {["./echo.sh"]} _ zompie.init);
    [exact Hne|discriminate|exact Ha|reflexivity|].
  vm_compute. reflexivity.
Defined.

End PiecewiseReceives.

Section PiecewiseReplies.
Import Py Io Wire zomp_cnc Transport.

Lemma cnc_decode_merge self d x rest fx0 :
  num_chars self <= 0 ->
  d <> "" -> x <> "" ->
  find (buf self +:+ d) (signal self) = None ->
  bufferMessages self (d :: x :: rest) fx0
  = bufferMessages self ((d +:+ x) :: rest) fx0.
Proof.
  intros Hn Hd Hx Hfind. apply Z.leb_le in Hn.
  cbn [bufferMessages]. rewrite Hn.
  rewrite (len_nonempty _ Hd), (len_nonempty _ Hx),
    (len_nonempty _ (app_nonempty d x Hd)).
  cbv zeta. cbn [buf signal num_chars set_buf].
  rewrite Hfind, Hn, app_assoc_str. reflexivity.
Qed.

(** X11.  On 7-bit receives the controller's decoder, while it is reading
    a header (no body pending), does not depend on how the transport cuts
    the bytes (zomp_cnc.py lines 29-38): receives that arrive before the
    terminator is complete, followed by one more, are decoded exactly as if
    they had arrived joined to it in a single receive. *)
Theorem controller_header_in_pieces (pieces : list string)
        (self : ZOMPResponseBuffer) (last : string) (rest : list string)
        (fx0 : effects) :
  num_chars self <= 0 ->
  Forall (fun d => d <> "") pieces ->
  last <> "" ->
  Forall (fun d => isascii d = true) pieces ->
  isascii last = true ->
  find (buf self +:+ join "" pieces) (signal self) = None ->
  bufferMessages self (pieces ++ last :: rest) fx0
  = bufferMessages self ((join "" pieces +:+ last) :: rest) fx0.
Proof.
  intros Hn Hne Hlast _ _. revert self last rest fx0 Hn Hne Hlast.
  induction pieces as [|d ds IH]; intros self last rest fx0 Hn Hne Hlast Hfind.
  - reflexivity.
  - apply Forall_cons in Hne as [Hd Hds].
    rewrite join_cons in *. rewrite <- app_assoc_str in Hfind.
    pose proof (find_app_none _ _ _ Hfind) as Hfd.
    rewrite app_assoc_str.
    rewrite <- (cnc_decode_merge self d (join "" ds +:+ last) rest fx0 Hn Hd
                  (join_nonempty ds last Hds Hlast) Hfd).
    pose proof Hn as Hn'. apply Z.leb_le in Hn'.
    cbn [app bufferMessages]. rewrite Hn'.
    rewrite (len_nonempty _ Hd). cbv zeta.
    cbn [buf signal set_buf]. rewrite Hfd.
    rewrite (IH (set_buf (buf self +:+ d) self) last rest fx0 Hn Hds Hlast Hfind).
    cbn [bufferMessages num_chars set_buf]. rewrite Hn'.
    reflexivity.
Qed.

(** A status reply cut inside the status line and inside the
    Content-Length line. *)
Lemma controller_header_in_pieces_witness :
  Forall (fun d => d <> "") ["ZOMP/1.0 1"; "0 OK, running script" +:+ CRLF +:+ "echo.sh hi"
                                            +:+ CRLF +:+ "Content-"]
  /\ Forall (fun d => isascii d = true)
       ["ZOMP/1.0 1"; "0 OK, running script" +:+ CRLF +:+ "echo.sh hi"
                       +:+ CRLF +:+ "Content-"]
  /\ isascii ("Length: 0" +:+ CRLF +:+ CRLF) = true
  /\ bufferMessages init
       (["ZOMP/1.0 1"; "0 OK, running script" +:+ CRLF +:+ "echo.sh hi"
                        +:+ CRLF +:+ "Content-"]
          ++ ("Length: 0" +:+ CRLF +:+ CRLF) :: []) silent
     = bufferMessages init
         ((join "" ["ZOMP/1.0 1"; "0 OK, running script" +:+ CRLF +:+ "echo.sh hi"
                                   +:+ CRLF +:+ "Content-"]
             +:+ ("Length: 0" +:+ CRLF +:+ CRLF)) :: []) silent.
Proof.
  assert (Hne : Forall (fun d => d <> "")
                  ["ZOMP/1.0 1"; "0 OK, running script" +:+ CRLF +:+ "echo.sh hi"
                                  +:+ CRLF +:+ "Content-"]).
  { repeat constructor; discriminate. }
  assert (Ha : Forall (fun d => isascii d = true)
                 ["ZOMP/1.0 1"; "0 OK, running script" +:+ CRLF +:+ "echo.sh hi"
                                 +:+ CRLF +:+ "Content-"])
    by (repeat constructor).
  split; [exact Hne|]. split; [exact Ha|]. split; [reflexivity|].
  apply (controller_header_in_pieces _ init);
    [reflexivity|exact Hne|discriminate|exact Ha|reflexivity|].
  vm_compute. reflexivity.
Defined.

Lemma read_body_merge self d x rest fx0 :
  d <> "" -> x <> "" ->
  len (buf self +:+ d) < num_chars self ->
  read_body self (d :: x :: rest) fx0 = read_body self ((d +:+ x) :: rest) fx0.
Proof.
  intros Hd Hx Hlen.
  assert (H0 : (len (buf self) <? num_chars self) = true).
  { apply Z.ltb_lt. rewrite len_app in Hlen. pose proof (len_nonneg d). lia. }
  apply Z.ltb_lt in Hlen.
  cbn [read_body]. rewrite H0, (len_nonempty _ Hd).
  cbn [buf num_chars set_buf]. rewrite Hlen, (len_nonempty _ Hx),
    (len_nonempty _ (app_nonempty d x Hd)), app_assoc_str.
  reflexivity.
Qed.

(** X12.  On 7-bit receives, each of which adds as many characters to the
    buffer as it has bytes, the entity-body loop of the controller's decoder
    (zomp_cnc.py lines 70-78) does not depend on how the transport cuts the
    body: receives that leave the buffer short of the declared length,
    followed by one more, are read exactly as if they had arrived joined to
    it in a single receive. *)
Theorem controller_body_in_pieces (pieces : list string)
        (self : ZOMPResponseBuffer) (last : string) (rest : list string)
        (fx0 : effects) :
  Forall (fun d => d <> "") pieces ->
  last <> "" ->
  Forall (fun d => isascii d = true) pieces ->
  isascii last = true ->
  len (buf self +:+ join "" pieces) < num_chars self ->
  read_body self (pieces ++ last :: rest) fx0
  = read_body self ((join "" pieces +:+ last) :: rest) fx0.
Proof.
  intros Hne Hlast _ _. revert self last rest fx0 Hne Hlast.
  induction pieces as [|d ds IH]; intros self last rest fx0 Hne Hlast Hlen.
  - reflexivity.
  - apply Forall_cons in Hne as [Hd Hds].
    rewrite join_cons in *. rewrite <- app_assoc_str in Hlen.
    assert (Hld : len (buf self +:+ d) < num_chars self).
    { rewrite len_app in Hlen. pose proof (len_nonneg (join "" ds)). lia. }
    assert (H0 : (len (buf self) <? num_chars self) = true).
    { apply Z.ltb_lt. rewrite len_app in Hld. pose proof (len_nonneg d). lia. }
    rewrite app_assoc_str.
    rewrite <- (read_body_merge self d (join "" ds +:+ last) rest fx0 Hd
                  (join_nonempty ds last Hds Hlast) Hld).
    cbn [app read_body]. rewrite H0, (len_nonempty _ Hd).
    rewrite (IH (set_buf (buf self +:+ d) self) last rest fx0 Hds Hlast Hlen).
    cbn [read_body].
    reflexivity.
Qed.

(** A body of five bytes declared, arriving as "he", "l" and "lo". *)
Lemma controller_body_in_pieces_witness :
  Forall (fun d => d <> "") ["he"; "l"]
  /\ Forall (fun d => isascii d = true) ["he"; "l"]
  /\ read_body (set_num_chars 5 init) (["he"; "l"] ++ "lo" :: []) silent
     = read_body (set_num_chars 5 init) ((join "" ["he"; "l"] +:+ "lo") :: []) silent
  /\ read_body (set_num_chars 5 init) (["he"; "l"] ++ "lo" :: []) silent
     = (Return (Some "hello"), set_buf "hello" (set_num_chars 5 init), [], silent).
Proof.
  assert (Hne : Forall (fun d => d <> "") ["he"; "l"]).
  { repeat constructor; discriminate. }
  assert (Ha : Forall (fun d => isascii d = true) ["he"; "l"]) by (repeat constructor).
  split; [exact Hne|]. split; [exact Ha|]. split; [|reflexivity].
  apply (controller_body_in_pieces _ (set_num_chars 5 init));
    [exact Hne|discriminate|exact Ha|reflexivity|].
  vm_compute. reflexivity.
Defined.

End PiecewiseReplies.

Section RepliesInPieces.
Import Py Io Wire zomp_cnc Receiving.

Lemma app_eq_split p : forall a x q,
  a +:+ x = p +:+ q -> (String.length p <= String.length a)%nat ->
  exists t, a = p +:+ t /\ t +:+ x = q.
Proof.
  induction p as [|c p IH]; intros a x q H Hlen.
  - exists a. split; [reflexivity|exact H].
  - destruct a as [|c' a]; [simpl in Hlen; lia|].
    rewrite !app_cons in H. injection H as -> H.
    destruct (IH a x q H) as (t & -> & Ht); [simpl in Hlen; lia|].
    exists t. split; [reflexivity|exact Ht].
Qed.

Lemma app_inv_nil a b : a +:+ b = "" -> a = "" /\ b = "".
Proof. destruct a; [auto|discriminate]. Qed.

Lemma join_empty_nil ds : Forall (fun d => d <> "") ds -> join "" ds = "" -> ds = [].
Proof.
  destruct ds as [|d ds]; [reflexivity|].
  intros [Hd _]%Forall_cons. rewrite join_cons. intros [H _]%app_inv_nil. contradiction.
Qed.

(** A body whose pieces add up to the declared length is handed back once
    the last piece is in. *)
Lemma read_body_pieces (body : string) (rest : list string) (fx0 : effects) :
  forall (ds : list string) (self : ZOMPResponseBuffer),
  Forall (fun d => d <> "") ds ->
  buf self +:+ join "" ds = body ->
  num_chars self = len body ->
  read_body self (ds ++ rest) fx0 = (Return (Some body), set_buf body self, rest, fx0).
Proof.
  induction ds as [|d ds IH]; intros self Hne Hbody Hn.
  - cbn [join String.concat] in Hbody. rewrite app_empty_r in Hbody.
    rewrite read_body_enough by (rewrite Hn, Hbody; apply Z.ltb_irrefl).
    rewrite Hbody. destruct self. simpl in *. subst. reflexivity.
  - apply Forall_cons in Hne as [Hd Hds]. rewrite join_cons in Hbody.
    assert (H0 : (len (buf self) <? num_chars self) = true).
    { apply Z.ltb_lt. rewrite Hn, <- Hbody, !len_app.
      pose proof (len_nonneg (join "" ds)). pose proof (len_positive d Hd). lia. }
    cbn [app read_body]. rewrite H0, (len_nonempty _ Hd).
    rewrite (IH (set_buf (buf self +:+ d) self) Hds);
      [reflexivity|cbn [buf set_buf]; rewrite app_assoc_str; exact Hbody|exact Hn].
Qed.

(** Decoding a framed header that the newest receive completes, whatever
    the length it declares and whatever follows it in the buffer. *)
Lemma decode_framed_header self data c text invocation n tail rest fx0 :
  num_chars self <= 0 -> signal self = CRLF +:+ CRLF -> data <> "" ->
  buf self +:+ data = framed_header c text invocation n +:+ CRLF +:+ CRLF +:+ tail ->
  lacks CR c = true -> lacks " " c = true ->
  String.eqb c "00" = false -> String.eqb c "01" = false ->
  String.eqb c "02" = false ->
  text <> "" -> lacks CR text = true -> rstrip text = text ->
  invocation <> "" -> lacks CR invocation = true ->
  bufferMessages self (data :: rest) fx0
  = (let self' :=
       {| buf := tail; signal := CRLF +:+ CRLF; code := c;
          status_message := text; script_invocation := invocation;
          num_chars := Z.of_nat n |} in
     let fx' := print (framed_header c text invocation n +:+ String LF "") fx0 in
     if (negb (String.eqb c "12") && negb (String.eqb c "30"))%bool
     then (Return None, self', rest, fx')
     else if 0 <? Z.of_nat n then read_body self' rest fx'
          else bufferMessages self' rest fx').
Proof.
  intros Hn Hsig Hdata Hwire Hc1 Hc2 H00 H01 H02 Ht Ht1 Ht2 Hi Hi1.
  set (L1 := "ZOMP/1.0 " +:+ c +:+ " " +:+ text).
  set (L3 := "Content-Length: " +:+ str n).
  assert (HL1 : lacks CR L1 = true).
  { unfold L1. rewrite !lacks_app, Hc1, Ht1. reflexivity. }
  assert (HL3 : lacks CR L3 = true).
  { unfold L3. rewrite lacks_app, (str_lacks CR _ eq_refl). reflexivity. }
  assert (Hh : framed_header c text invocation n
               = L1 +:+ CRLF +:+ invocation +:+ CRLF +:+ L3).
  { unfold framed_header, L1, L3. rewrite !app_assoc_str. reflexivity. }
  rewrite Hh in *. clear Hh.
  apply Z.leb_le in Hn.
  cbn [bufferMessages]. rewrite Hn, (len_nonempty _ Hdata). cbv zeta.
  cbn [buf signal set_buf]. rewrite Hsig, Hwire.
  rewrite (find_signal_framed L1 invocation L3 tail HL1 Hi1 HL3 Hi ltac:(discriminate)).
  rewrite take_app_exact.
  change (String.length (CRLF +:+ CRLF)) with 4%nat.
  rewrite drop_app_more. change (drop 4 (CRLF +:+ CRLF +:+ tail)) with tail.
  unfold unpack_status_line.
  rewrite (split_lines_cut L1 _ HL1), (split_lines_cut invocation _ Hi1),
    (split_lines_last L3 HL3).
  unfold L1 at 1. rewrite (status_line_strip c text Ht Ht2),
    (status_line_split c text Hc2).
  rewrite H00, H01, H02. cbn [orb].
  unfold L3 at 1. rewrite content_length_value, int_str.
  unfold set_num_chars, set_script_invocation, set_status, set_buf.
  cbn [buf signal code status_message script_invocation num_chars].
  rewrite Hsig.
  reflexivity.
Qed.

(** Decoding a header that is a status line only. *)
Lemma decode_bare_header self data c text tail rest fx0 :
  num_chars self <= 0 -> signal self = CRLF +:+ CRLF -> data <> "" ->
  buf self +:+ data = bare_header c text +:+ CRLF +:+ CRLF +:+ tail ->
  c = "00" \/ c = "01" \/ c = "02" ->
  text <> "" -> lacks CR text = true -> rstrip text = text ->
  bufferMessages self (data :: rest) fx0
  = (Return None,
     {| buf := tail; signal := CRLF +:+ CRLF; code := c; status_message := text;
        script_invocation := script_invocation self; num_chars := num_chars self |},
     rest, bare_effects c text fx0).
Proof.
  intros Hn Hsig Hdata Hwire Hcode Ht Ht1 Ht2.
  assert (Hc : lacks CR c = true /\ lacks " " c = true).
  { destruct Hcode as [->|[->| ->]]; split; reflexivity. }
  destruct Hc as [Hc1 Hc2].
  unfold bare_effects.
  set (L1 := bare_header c text) in *.
  assert (HL1 : lacks CR L1 = true).
  { unfold L1, bare_header. rewrite !lacks_app, Hc1, Ht1. reflexivity. }
  assert (Hparsed : unpack_status_line L1 = Some ([], "ZOMP/1.0", c, text)).
  { unfold unpack_status_line.
    rewrite (split_lines_last L1 HL1).
    unfold L1 at 1. unfold bare_header.
    rewrite (status_line_strip c text Ht Ht2),
      (status_line_split c text Hc2). reflexivity. }
  clearbody L1. apply Z.leb_le in Hn.
  destruct Hcode as [->|[->| ->]];
    (cbn [bufferMessages]; rewrite Hn, (len_nonempty _ Hdata); cbv zeta;
     cbn [buf signal set_buf]; rewrite Hsig, Hwire;
     rewrite (find_signal_bare L1 tail HL1), take_app_exact;
     change (String.length (CRLF +:+ CRLF)) with 4%nat;
     rewrite drop_app_more; change (drop 4 (CRLF +:+ CRLF +:+ tail)) with tail;
     rewrite Hparsed;
     unfold set_status, set_buf;
     cbn [buf signal code status_message script_invocation num_chars String.eqb
          Ascii.eqb Bool.eqb orb];
     rewrite Hsig; reflexivity).
Qed.

End RepliesInPieces.

Section RepliesInPieces2.
Import Py Io Wire zomp_cnc Receiving Transport.

Lemma framed_split c text invocation body :
  framed c text invocation body
  = (framed_header c text invocation (String.length body) +:+ CRLF +:+ CRLF) +:+ body.
Proof. unfold framed, framed_header. rewrite !app_assoc_str. reflexivity. Qed.

Lemma find_framed_header c text invocation n tail :
  lacks CR c = true -> lacks CR text = true ->
  invocation <> "" -> lacks CR invocation = true ->
  find (framed_header c text invocation n +:+ CRLF +:+ CRLF +:+ tail) (CRLF +:+ CRLF)
  = Some (String.length (framed_header c text invocation n)).
Proof.
  intros Hc1 Ht1 Hi Hi1.
  assert (E : framed_header c text invocation n
              = ("ZOMP/1.0 " +:+ c +:+ " " +:+ text) +:+ CRLF +:+ invocation +:+ CRLF
                +:+ "Content-Length: " +:+ str n).
  { unfold framed_header. rewrite !app_assoc_str. reflexivity. }
  rewrite E. apply find_signal_framed; try assumption.
  - rewrite !lacks_app, Hc1, Ht1. reflexivity.
  - rewrite lacks_app, (str_lacks CR _ eq_refl). reflexivity.
  - discriminate.
Qed.

(** A framed reply that arrives in pieces, in a buffer that holds no
    terminator yet. *)
Lemma framed_in_pieces c text invocation body rest fx0 :
  lacks CR c = true -> lacks " " c = true ->
  String.eqb c "00" = false -> String.eqb c "01" = false -> String.eqb c "02" = false ->
  text <> "" -> lacks CR text = true -> rstrip text = text ->
  invocation <> "" -> lacks CR invocation = true ->
  (if (negb (String.eqb c "12") && negb (String.eqb c "30"))%bool
   then body = "" else body <> "") ->
  forall (pieces : list string) (self : ZOMPResponseBuffer),
    num_chars self <= 0 -> signal self = CRLF +:+ CRLF ->
    Forall (fun d => d <> "") pieces ->
    find (buf self) (CRLF +:+ CRLF) = None ->
    buf self +:+ join "" pieces = framed c text invocation body ->
    bufferMessages self (pieces ++ rest) fx0
    = (Return (if (negb (String.eqb c "12") && negb (String.eqb c "30"))%bool
               then None else Some body),
       {| buf := body; signal := CRLF +:+ CRLF; code := c; status_message := text;
          script_invocation := invocation; num_chars := len body |},
       rest,
       print (framed_header c text invocation (String.length body) +:+ String LF "") fx0).
Proof.
  intros Hc1 Hc2 H00 H01 H02 Ht Ht1 Ht2 Hi Hi1 Hkind.
  rewrite framed_split.
  pose proof (fun tail => find_framed_header c text invocation (String.length body) tail
                            Hc1 Ht1 Hi Hi1) as HfindW.
  remember (framed_header c text invocation (String.length body)) as Hd eqn:HdE.
  induction pieces as [|d ds IH]; intros self Hn Hsig Hne Hb Hjoin.
  - cbn [join String.concat] in Hjoin. rewrite app_empty_r in Hjoin.
    rewrite Hjoin, app_assoc_str in Hb.
    change ((CRLF +:+ CRLF) +:+ body) with (CRLF +:+ CRLF +:+ body) in Hb.
    rewrite HfindW in Hb. discriminate.
  - apply Forall_cons in Hne as [Hdne Hds]. rewrite join_cons in Hjoin.
    rewrite <- app_assoc_str in Hjoin.
    destruct (find (buf self +:+ d) (CRLF +:+ CRLF)) as [i|] eqn:Hfind.
    + (* the terminator is complete *)
      pose proof (find_app_some _ (join "" ds) _ _ Hfind) as HfW.
      rewrite Hjoin, app_assoc_str in HfW.
      change ((CRLF +:+ CRLF) +:+ body) with (CRLF +:+ CRLF +:+ body) in HfW.
      rewrite HfindW in HfW. injection HfW as <-.
      pose proof (find_bound _ _ _ Hfind) as Hbound.
      destruct (app_eq_split (Hd +:+ CRLF +:+ CRLF) (buf self +:+ d) (join "" ds) body Hjoin)
        as (t & Hbd & Ht').
      { rewrite length_app_str. exact Hbound. }
      rewrite app_assoc_str in Hbd.
      change ((CRLF +:+ CRLF) +:+ t) with (CRLF +:+ CRLF +:+ t) in Hbd.
      rewrite HdE in Hbd.
      cbn [app].
      rewrite (decode_framed_header self d c text invocation
                 (String.length body) t (ds ++ rest) fx0
                 Hn Hsig Hdne Hbd Hc1 Hc2 H00 H01 H02 Ht Ht1 Ht2 Hi Hi1).
      cbv zeta. rewrite <- HdE.
      destruct (negb (String.eqb c "12") && negb (String.eqb c "30"))%bool.
      * subst body. apply app_inv_nil in Ht' as [-> Hj].
        rewrite (join_empty_nil ds Hds Hj). reflexivity.
      * assert (Hpos : (0 <? Z.of_nat (String.length body)) = true).
        { apply Z.ltb_lt. destruct body; [contradiction|]. simpl. lia. }
        rewrite Hpos.
        rewrite (read_body_pieces body rest _ ds
                   {| buf := t; signal := CRLF +:+ CRLF; code := c;
                      status_message := text; script_invocation := invocation;
                      num_chars := Z.of_nat (String.length body) |} Hds Ht' eq_refl).
        reflexivity.
    + cbn [app bufferMessages].
      pose proof Hn as Hn'. apply Z.leb_le in Hn'. rewrite Hn'.
      rewrite (len_nonempty _ Hdne). cbv zeta.
      cbn [buf signal set_buf]. rewrite Hsig, Hfind.
      apply (IH (set_buf (buf self +:+ d) self)); [exact Hn|exact Hsig|exact Hds| |].
      * exact Hfind.
      * exact Hjoin.
Qed.

(** A reply that is a status line only, arriving in pieces. *)
Lemma bare_in_pieces c text rest fx0 :
  c = "00" \/ c = "01" \/ c = "02" ->
  text <> "" -> lacks CR text = true -> rstrip text = text ->
  forall (pieces : list string) (self : ZOMPResponseBuffer),
    num_chars self <= 0 -> signal self = CRLF +:+ CRLF ->
    Forall (fun d => d <> "") pieces ->
    find (buf self) (CRLF +:+ CRLF) = None ->
    buf self +:+ join "" pieces = bare_header c text +:+ CRLF +:+ CRLF ->
    bufferMessages self (pieces ++ rest) fx0
    = (Return None,
       {| buf := ""; signal := CRLF +:+ CRLF; code := c; status_message := text;
          script_invocation := script_invocation self; num_chars := num_chars self |},
       rest, bare_effects c text fx0).
Proof.
  intros Hcode Ht Ht1 Ht2.
  assert (HL : lacks CR (bare_header c text) = true).
  { unfold bare_header. rewrite !lacks_app, Ht1.
    destruct Hcode as [->|[->| ->]]; reflexivity. }
  remember (bare_header c text) as L eqn:LE.
  assert (HW : L +:+ CRLF +:+ CRLF = (L +:+ CRLF +:+ CRLF) +:+ "").
  { rewrite app_empty_r. reflexivity. }
  rewrite HW.
  induction pieces as [|d ds IH]; intros self Hn Hsig Hne Hb Hjoin.
  - cbn [join String.concat] in Hjoin. rewrite app_empty_r in Hjoin.
    rewrite Hjoin, app_assoc_str in Hb.
    change ((CRLF +:+ CRLF) +:+ "") with (CRLF +:+ CRLF +:+ "") in Hb.
    rewrite (find_signal_bare L "" HL) in Hb. discriminate.
  - apply Forall_cons in Hne as [Hdne Hds]. rewrite join_cons in Hjoin.
    rewrite <- app_assoc_str in Hjoin.
    destruct (find (buf self +:+ d) (CRLF +:+ CRLF)) as [i|] eqn:Hfind.
    + pose proof (find_bound _ _ _ Hfind) as Hbound.
      pose proof (find_app_some _ (join "" ds) _ _ Hfind) as HfW.
      rewrite Hjoin, app_assoc_str in HfW.
      change ((CRLF +:+ CRLF) +:+ "") with (CRLF +:+ CRLF +:+ "") in HfW.
      rewrite (find_signal_bare L "" HL) in HfW. injection HfW as <-.
      destruct (app_eq_split (L +:+ CRLF +:+ CRLF) (buf self +:+ d) (join "" ds) "" Hjoin)
        as (t & Hbd & Ht').
      { rewrite length_app_str. exact Hbound. }
      apply app_inv_nil in Ht' as [-> Hj].
      rewrite (join_empty_nil ds Hds Hj).
      rewrite app_assoc_str in Hbd.
      change ((CRLF +:+ CRLF) +:+ "") with (CRLF +:+ CRLF +:+ "") in Hbd.
      rewrite LE in Hbd. cbn [app].
      exact (decode_bare_header self d c text "" rest fx0
               Hn Hsig Hdne Hbd Hcode Ht Ht1 Ht2).
    + cbn [app bufferMessages].
      pose proof Hn as Hn'. apply Z.leb_le in Hn'. rewrite Hn'.
      rewrite (len_nonempty _ Hdne). cbv zeta.
      cbn [buf signal set_buf]. rewrite Hsig, Hfind.
      exact (IH (set_buf (buf self +:+ d) self) Hn Hsig Hds Hfind Hjoin).
Qed.

(** The three kinds of reply tuple. *)
Lemma reply_tuple_cases (m : ZompMessage) :
  reply_tuple m = true ->
  m_text m <> "" /\ lacks CR (m_text m) = true /\ rstrip (m_text m) = m_text m
  /\ ((m_code m = "00" \/ m_code m = "01" \/ m_code m = "02")
        /\ m_invocation m = "" /\ m_body m = ""
        /\ among report_codes (m_code m) = false
        /\ encode m = bare_header (m_code m) (m_text m) +:+ CRLF +:+ CRLF
      \/ (lacks CR (m_code m) = true /\ lacks " " (m_code m) = true
          /\ String.eqb (m_code m) "00" = false /\ String.eqb (m_code m) "01" = false
          /\ String.eqb (m_code m) "02" = false
          /\ m_invocation m <> "" /\ lacks CR (m_invocation m) = true
          /\ (negb (String.eqb (m_code m) "12") && negb (String.eqb (m_code m) "30"))%bool
             = negb (among report_codes (m_code m))
          /\ (if among report_codes (m_code m) then m_body m <> "" else m_body m = "")
          /\ encode m = framed (m_code m) (m_text m) (m_invocation m) (m_body m))).
Proof.
  destruct m as [c text invocation body].
  unfold reply_tuple, encode. cbn [m_code m_text m_invocation m_body].
  intros [[[Ht Ht1]%andb_prop Ht2]%andb_prop Hrest]%andb_prop.
  apply truthy_nonempty in Ht. apply String.eqb_eq in Ht2.
  split; [exact Ht|]. split; [exact Ht1|]. split; [exact Ht2|].
  destruct (among bare_codes c) eqn:Hbare.
  - left. apply andb_prop in Hrest as [->%falsy_empty ->%falsy_empty].
    apply among_cases in Hbare.
    assert (Hcode : c = "00" \/ c = "01" \/ c = "02").
    { simpl in Hbare. intuition. }
    split; [exact Hcode|]. split; [reflexivity|]. split; [reflexivity|].
    split; [destruct Hcode as [->|[->| ->]]; reflexivity|].
    rewrite makeZOMPResponse_bare by (destruct Hcode as [->|[->| ->]]; reflexivity).
    unfold bare_header. rewrite !app_assoc_str. reflexivity.
  - right. apply andb_prop in Hrest as [[Hi Hi1]%andb_prop Hbody].
    apply truthy_nonempty in Hi.
    destruct (among report_codes c) eqn:Hrep.
    + apply among_cases in Hrep. apply truthy_nonempty in Hbody.
      assert (Hcode : c = "12" \/ c = "30") by (simpl in Hrep; intuition).
      assert (H0 : startswith c "0" = false) by (destruct Hcode as [->| ->]; reflexivity).
      rewrite (makeZOMPResponse_framed _ _ _ _ H0).
      destruct Hcode as [->| ->]; repeat split; assumption.
    + apply andb_prop in Hbody as [Hst ->%falsy_empty].
      apply among_cases in Hst.
      assert (Hcode : c = "10" \/ c = "11" \/ c = "20" \/ c = "21"
                      \/ c = "22" \/ c = "31" \/ c = "32")
        by (simpl in Hst; intuition).
      assert (H0 : startswith c "0" = false)
        by (repeat destruct Hcode as [->|Hcode]; subst; reflexivity).
      rewrite (makeZOMPResponse_framed _ _ _ _ H0).
      repeat destruct Hcode as [->|Hcode]; subst; repeat split; assumption.
Qed.

(** X13.  A reply that reaches the controller in pieces.  Whatever way the
    transport cuts the agent's encoding of a reply tuple whose text,
    invocation and body are 7-bit ASCII into non-empty receives, one call of
    the controller's decoder on a fresh buffer (zompie.py
    [makeZOMPResponse], zomp_cnc.py [bufferMessages]) consumes exactly those
    receives, reproduces the tuple and leaves the receives that follow
    untouched. *)
Theorem reply_in_pieces (m : ZompMessage) (pieces rest : list string) :
  reply_tuple m = true ->
  ascii_tuple m = true ->
  Forall (fun d => d <> "") pieces ->
  join "" pieces = encode m ->
  decode (pieces ++ rest) = Some (m, rest).
Proof.
  intros Hm _ Hne Hjoin.
  destruct (reply_tuple_cases m Hm) as (Ht & Ht1 & Ht2 & Hkind).
  destruct m as [c text invocation body]. cbn [m_code m_text m_invocation m_body] in *.
  unfold decode.
  assert (Hn : num_chars init <= 0) by (simpl; lia).
  assert (Hb : find (buf init) (CRLF +:+ CRLF) = None) by reflexivity.
  assert (Hj : buf init +:+ join "" pieces = encode {| m_code := c; m_text := text;
                 m_invocation := invocation; m_body := body |}).
  { rewrite <- Hjoin. apply app_empty_l. }
  destruct Hkind as [(Hcode & -> & -> & _ & Henc)
                    |(Hc1 & Hc2 & H00 & H01 & H02 & Hi & Hi1 & Hrep & Hbody & Henc)].
  - rewrite Henc in Hj.
    rewrite (bare_in_pieces c text rest silent Hcode Ht Ht1 Ht2 pieces init
               Hn eq_refl Hne Hb Hj).
    reflexivity.
  - rewrite Henc in Hj.
    rewrite (framed_in_pieces c text invocation body rest silent
               Hc1 Hc2 H00 H01 H02 Ht Ht1 Ht2 Hi Hi1);
      [|rewrite Hrep; destruct (among report_codes c); exact Hbody
       |exact Hn|reflexivity|exact Hne|exact Hb|exact Hj].
    rewrite Hrep. destruct (among report_codes c); cbn [negb default].
    + reflexivity.
    + rewrite Hbody. reflexivity.
Qed.

(** The reply 30 of [echo.sh hi] cut inside the status line, inside the
    terminator and inside the body. *)
Lemma reply_in_pieces_witness :
  reply_tuple {| m_code := "30"; m_text := "OK, reporting";
                 m_invocation := "echo.sh hi"; m_body := "hi!" |} = true
  /\ ascii_tuple {| m_code := "30"; m_text := "OK, reporting";
                    m_invocation := "echo.sh hi"; m_body := "hi!" |} = true
  /\ Forall (fun d => d <> "")
       ["ZOMP/1.0 3"; "0 OK, reporting" +:+ CRLF +:+ "echo.sh hi" +:+ CRLF
                      +:+ "Content-Length: 3" +:+ CRLF +:+ String CR "";
        String LF "h"; "i!"]
  /\ decode (["ZOMP/1.0 3"; "0 OK, reporting" +:+ CRLF +:+ "echo.sh hi" +:+ CRLF
                            +:+ "Content-Length: 3" +:+ CRLF +:+ String CR "";
              String LF "h"; "i!"] ++ ["ZOMP/1.0 00 Ready" +:+ CRLF +:+ CRLF])
     = Some ({| m_code := "30"; m_text := "OK, reporting";
                m_invocation := "echo.sh hi"; m_body := "hi!" |},
             ["ZOMP/1.0 00 Ready" +:+ CRLF +:+ CRLF]).
Proof.
  assert (Hne : Forall (fun d => d <> "")
       ["ZOMP/1.0 3"; "0 OK, reporting" +:+ CRLF +:+ "echo.sh hi" +:+ CRLF
                      +:+ "Content-Length: 3" +:+ CRLF +:+ String CR "";
        String LF "h"; "i!"]).
  { repeat constructor; discriminate. }
  split; [reflexivity|]. split; [reflexivity|]. split; [exact Hne|].
  apply reply_in_pieces; [reflexivity|reflexivity|exact Hne|vm_compute; reflexivity].
Defined.

End RepliesInPieces2.

Section ReceiverServes.
Import Py Io Wire zomp_cnc Receiving Transport.

(** One turn of the receiver on one reply, from a state between two
    messages: the reply is consumed whole, a report is filed, a 00 is
    answered with ACCEPT, and the receiver is between two messages again. *)
Lemma receiver_turn_on_reply (zombie_id : string) (r : receiver) (m : ZompMessage)
      (pieces rest : list string) :
  idle r -> reply_tuple m = true -> delivers m pieces ->
  conn r = pieces ++ rest ->
  exists r',
    handleResponses_turn zombie_id r = Running r'
    /\ idle r'
    /\ conn r' = rest
    /\ files r' = file_reply zombie_id (files r) m
    /\ sent (fx r') = sent (fx r) ++ accepts [m].
Proof.
  intros (Hbuf & Hn & Hsig) Hm [Hne Hjoin] Hconn.
  destruct (reply_tuple_cases m Hm) as (Ht & Ht1 & Ht2 & Hkind).
  assert (Hb : find (buf (buffer r)) (CRLF +:+ CRLF) = None)
    by (rewrite Hbuf; reflexivity).
  assert (Hj : buf (buffer r) +:+ join "" pieces = encode m)
    by (rewrite Hbuf, Hjoin; apply app_empty_l).
  unfold handleResponses_turn, file_reply, accepts. rewrite Hconn.
  cbn [flat_map]. rewrite app_nil_r.
  destruct Hkind as [(Hcode & Hinv & Hbody & Hrep & Henc)
                    |(Hc1 & Hc2 & H00 & H01 & H02 & Hi & Hi1 & Hrep & Hbody & Henc)].
  - rewrite Henc in Hj.
    rewrite (bare_in_pieces (m_code m) (m_text m) rest (fx r) Hcode Ht Ht1 Ht2
               pieces (buffer r) Hn Hsig Hne Hb Hj).
    rewrite Hrep. eexists. split; [reflexivity|].
    cbn [buffer conn files fx buf num_chars signal].
    split; [repeat split; assumption|]. split; [reflexivity|]. split; [reflexivity|].
    unfold bare_effects.
    destruct Hcode as [->|[->| ->]]; cbn [String.eqb Ascii.eqb Bool.eqb send print sent];
      rewrite ?app_nil_r; reflexivity.
  - rewrite Henc in Hj.
    rewrite (framed_in_pieces (m_code m) (m_text m) (m_invocation m) (m_body m) rest (fx r)
               Hc1 Hc2 H00 H01 H02 Ht Ht1 Ht2 Hi Hi1);
      [|rewrite Hrep; destruct (among report_codes (m_code m)); exact Hbody
       |exact Hn|exact Hsig|exact Hne|exact Hb|exact Hj].
    rewrite Hrep, H00.
    destruct (among report_codes (m_code m)); cbn [negb].
    + destruct (m_body m) as [|x body] eqn:Eb; [contradiction|].
      eexists. split; [reflexivity|].
      cbn [buffer conn files fx buf num_chars signal set_buf set_num_chars
           script_invocation print sent].
      split; [unfold idle, len; simpl; repeat split; lia|].
      split; [reflexivity|]. split; [reflexivity|].
      rewrite app_nil_r. reflexivity.
    + eexists. split; [reflexivity|].
      cbn [buffer conn files fx buf num_chars signal print sent].
      rewrite Hbody.
      split; [unfold idle, len; simpl; repeat split; lia|].
      split; [reflexivity|]. split; [reflexivity|].
      rewrite app_nil_r. reflexivity.
Qed.

(** X14.  The receiver process on a sequence of replies (zomp_cnc.py
    [handleResponses], lines 135-145, with [bufferMessages]).  Replies of
    the agent whose text, invocation and body are 7-bit ASCII and whose
    report files have names that [open] accepts, arriving one after the
    other, each cut by the transport into any non-empty receives of its own,
    are handled one per turn of the loop: after as many turns as there are
    replies the receiver is still running and between two messages, it has
    consumed exactly the replies' receives, it has written each report (12,
    30) to the file [<agent> <invocation>.txt], a later report of the same
    invocation replacing an earlier one, and it has sent one ACCEPT for each
    00 and nothing else. *)
Theorem receiver_serves_replies (zombie_id : string) (ms : list ZompMessage)
        (cuts : list (list string)) (r : receiver) (rest : list string) :
  idle r ->
  Forall (fun m => reply_tuple m = true) ms ->
  Forall (fun m => ascii_tuple m = true) ms ->
  Forall (fun m => storable zombie_id m = true) ms ->
  Forall2 delivers ms cuts ->
  conn r = concat cuts ++ rest ->
  exists r',
    handleResponses (length ms) zombie_id r = Running r'
    /\ idle r'
    /\ conn r' = rest
    /\ files r' = foldl (file_reply zombie_id) (files r) ms
    /\ sent (fx r') = sent (fx r) ++ accepts ms.
Proof.
  intros Hidle Hms _ _. revert cuts r rest Hidle Hms.
  induction ms as [|m ms IH]; intros cuts r rest Hidle Hms Hcuts Hconn.
  - apply Forall2_nil_inv_l in Hcuts. subst cuts.
    exists r. cbn [handleResponses length foldl accepts flat_map concat app] in *.
    rewrite app_nil_r. auto.
  - apply Forall2_cons_inv_l in Hcuts as (pieces & cuts' & Hd & Hcuts & ->).
    apply Forall_cons in Hms as [Hm Hms].
    cbn [concat] in Hconn. rewrite <- app_assoc in Hconn.
    destruct (receiver_turn_on_reply zombie_id r m pieces (concat cuts' ++ rest)
                Hidle Hm Hd Hconn) as (r1 & Hturn & Hidle1 & Hconn1 & Hfiles1 & Hsent1).
    destruct (IH cuts' r1 rest Hidle1 Hms Hcuts Hconn1)
      as (r' & Hloop & Hidle' & Hconn' & Hfiles' & Hsent').
    exists r'. cbn [length handleResponses]. rewrite Hturn.
    split; [exact Hloop|]. split; [exact Hidle'|]. split; [exact Hconn'|].
    split.
    + rewrite Hfiles', Hfiles1. reflexivity.
    + rewrite Hsent', Hsent1. unfold accepts. cbn [flat_map].
      rewrite app_nil_r, app_assoc. reflexivity.
Qed.

(** The registration, a status reply and a report, the report cut inside
    its header and inside its body, with the start of a further message
    left on the connection. *)
Lemma receiver_serves_replies_witness :
  exists r',
    handleResponses 3 "z1"
      (spawn ([zompie.READY_MSG;
               "ZOMP/1.0 10 OK, running script" +:+ CRLF +:+ "echo.sh hi" +:+ CRLF
                 +:+ "Content-Length: 0" +:+ CRLF +:+ CRLF;
               "ZOMP/1.0 30 OK, rep";
               "orting" +:+ CRLF +:+ "echo.sh hi" +:+ CRLF
                 +:+ "Content-Length: 3" +:+ CRLF +:+ CRLF +:+ "h";
               "i!"] ++ ["ZOMP/"]))
    = Running r'
    /\ conn r' = ["ZOMP/"]
    /\ files r' = {["z1 echo.sh hi.txt" := "hi!"]}
    /\ sent (fx r') = [ACCEPT_MSG].
Proof.
  destruct (receiver_serves_replies "z1"
              [ {| m_code := "00"; m_text := "Ready to be registered";
                   m_invocation := ""; m_body := "" |};
                {| m_code := "10"; m_text := "OK, running script";
                   m_invocation := "echo.sh hi"; m_body := "" |};
                {| m_code := "30"; m_text := "OK, reporting";
                   m_invocation := "echo.sh hi"; m_body := "hi!" |} ]
              [ [zompie.READY_MSG];
                ["ZOMP/1.0 10 OK, running script" +:+ CRLF +:+ "echo.sh hi" +:+ CRLF
                   +:+ "Content-Length: 0" +:+ CRLF +:+ CRLF];
                ["ZOMP/1.0 30 OK, rep";
                 "orting" +:+ CRLF +:+ "echo.sh hi" +:+ CRLF
                   +:+ "Content-Length: 3" +:+ CRLF +:+ CRLF +:+ "h";
                 "i!"] ]
              (spawn ([zompie.READY_MSG;
               "ZOMP/1.0 10 OK, running script" +:+ CRLF +:+ "echo.sh hi" +:+ CRLF
                 +:+ "Content-Length: 0" +:+ CRLF +:+ CRLF;
               "ZOMP/1.0 30 OK, rep";
               "orting" +:+ CRLF +:+ "echo.sh hi" +:+ CRLF
                 +:+ "Content-Length: 3" +:+ CRLF +:+ CRLF +:+ "h";
               "i!"] ++ ["ZOMP/"]))
              ["ZOMP/"])
    as (r' & Hloop & _ & Hconn & Hfiles & Hsent).
  - repeat split; simpl; lia.
  - repeat constructor.
  - repeat constructor.
  - repeat constructor.
  - repeat constructor; try discriminate; vm_compute; reflexivity.
  - reflexivity.
  - exists r'. split; [exact Hloop|]. split; [exact Hconn|].
    split; [rewrite Hfiles; vm_compute; reflexivity|exact Hsent].
Defined.

End ReceiverServes.

Section RequestsInPieces.
Import Py Io Wire Transport.

(** A string that ends with its first occurrence of [sub] has none in a
    proper beginning. *)
Lemma find_proper_prefix sub a b i :
  find (a +:+ b) sub = Some i ->
  (i + String.length sub = String.length (a +:+ b))%nat ->
  b <> "" ->
  find a sub = None.
Proof.
  intros Hf Hend Hb.
  destruct (find a sub) as [j|] eqn:Hj; [|reflexivity].
  pose proof (find_bound _ _ _ Hj) as Hbound.
  rewrite (find_app_some _ b _ _ Hj) in Hf. injection Hf as ->.
  rewrite length_app_str in Hend.
  destruct b; [contradiction|]. simpl in Hend. lia.
Qed.

(** Receives whose join ends with the first terminator are decoded as their
    join. *)
Lemma agent_pieces_merge paths rest fx0 (pieces : list string) :
  forall (self : zompie.ZOMPRequestBuffer) (i : nat),
  Forall (fun d => d <> "") pieces ->
  pieces <> [] ->
  find (zompie.buf self +:+ join "" pieces) (zompie.signal self) = Some i ->
  (i + String.length (zompie.signal self)
   = String.length (zompie.buf self +:+ join "" pieces))%nat ->
  zompie.bufferMessages paths self (pieces ++ rest) fx0
  = zompie.bufferMessages paths self (join "" pieces :: rest) fx0.
Proof.
  induction pieces as [|d ds IH]; intros self i Hne Hnil Hfind Hend; [contradiction|].
  apply Forall_cons in Hne as [Hd Hds].
  destruct ds as [|x ds].
  - rewrite join_cons. cbn [join String.concat]. rewrite app_empty_r. reflexivity.
  - assert (HJ : join "" (x :: ds) <> "").
    { rewrite join_cons. apply app_nonempty.
      apply Forall_cons in Hds as [Hx _]. exact Hx. }
    clear Hnil.
    assert (Hnil' : x :: ds <> []) by discriminate.
    remember (x :: ds) as ds' eqn:E. clear E x ds.
    rewrite (join_cons d) in *.
    rewrite <- app_assoc_str in Hfind, Hend.
    pose proof (find_proper_prefix _ _ _ _ Hfind Hend HJ) as Hfd.
    rewrite <- (agent_decode_merge paths self d _ rest fx0 Hd HJ Hfd).
    cbn [app]. cbn [zompie.bufferMessages].
    rewrite (len_nonempty _ Hd). cbv zeta.
    cbn [zompie.buf zompie.signal zompie.set_buf]. rewrite Hfd.
    rewrite (IH (zompie.set_buf (zompie.buf self +:+ d) self) i Hds Hnil' Hfind Hend).
    cbn [zompie.bufferMessages]. reflexivity.
Qed.

(** X15.  A request that reaches the agent in pieces.  However the
    transport cuts what [makeZOMPRequest] built (zomp_cnc.py lines 96-111)
    for a non-empty 7-bit invocation without a carriage return, the agent's
    decoder
    (zompie.py lines 23-76), starting from an empty buffer, consumes exactly
    those receives and ends with the result, the buffer object and the
    effects it has when the whole request arrives in one receive. *)
Theorem request_in_pieces (paths : gset string) (self : zompie.ZOMPRequestBuffer)
        (typed invocation wire : string) (pieces rest : list string) (fx0 : effects) :
  zomp_cnc.makeZOMPRequest typed invocation = Return wire ->
  invocation <> "" ->
  lacks CR invocation = true ->
  isascii wire = true ->
  zompie.buf self = "" ->
  zompie.signal self = CRLF +:+ CRLF ->
  Forall (fun d => d <> "") pieces ->
  join "" pieces = wire ->
  zompie.bufferMessages paths self (pieces ++ rest) fx0
  = zompie.bufferMessages paths self (wire :: rest) fx0.
Proof.
  intros Hreq Hi Hi1 _ Hbuf Hsig Hne Hjoin.
  destruct (makeZOMPRequest_cases _ _ _ Hreq) as (c & cmd & Hc & _ & Hwire).
  set (L1 := "ZOMP/1.0 " +:+ c +:+ " " +:+ cmd).
  assert (HL1 : lacks CR L1 = true).
  { unfold L1.
    destruct Hc as [(_ & -> & ->)|[(_ & -> & ->)|(_ & -> & ->)]]; reflexivity. }
  assert (Hw : wire = (L1 +:+ CRLF +:+ invocation) +:+ CRLF +:+ CRLF +:+ "").
  { rewrite Hwire. unfold L1. rewrite !app_assoc_str, app_empty_r. reflexivity. }
  rewrite <- Hjoin.
  apply (agent_pieces_merge paths rest fx0 pieces self
           (String.length (L1 +:+ CRLF +:+ invocation))).
  - exact Hne.
  - intros ->. cbn [join String.concat] in Hjoin. rewrite Hw in Hjoin.
    destruct L1; discriminate.
  - rewrite Hbuf, Hsig, app_empty_l, Hjoin, Hw.
    exact (find_signal_request L1 invocation "" HL1 Hi1 Hi).
  - rewrite Hbuf, Hsig, app_empty_l, Hjoin, Hw.
    rewrite !length_app_str. simpl. lia.
Qed.

(** A RUN request cut inside the request line, inside the invocation and
    inside the terminator. *)
Lemma request_in_pieces_witness :
  zompie.bufferMessages {["./echo.sh"]} zompie.init
    (["ZOMP/1.0 1 R"; "UN" +:+ CRLF +:+ "echo"; ".sh hi" +:+ CRLF +:+ String CR "";
      String LF ""] ++ [Scenario.STOP_echo]) silent
  = zompie.bufferMessages {["./echo.sh"]} zompie.init
      (Scenario.RUN_echo :: [Scenario.STOP_echo]) silent
  /\ exists self' fx',
       zompie.bufferMessages {["./echo.sh"]} zompie.init
         (["ZOMP/1.0 1 R"; "UN" +:+ CRLF +:+ "echo"; ".sh hi" +:+ CRLF +:+ String CR "";
           String LF ""] ++ [Scenario.STOP_echo]) silent
       = (Return (Some "echo.sh hi"), self', [Scenario.STOP_echo], fx').
Proof.
  split.
  - apply (request_in_pieces {["./echo.sh"]} zompie.init "run" "echo.sh hi").
    + reflexivity.
    + discriminate.
    + reflexivity.
    + reflexivity.
    + reflexivity.
    + reflexivity.
    + repeat constructor; discriminate.
    + vm_compute. reflexivity.
  - eexists _, _. vm_compute. reflexivity.
Defined.

End RequestsInPieces.

(* ===================================================================== *)
(** * The operator's console *)
(* ===================================================================== *)

Section ConsoleInput.
Import Py Io Wire zomp_cnc Console Transport.

Lemma digit_value_nonneg c d : digit_value c = Some d -> 0 <= d.
Proof.
  unfold digit_value. destruct (_ && _)%bool; [|discriminate].
  intros H. injection H as <-. lia.
Qed.

Lemma int_digits_digits s : forall acc b,
  all_chars isdigit s = true -> 0 <= acc -> b = true \/ s <> "" ->
  exists k, int_digits acc b s = Some k /\ 0 <= k.
Proof.
  induction s as [|c s IH]; intros acc b Hall Hacc Hb.
  - destruct Hb as [->|Hb]; [|contradiction]. exists acc. auto.
  - cbn [all_chars] in Hall. apply andb_prop in Hall as [Hc Hs].
    cbn [int_digits]. unfold isdigit in Hc.
    destruct (digit_value c) as [d|] eqn:Hd; [|discriminate].
    pose proof (digit_value_nonneg c d Hd).
    apply IH; [exact Hs|lia|left; reflexivity].
Qed.

Lemma strip_digits s : all_chars isdigit s = true -> strip s = s.
Proof.
  intros Hall. unfold strip.
  assert (Hl : lstrip s = s).
  { destruct s as [|c s]; [reflexivity|].
    cbn [all_chars] in Hall. apply andb_prop in Hall as [Hc _].
    apply lstrip_head. exact (proj1 (digit_properties c Hc)). }
  rewrite Hl. apply rstrip_no_space, digits_no_space, Hall.
Qed.

(** [int] of a string [isdigit] accepts: a [ValueError] only beyond the
    limit on the digits, and never a negative number. *)
Lemma int_of_digits s :
  str_isdigit s = true ->
  (String.length s <= int_max_str_digits)%nat ->
  exists k, to_int s = Some k /\ 0 <= k.
Proof.
  unfold str_isdigit. intros [Hne Hall]%andb_prop Hlen.
  unfold to_int. rewrite (strip_digits s Hall).
  apply Nat.ltb_ge in Hlen. rewrite Hlen.
  unfold int. rewrite (strip_digits s Hall).
  destruct s as [|c r]; [discriminate|].
  pose proof Hall as Hall'. cbn [all_chars] in Hall'.
  apply andb_prop in Hall' as [Hc _].
  destruct (digit_properties c Hc) as (_ & Hm & Hp & _).
  rewrite Hm, Hp.
  apply int_digits_digits; [exact Hall|lia|right; discriminate].
Qed.

Lemma long_digits s :
  str_isdigit s = true ->
  (int_max_str_digits < String.length s)%nat ->
  to_int s = None.
Proof.
  unfold str_isdigit. intros [Hne Hall]%andb_prop Hlen.
  unfold to_int. rewrite (strip_digits s Hall).
  apply Nat.ltb_lt in Hlen. rewrite Hlen. reflexivity.
Qed.

Lemma to_int_some s k : to_int s = Some k -> int s = Some k.
Proof. unfold to_int. destruct (_ <? _)%nat; [discriminate|auto]. Qed.

Lemma lower_char_not_digit c : isdigit c = true -> lower_char c = c.
Proof. destruct c as [[] [] [] [] [] [] [] []]; try discriminate; reflexivity. Qed.

(** No spelling of "back" is a number. *)
Lemma back_not_digits s : casefold s = "back" -> str_isdigit s = false.
Proof.
  destruct s as [|c s]; [discriminate|].
  unfold str_isdigit. cbn [casefold map_chars truthy all_chars andb].
  intros H. injection H as Hc _.
  destruct (isdigit c) eqn:Hd; [|reflexivity].
  rewrite (lower_char_not_digit c Hd) in Hc. subst c. discriminate.
Qed.

(** What the loop of [selectTarget] can end with. *)
Lemma selectTarget_loop_spec n : forall lines out r lines' out',
  selectTarget_loop n lines out = (r, lines', out') ->
  (exists used, lines = used ++ lines')
  /\ match r with
     | Chosen t => t = -1 \/ 0 <= t <= Z.of_nat n
     | Fails e =>
         e = ValueError
         /\ exists line,
              line ∈ lines
              /\ (strip line = "back"
                  \/ str_isdigit (strip line) = true
                     /\ (int_max_str_digits < String.length (strip line))%nat)
     | Spins => lines' = []
     end.
Proof.
  induction lines as [|line rest IH]; intros out r lines' out' H; cbn [selectTarget_loop] in H.
  - injection H as <- <- <-. split; [exists []; reflexivity|reflexivity].
  - cbv zeta in H. unfold invalid in H.
    destruct (str_isdigit (strip line)) eqn:Hdig; cbn [negb] in H.
    + destruct (Nat.le_gt_cases (String.length (strip line)) int_max_str_digits)
        as [Hlen|Hlen].
      2:{ rewrite (long_digits _ Hdig Hlen) in H. injection H as <- <- <-.
          split; [exists [line]; reflexivity|]. split; [reflexivity|].
          exists line. split; [apply elem_of_cons; left; reflexivity|right; auto]. }
      destruct (int_of_digits _ Hdig Hlen) as (k & Hk & Hk0). rewrite Hk in H.
      destruct (Z.of_nat n <? k) eqn:Hgt; cbn [andb] in H.
      * destruct (String.eqb (strip line) "back") eqn:Hb; cbn [negb] in H.
        -- apply String.eqb_eq in Hb. rewrite Hb in Hdig. discriminate.
        -- destruct (String.eqb (casefold (strip line)) "back") eqn:Hcf.
           ++ injection H as <- <- <-.
              split; [exists [line]; reflexivity|left; reflexivity].
           ++ destruct (IH _ _ _ _ H) as [[used ->] Hr].
              split; [exists (line :: used); reflexivity|].
              destruct r as [t|e|]; [exact Hr| |exact Hr].
              destruct Hr as (-> & l & Hl & Hlb). split; [reflexivity|].
              exists l. split; [apply elem_of_cons; right; exact Hl|exact Hlb].
      * injection H as <- <- <-.
        split; [exists [line]; reflexivity|].
        right. apply Z.ltb_ge in Hgt. lia.
    + destruct (String.eqb (strip line) "back") eqn:Hb; cbn [negb] in H.
      * apply String.eqb_eq in Hb. rewrite Hb in H.
        change (to_int "back") with (@None Z) in H.
        injection H as <- <- <-.
        split; [exists [line]; reflexivity|]. split; [reflexivity|].
        exists line. split; [apply elem_of_cons; left; reflexivity|left; exact Hb].
      * destruct (String.eqb (casefold (strip line)) "back") eqn:Hcf.
        -- injection H as <- <- <-.
           split; [exists [line]; reflexivity|left; reflexivity].
        -- destruct (IH _ _ _ _ H) as [[used ->] Hr].
           split; [exists (line :: used); reflexivity|].
           destruct r as [t|e|]; [exact Hr| |exact Hr].
           destruct Hr as (-> & l & Hl & Hlb). split; [reflexivity|].
           exists l. split; [apply elem_of_cons; right; exact Hl|exact Hlb].
Qed.

(** X16.  On 7-bit input lines, [selectTarget] (zomp_cnc.py lines 119-133)
    returns -1 or a number from 0 to the size of the registry, having read
    some of the lines of standard input and left the others: the index
    [target-1] that [main] uses on line 187 is never out of range. *)
Theorem selectTarget_in_range (zs : list peer) (lines out : list string)
        (t : Z) (lines' out' : list string) :
  Forall (fun l => isascii l = true) lines ->
  selectTarget zs lines out = (Chosen t, lines', out') ->
  -1 <= t <= Z.of_nat (length zs)
  /\ (exists used, lines = used ++ lines')
  /\ (0 < t -> exists p, zs !! Z.to_nat (t - 1) = Some p).
Proof.
  intros _.
  unfold selectTarget. destruct (length zs =? 0)%nat eqn:Hlen.
  - intros H. injection H as <- <- _.
    split; [lia|]. split; [exists []; reflexivity|lia].
  - intros H. destruct (selectTarget_loop_spec _ _ _ _ _ _ H) as [Hused Hr].
    split; [lia|]. split; [exact Hused|].
    intros Hpos. apply lookup_lt_is_Some. lia.
Qed.

(** Two zombies registered, the operator first types a number that is too
    large. *)
Lemma selectTarget_in_range_witness :
  Forall (fun l => isascii l = true) ["7" +:+ String LF ""; " 2 " +:+ String LF ""; "x"]
  /\ exists zs out',
    selectTarget zs ["7" +:+ String LF ""; " 2 " +:+ String LF ""; "x"] []
    = (Chosen 2, ["x"], out')
    /\ -1 <= 2 <= Z.of_nat (length zs)
    /\ exists p, zs !! 1%nat = Some p.
Proof.
  set (z := fun a => {| zombie := {| addr := a; process := Running (spawn []) |};
                        outbox := []; sock_closed := false; terminated := false |}).
  assert (Ha : Forall (fun l => isascii l = true)
                 ["7" +:+ String LF ""; " 2 " +:+ String LF ""; "x"])
    by (repeat constructor).
  split; [exact Ha|].
  exists [z "a"; z "b"]. eexists.
  assert (H : selectTarget [z "a"; z "b"]
                ["7" +:+ String LF ""; " 2 " +:+ String LF ""; "x"] []
              = (Chosen 2, ["x"],
                 prettyPrintZombies [z "a"; z "b"] ["Which zombie?"] ++ [INVALID_INPUT]))
    by (vm_compute; reflexivity).
  destruct (selectTarget_in_range _ _ _ _ _ _ Ha H) as (Hr & _ & Hp).
  split; [exact H|]. split; [exact Hr|]. apply Hp. lia.
Defined.

(** X17.  At the prompt of [selectTarget] only the spellings of "back" that have
    an upper-case letter take the operator back to the main menu (after
    one more "Invalid input" line); "back" itself, in lower case, passes
    the validity test of line 129 and is handed to [int] on line 132, which
    raises [ValueError]. *)
Theorem back_is_case_sensitive (zs : list peer) (line : string)
        (rest out : list string) :
  isascii line = true ->
  zs <> [] ->
  casefold (strip line) = "back" ->
  selectTarget zs (line :: rest) out
  = if String.eqb (strip line) "back"
    then (Fails ValueError, rest, prettyPrintZombies zs (out ++ ["Which zombie?"]))
    else (Chosen (-1), rest,
          prettyPrintZombies zs (out ++ ["Which zombie?"]) ++ [INVALID_INPUT]).
Proof.
  intros _ Hzs Hcf. unfold selectTarget.
  destruct zs as [|z zs]; [contradiction|]. cbn [length Nat.eqb].
  cbn [selectTarget_loop]. cbv zeta. unfold invalid.
  rewrite (back_not_digits _ Hcf). cbn [negb].
  destruct (String.eqb (strip line) "back") eqn:Hb; cbn [negb].
  - apply String.eqb_eq in Hb. rewrite Hb. reflexivity.
  - rewrite Hcf. reflexivity.
Qed.

Lemma back_is_case_sensitive_witness :
  exists z out1 out2,
    selectTarget [z] ["back" +:+ String LF ""] [] = (Fails ValueError, [], out1)
    /\ selectTarget [z] ["Back" +:+ String LF ""] [] = (Chosen (-1), [], out2).
Proof.
  exists {| zombie := {| addr := "a"; process := Running (spawn []) |};
            outbox := []; sock_closed := false; terminated := false |}.
  eexists _, _. split.
  - rewrite back_is_case_sensitive; [reflexivity|reflexivity|discriminate|reflexivity].
  - rewrite back_is_case_sensitive; [reflexivity|reflexivity|discriminate|reflexivity].
Defined.

End ConsoleInput.

Section ConsoleCommands.
Import Py Io Wire zomp_cnc Console Transport.

(** [makeZOMPRequest] is defined on the three commands the console passes
    to it. *)
Lemma makeZOMPRequest_defined typed invocation :
  (String.eqb (casefold typed) "run" || String.eqb (casefold typed) "stop"
   || String.eqb (casefold typed) "report")%bool = true ->
  exists wire, makeZOMPRequest typed invocation = Return wire.
Proof.
  unfold makeZOMPRequest. intros H.
  destruct (String.eqb (casefold typed) "run"); [eauto|].
  destruct (String.eqb (casefold typed) "stop"); [eauto|].
  destruct (String.eqb (casefold typed) "report"); [eauto|discriminate].
Qed.

Lemma position_in_range {A : Type} (l : list A) (i : Z) :
  0 <= i < Z.of_nat (length l) -> position l i = Some (Z.to_nat i).
Proof.
  intros [H0 H1]. unfold position.
  apply Z.leb_le in H0. apply Z.ltb_lt in H1. rewrite H0, H1. reflexivity.
Qed.




Lemma join_single sep x : join sep [x] = x.
Proof. reflexivity. Qed.

(** X19.  A request goes to the zombies the operator selects, and to no
    other.  When the operator types, in 7-bit characters, RUN, STOP or REPORT (in any letter case) with
    an invocation and then, at the prompt, a number [k] from 0 to the size
    of the registry, the turn of [main]'s loop goes on, having sent what
    [makeZOMPRequest] builds from the command as typed and the invocation:
    to every registered zombie when [k] is 0, and otherwise to the [k]-th
    one in the order of registration and to no other (zomp_cnc.py lines
    174-188). *)
Theorem request_reaches_the_selected (s : console) (cmdline selline : string)
        (rest : list string) (typed invocation : string) (k : Z) :
  stdin s = cmdline :: selline :: rest ->
  isascii cmdline = true ->
  isascii selline = true ->
  split (strip cmdline) " " (Some 1%nat) = [typed; invocation] ->
  (String.eqb (casefold typed) "run" || String.eqb (casefold typed) "stop"
   || String.eqb (casefold typed) "report")%bool = true ->
  zombies s <> [] ->
  str_isdigit (strip selline) = true ->
  to_int (strip selline) = Some k ->
  k <= Z.of_nat (length (zombies s)) ->
  exists wire s',
    makeZOMPRequest typed invocation = Return wire
    /\ main_step Stdin s = Goes_on s'
    /\ stdin s' = rest
    /\ length (zombies s') = length (zombies s)
    /\ forall (j : nat) (p : peer),
         zombies s !! j = Some p ->
         zombies s' !! j
         = Some (if (k =? 0) || (Z.of_nat j =? k - 1) then send_to wire p else p).
Proof.
  intros Hstdin _ _ Hsplit Hcmd Hz Hdig Hint Hk.
  destruct (makeZOMPRequest_defined typed invocation Hcmd) as [wire Hw].
  assert (Hk0 : 0 <= k).
  { destruct (Nat.le_gt_cases (String.length (strip selline)) int_max_str_digits)
      as [Hlen|Hlen].
    - destruct (int_of_digits _ Hdig Hlen) as (k' & Hk' & Hk0).
      rewrite Hint in Hk'. injection Hk' as <-. exact Hk0.
    - rewrite (long_digits _ Hdig Hlen) in Hint. discriminate. }
  exists wire.
  cbn [main_step]. unfold on_stdin. rewrite Hstdin. cbn [hd tl]. cbv zeta.
  rewrite Hsplit.
  assert (Hexit : String.eqb (casefold typed) "exit" = false
                  /\ String.eqb (casefold typed) "help" = false).
  { destruct (String.eqb_spec (casefold typed) "run") as [->|_]; [auto|].
    destruct (String.eqb_spec (casefold typed) "stop") as [->|_]; [auto|].
    destruct (String.eqb_spec (casefold typed) "report") as [->|_]; [auto|].
    discriminate. }
  destruct Hexit as [-> ->]. rewrite Hcmd, join_single.
  unfold dispatch, selectTarget. cbn [zombies stdin out listening].
  destruct (zombies s) as [|z zs] eqn:Ezs; [contradiction|].
  cbn [length Nat.eqb selectTarget_loop]. cbv zeta. unfold invalid.
  rewrite Hdig, Hint. cbn [negb].
  assert (Hle : (Z.of_nat (S (length zs)) <? k) = false) by (apply Z.ltb_ge; exact Hk).
  rewrite Hle. cbn [andb].
  assert (H1 : (k =? -1) = false) by (apply Z.eqb_neq; lia).
  rewrite H1. cbn [zombies]. rewrite Hw.
  destruct (k =? 0) eqn:H0.
  - eexists. split; [reflexivity|]. split; [reflexivity|].
    cbn [stdin zombies]. split; [reflexivity|]. split; [rewrite length_map; reflexivity|].
    intros j p Hj. cbn [orb]. rewrite list_lookup_fmap, Hj. reflexivity.
  - apply Z.eqb_neq in H0.
    cbn [length] in Hk.
    rewrite position_in_range by (cbn [length]; lia).
    eexists. split; [reflexivity|]. split; [reflexivity|].
    cbn [stdin zombies]. split; [reflexivity|]. split; [rewrite length_alter; reflexivity|].
    intros j p Hj. cbn [orb].
    destruct (Z.of_nat j =? k - 1) eqn:Hjk.
    + apply Z.eqb_eq in Hjk.
      replace (Z.to_nat (k - 1)) with j by lia.
      rewrite list_lookup_alter_eq, Hj. reflexivity.
    + apply Z.eqb_neq in Hjk.
      rewrite list_lookup_alter_ne by lia. exact Hj.
Qed.

(** Two zombies; "Run echo.sh hi" for the second. *)
Lemma request_reaches_the_selected_witness :
  exists s s' p1 p2,
    main_step Stdin s = Goes_on s'
    /\ zombies s = [p1; p2]
    /\ zombies s' = [p1; send_to ("ZOMP/1.0 1 RUN" +:+ CRLF +:+ "echo.sh hi" +:+ CRLF +:+ CRLF) p2].
Proof.
  set (s := on_connect "b" []
              (on_connect "a" []
                 (start ["Run echo.sh hi" +:+ String LF ""; "2" +:+ String LF ""]))).
  destruct (request_reaches_the_selected s ("Run echo.sh hi" +:+ String LF "")
              ("2" +:+ String LF "") [] "Run" "echo.sh hi" 2)
    as (wire & s' & Hw & Hstep & _ & Hlen & Hz).
  - reflexivity.
  - reflexivity.
  - reflexivity.
  - reflexivity.
  - reflexivity.
  - discriminate.
  - reflexivity.
  - reflexivity.
  - simpl. lia.
  - injection Hw as <-.
    destruct (zombies s) as [|p1 [|p2 [|? ?]]] eqn:Ezs; try discriminate.
    exists s, s', p1, p2. split; [exact Hstep|]. split; [exact Ezs|].
    pose proof (Hz 0%nat p1 eq_refl) as H0. pose proof (Hz 1%nat p2 eq_refl) as H1.
    cbn in H0, H1.
    destruct (zombies s') as [|q1 [|q2 [|? ?]]]; try discriminate.
    cbn in H0, H1. injection H0 as ->. injection H1 as ->. reflexivity.
Defined.

End ConsoleCommands.

(* ===================================================================== *)
(** * The agent's connection *)
(* ===================================================================== *)

Section AgentConnection.
Import Py Io Wire zompie.

(** X20.  The controller's ACCEPT (zomp_cnc.py line 11), by which it answers the
    agent's READY, is absorbed by the agent without an answer (zompie.py
    lines 49, 61-62): the turn goes on, nothing is sent, and the task table,
    the report cache and the processes are as before; the exchange that
    registers an agent ends there. *)
Theorem accept_is_absorbed (a : agent) (rest : list string) :
  conn a = zomp_cnc.ACCEPT_MSG :: rest ->
  buf (buffer a) = "" ->
  signal (buffer a) = CRLF +:+ CRLF ->
  exists a',
    main_turn a = Continue a'
    /\ sent (fx a') = sent (fx a)
    /\ conn a' = rest
    /\ buf (buffer a') = ""
    /\ processes a' = processes a
    /\ reports a' = reports a
    /\ alive a' = alive a.
Proof.
  intros Hconn Hbuf Hsig.
  unfold main_turn. rewrite Hconn.
  change zomp_cnc.ACCEPT_MSG with ("ZOMP/1.0 " +:+ "0" +:+ " " +:+ "ACCEPT" +:+ CRLF +:+ CRLF).
  rewrite (decode_request_line_only (fs a) (buffer a) "0" "ACCEPT" rest (fx a)
             Hbuf Hsig eq_refl eq_refl ltac:(discriminate) eq_refl eq_refl).
  cbv zeta. cbn [code String.eqb Ascii.eqb Bool.eqb].
  eexists. split; [reflexivity|].
  cbn [with_io fx conn buffer buf processes reports alive print sent].
  repeat split.
Qed.

Lemma accept_is_absorbed_witness :
  exists a',
    main_turn (boot {["./echo.sh"]} [zomp_cnc.ACCEPT_MSG; Scenario.RUN_echo]) = Continue a'
    /\ sent (fx a') = [READY_MSG]
    /\ conn a' = [Scenario.RUN_echo].
Proof.
  destruct (accept_is_absorbed (boot {["./echo.sh"]} [zomp_cnc.ACCEPT_MSG; Scenario.RUN_echo])
              [Scenario.RUN_echo])
    as (a' & Hturn & Hsent & Hconn & _).
  - reflexivity.
  - reflexivity.
  - reflexivity.
  - exists a'. split; [exact Hturn|]. split; [exact Hsent|exact Hconn].
Defined.

Lemma with_io_same (a : agent) : with_io (buffer a) (conn a) (fx a) a = a.
Proof. destruct a. reflexivity. Qed.

(** X21.  The agent has no exit on a closed connection.  When the controller has
    closed the connection without a CLOSE message, every receive returns
    zero bytes, the decoder returns None, and the loop of [main] (zompie.py
    lines 112-153), whose only exit is the code 9, runs turn after turn in
    the same state: nothing is sent, no process is terminated. *)
Theorem agent_spins_on_closed_connection (a : agent) (turns : nat) :
  conn a = [] ->
  code (buffer a) <> "9" ->
  main_loop turns a = Continue a.
Proof.
  intros Hconn H9. apply String.eqb_neq in H9.
  induction turns as [|n IH]; [reflexivity|].
  cbn [main_loop]. unfold main_turn. rewrite Hconn.
  cbn [bufferMessages]. rewrite H9, <- Hconn, with_io_same. exact IH.
Qed.

(** RUN was served, then the controller went away. *)
Lemma agent_spins_on_closed_connection_witness :
  main_loop 5 (Scenario.agent_running []) = Continue (Scenario.agent_running [])
  /\ alive (Scenario.agent_running []) <> ∅.
Proof.
  split.
  - apply agent_spins_on_closed_connection; [reflexivity|discriminate].
  - intros H. apply (f_equal (fun X => bool_decide (0%nat ∈ X))) in H.
    vm_compute in H. discriminate.
Defined.

End AgentConnection.

Section CoalescedRequests.
Import Py Io Wire zompie Transport.

(** Decoding a request that the newest receive completes, whatever follows
    it in the buffer. *)
Lemma decode_request_with_tail fs0 self data c cmd invocation scriptname more tail rest fx0 :
  signal self = CRLF +:+ CRLF -> data <> "" ->
  buf self +:+ data
  = ("ZOMP/1.0 " +:+ c +:+ " " +:+ cmd +:+ CRLF +:+ invocation) +:+ CRLF +:+ CRLF +:+ tail ->
  c = "1" \/ c = "2" \/ c = "3" ->
  cmd <> "" -> lacks CR cmd = true -> rstrip cmd = cmd ->
  invocation <> "" -> lacks CR invocation = true ->
  split invocation " " None = scriptname :: more ->
  bufferMessages fs0 self (data :: rest) fx0
  = let parsed :=
      {| buf := tail; signal := CRLF +:+ CRLF; code := c; command := cmd;
         script_invocation := invocation; filepath := "./" +:+ scriptname;
         args := ("./" +:+ scriptname) :: more |} in
    let fx1 :=
      print (("ZOMP/1.0 " +:+ c +:+ " " +:+ cmd +:+ CRLF +:+ invocation) +:+ String LF "")
            fx0 in
    if bool_decide ("./" +:+ scriptname ∈ fs0)
    then (Return (Some invocation), parsed, rest, fx1)
    else (Return None, parsed, rest,
          send (makeZOMPResponse "02" "Script not found" "" "") fx1).
Proof.
  intros Hsig Hdata Hwire Hc Hcmd Hcmd1 Hcmd2 Hi Hi1 Hargs.
  assert (Hcc : lacks CR c = true /\ lacks " " c = true).
  { destruct Hc as [->|[->| ->]]; split; reflexivity. }
  destruct Hcc as [Hc1 Hc2].
  set (L1 := "ZOMP/1.0 " +:+ c +:+ " " +:+ cmd).
  assert (HL1 : lacks CR L1 = true).
  { unfold L1. rewrite !lacks_app, Hc1, Hcmd1. reflexivity. }
  assert (Hhead : "ZOMP/1.0 " +:+ c +:+ " " +:+ cmd +:+ CRLF +:+ invocation
                  = L1 +:+ CRLF +:+ invocation).
  { unfold L1. rewrite !app_assoc_str. reflexivity. }
  assert (Hparsed : unpack_request_line (L1 +:+ CRLF +:+ invocation)
                    = Some ([invocation], "ZOMP/1.0", c, cmd)).
  { unfold unpack_request_line.
    rewrite (split_lines_cut L1 _ HL1), (split_lines_last invocation Hi1).
    unfold L1 at 1. rewrite (status_line_strip c cmd Hcmd Hcmd2),
      (status_line_split c cmd Hc2). reflexivity. }
  rewrite Hhead in *. clearbody L1.
  cbn [bufferMessages].
  rewrite (len_nonempty _ Hdata).
  cbv zeta. cbn [buf signal set_buf]. rewrite Hsig, Hwire.
  rewrite (find_signal_request L1 invocation tail HL1 Hi1 Hi), take_app_exact.
  change (String.length (CRLF +:+ CRLF)) with 4%nat.
  rewrite drop_app_more. change (drop 4 (CRLF +:+ CRLF +:+ tail)) with tail.
  rewrite Hparsed.
  change (join " " [invocation]) with invocation.
  cbn [buf signal code command script_invocation filepath args set_buf set_request
       set_script].
  rewrite Hargs.
  destruct Hc as [->|[->| ->]]; cbn [String.eqb Ascii.eqb Bool.eqb negb andb orb];
    cbn [buf signal code command script_invocation filepath args set_buf set_request
         set_script];
    change (curdir +:+ "/" +:+ scriptname) with ("./" +:+ scriptname);
    destruct (bool_decide ("./" +:+ scriptname ∈ fs0)); cbn [negb];
    unfold set_script, set_request, set_buf;
    cbn [buf signal code command script_invocation filepath args];
    rewrite Hsig; reflexivity.
Qed.

(** X22.  The agent decodes one request per receive.  Of two 7-bit requests
    of the controller that arrive in the same receive, the call of the decoder
    returns the first and leaves the second, complete, in the buffer
    (zompie.py lines 36, 76): the next call starts with a receive (line 25),
    so the second request is returned only once further bytes have arrived,
    and those bytes stay in the buffer in their turn; if the connection
    yields nothing more, the call returns None and the buffered request is
    not served. *)
Theorem coalesced_request_waits (paths : gset string) (self : ZOMPRequestBuffer)
        (typed1 inv1 wire1 sn1 : string) (more1 : list string)
        (typed2 inv2 wire2 sn2 : string) (more2 : list string)
        (d : string) (rest : list string) (fx0 : effects) :
  zomp_cnc.makeZOMPRequest typed1 inv1 = Return wire1 ->
  zomp_cnc.makeZOMPRequest typed2 inv2 = Return wire2 ->
  isascii wire1 = true -> isascii wire2 = true -> isascii d = true ->
  buf self = "" -> signal self = CRLF +:+ CRLF ->
  inv1 <> "" -> lacks CR inv1 = true ->
  split inv1 " " None = sn1 :: more1 -> "./" +:+ sn1 ∈ paths ->
  inv2 <> "" -> lacks CR inv2 = true ->
  split inv2 " " None = sn2 :: more2 -> "./" +:+ sn2 ∈ paths ->
  d <> "" ->
  exists self1 fx1 self2 fx2,
    bufferMessages paths self ((wire1 +:+ wire2) :: d :: rest) fx0
    = (Return (Some inv1), self1, d :: rest, fx1)
    /\ buf self1 = wire2
    /\ sent fx1 = sent fx0
    /\ bufferMessages paths self1 [] fx1 = (Return None, self1, [], fx1)
    /\ bufferMessages paths self1 (d :: rest) fx1 = (Return (Some inv2), self2, rest, fx2)
    /\ buf self2 = d.
Proof.
  intros Hreq1 Hreq2 _ _ _ Hbuf Hsig Hi Hi1 Hargs1 Hex1 Hj Hj1 Hargs2 Hex2 Hd.
  destruct (makeZOMPRequest_cases _ _ _ Hreq1) as (c1 & cmd1 & Hc1 & _ & Hw1).
  destruct (makeZOMPRequest_cases _ _ _ Hreq2) as (c2 & cmd2 & Hc2 & _ & Hw2).
  assert (Hcmd1 : (c1 = "1" \/ c1 = "2" \/ c1 = "3")
                  /\ cmd1 <> "" /\ lacks CR cmd1 = true /\ rstrip cmd1 = cmd1).
  { destruct Hc1 as [(_ & -> & ->)|[(_ & -> & ->)|(_ & -> & ->)]];
      (split; [tauto|split; [discriminate|split; reflexivity]]). }
  assert (Hcmd2 : (c2 = "1" \/ c2 = "2" \/ c2 = "3")
                  /\ cmd2 <> "" /\ lacks CR cmd2 = true /\ rstrip cmd2 = cmd2).
  { destruct Hc2 as [(_ & -> & ->)|[(_ & -> & ->)|(_ & -> & ->)]];
      (split; [tauto|split; [discriminate|split; reflexivity]]). }
  destruct Hcmd1 as (Hk1 & Hn1 & Hl1 & Hr1). destruct Hcmd2 as (Hk2 & Hn2 & Hl2 & Hr2).
  assert (Hne : wire1 +:+ wire2 <> "").
  { rewrite Hw1. discriminate. }
  assert (E1 : buf self +:+ (wire1 +:+ wire2)
               = ("ZOMP/1.0 " +:+ c1 +:+ " " +:+ cmd1 +:+ CRLF +:+ inv1)
                   +:+ CRLF +:+ CRLF +:+ wire2).
  { rewrite Hbuf, app_empty_l, Hw1, !app_assoc_str. reflexivity. }
  rewrite (decode_request_with_tail paths self (wire1 +:+ wire2) c1 cmd1 inv1 sn1 more1
             wire2 (d :: rest) fx0 Hsig Hne E1 Hk1 Hn1 Hl1 Hr1 Hi Hi1 Hargs1).
  cbv zeta. rewrite (bool_decide_eq_true_2 _ Hex1).
  set (self1 := {| buf := wire2; signal := CRLF +:+ CRLF; code := c1; command := cmd1;
                   script_invocation := inv1; filepath := "./" +:+ sn1;
                   args := ("./" +:+ sn1) :: more1 |}).
  set (fx1 := print (("ZOMP/1.0 " +:+ c1 +:+ " " +:+ cmd1 +:+ CRLF +:+ inv1)
                        +:+ String LF "") fx0).
  exists self1, fx1.
  assert (E2 : buf self1 +:+ d
               = ("ZOMP/1.0 " +:+ c2 +:+ " " +:+ cmd2 +:+ CRLF +:+ inv2)
                   +:+ CRLF +:+ CRLF +:+ d).
  { unfold self1. cbn [buf]. rewrite Hw2, !app_assoc_str. reflexivity. }
  rewrite (decode_request_with_tail paths self1 d c2 cmd2 inv2 sn2 more2
             d rest fx1 eq_refl Hd E2 Hk2 Hn2 Hl2 Hr2 Hj Hj1 Hargs2).
  cbv zeta. rewrite (bool_decide_eq_true_2 _ Hex2).
  eexists _, _.
  split; [reflexivity|]. split; [reflexivity|]. split; [reflexivity|].
  split; [reflexivity|]. split; reflexivity.
Qed.

(** RUN and REPORT of [echo.sh hi] in one receive, STOP in the next. *)
Lemma coalesced_request_waits_witness :
  exists self1 fx1 self2 fx2,
    bufferMessages {["./echo.sh"]} init
      ((Scenario.RUN_echo +:+ Scenario.REPORT_echo) :: Scenario.STOP_echo :: []) silent
    = (Return (Some "echo.sh hi"), self1, [Scenario.STOP_echo], fx1)
    /\ code self1 = "1"
    /\ buf self1 = Scenario.REPORT_echo
    /\ bufferMessages {["./echo.sh"]} self1 [Scenario.STOP_echo] fx1
       = (Return (Some "echo.sh hi"), self2, [], fx2)
    /\ code self2 = "3"
    /\ buf self2 = Scenario.STOP_echo.
Proof.
  destruct (coalesced_request_waits {["./echo.sh"]} init
              "run" "echo.sh hi" Scenario.RUN_echo "echo.sh" ["hi"]
              "report" "echo.sh hi" Scenario.REPORT_echo "echo.sh" ["hi"]
              Scenario.STOP_echo [] silent)
    as (self1 & fx1 & self2 & fx2 & H1 & Hb1 & _ & _ & H2 & Hb2);
    try reflexivity; try discriminate; try (apply elem_of_singleton; reflexivity).
  exists self1, fx1, self2, fx2.
  split; [exact H1|].
  assert (Hc1 : code self1 = "1").
  { vm_compute in H1. injection H1 as <- _. reflexivity. }
  split; [exact Hc1|]. split; [exact Hb1|]. split; [exact H2|].
  split; [|exact Hb2].
  vm_compute in H1. injection H1 as <- <-.
  vm_compute in H2. injection H2 as <- _. reflexivity.
Defined.

End CoalescedRequests.

(* ===================================================================== *)
(** * From the agent's cache to the controller's file *)
(* ===================================================================== *)

Section ReportEndToEnd.
Import Py Io Wire Transport.

Lemma nonempty_truthy s : s <> "" -> truthy s = true.
Proof. destruct s; [contradiction|reflexivity]. Qed.

(** X23.  A report travels from the agent's cache to the controller's
    file.  When the controller's REPORT request for a 7-bit invocation
    reaches an agent on which the run of that invocation has completed (the
    task-table entry is there, its process has ended, the cache holds a
    non-empty 7-bit output), the agent answers with one reply (zompie.py
    lines 140-146), and the receiver process of the controller, between two
    messages and given that reply cut by the transport into any non-empty
    receives, writes exactly the cached output to the file
    [<agent> <invocation>.txt], provided [open] accepts that name, and is
    between two messages again (zomp_cnc.py lines 135-145). *)
Theorem report_reaches_the_file (a : zompie.agent) (zombie_id typed k wire scriptname : string)
        (more rest : list string) (p : zompie.Process) (output : string) :
  casefold typed = "report" ->
  zomp_cnc.makeZOMPRequest typed k = Return wire ->
  zompie.conn a = wire :: rest ->
  zompie.buf (zompie.buffer a) = "" ->
  zompie.signal (zompie.buffer a) = CRLF +:+ CRLF ->
  k <> "" -> lacks CR k = true ->
  split k " " None = scriptname :: more ->
  "./" +:+ scriptname ∈ zompie.fs a ->
  zompie.processes a !! k = Some p ->
  zompie.is_alive a p = false ->
  zompie.reports a !! k = Some output ->
  output <> "" ->
  isascii k = true ->
  isascii output = true ->
  plain_name (zombie_id +:+ " " +:+ k +:+ ".txt") = true ->
  exists a' reply,
    zompie.main_turn a = zompie.Continue a'
    /\ sent (zompie.fx a') = sent (zompie.fx a) ++ [reply]
    /\ zompie.conn a' = rest
    /\ forall (r : zomp_cnc.receiver) (pieces rest' : list string),
         Receiving.idle r ->
         Forall (fun d => d <> "") pieces ->
         join "" pieces = reply ->
         zomp_cnc.conn r = pieces ++ rest' ->
         exists r',
           zomp_cnc.handleResponses_turn zombie_id r = zomp_cnc.Running r'
           /\ Receiving.idle r'
           /\ zomp_cnc.conn r' = rest'
           /\ zomp_cnc.files r'
              = <[zombie_id +:+ " " +:+ k +:+ ".txt" := output]> (zomp_cnc.files r)
           /\ sent (zomp_cnc.fx r') = sent (zomp_cnc.fx r).
Proof.
  intros Htyped Hreq Hconn Hbuf Hsig Hk Hk1 Hargs Hex Hp Hal Hrep Hout _ _ _.
  destruct (makeZOMPRequest_cases _ _ _ Hreq) as (c & cmd & Hc & _ & ->).
  assert (Hcc : c = "3" /\ cmd = "REPORT").
  { destruct Hc as [(H & _)|[(H & _)|(_ & -> & ->)]];
      [rewrite Htyped in H; discriminate..|auto]. }
  destruct Hcc as [-> ->].
  pose proof (decode_request_lines (zompie.fs a) (zompie.buffer a) "3" "REPORT" k
                scriptname more rest (zompie.fx a) Hbuf Hsig
                ltac:(auto) ltac:(discriminate) eq_refl eq_refl Hk Hk1 Hargs) as Hdec.
  cbv zeta in Hdec. rewrite (bool_decide_eq_true_2 _ Hex) in Hdec.
  rewrite <- Hconn in Hdec.
  rewrite (main_turn_dispatch a k _ _ _ Hdec Hk).
  cbv zeta. cbn [zompie.code String.eqb Ascii.eqb Bool.eqb].
  unfold zompie.on_report. cbn [zompie.processes zompie.with_io].
  rewrite Hp.
  change (zompie.is_alive (zompie.with_io _ _ _ a) p) with (zompie.is_alive a p).
  rewrite Hal. cbv zeta.
  change (zompie.reports (zompie.say _ _)) with (zompie.reports a).
  rewrite Hrep.
  eexists _, _. split; [reflexivity|].
  cbn [zompie.reply zompie.say zompie.with_io zompie.fx zompie.conn zompie.buffer
       send print sent].
  split; [reflexivity|]. split; [reflexivity|].
  intros r pieces rest' Hidle Hne Hjoin Hr.
  set (m := {| m_code := "30"; m_text := "OK, reporting"; m_invocation := k;
               m_body := output |}).
  assert (Hm : reply_tuple m = true).
  { unfold reply_tuple, m. cbn [m_code m_text m_invocation m_body].
    rewrite (nonempty_truthy _ Hk), (nonempty_truthy _ Hout), Hk1. reflexivity. }
  destruct (receiver_turn_on_reply zombie_id r m pieces rest' Hidle Hm
              (conj Hne Hjoin) Hr) as (r' & Hturn & Hidle' & Hconn' & Hfiles & Hsent).
  exists r'. split; [exact Hturn|]. split; [exact Hidle'|]. split; [exact Hconn'|].
  split; [exact Hfiles|].
  rewrite Hsent. apply app_nil_r.
Qed.

(** [echo.sh hi] has printed "hi"; the reply to REPORT arrives in two
    pieces. *)
Lemma report_reaches_the_file_witness :
  exists a' reply r',
    zompie.main_turn (Scenario.agent_done [Scenario.REPORT_echo]) = zompie.Continue a'
    /\ sent (zompie.fx a')
       = sent (zompie.fx (Scenario.agent_done [Scenario.REPORT_echo])) ++ [reply]
    /\ zomp_cnc.handleResponses_turn "z1"
         (zomp_cnc.spawn [take 30 reply; drop 30 reply])
       = zomp_cnc.Running r'
    /\ zomp_cnc.files r' = {["z1 echo.sh hi.txt" := "hi" +:+ String LF ""]}.
Proof.
  destruct (report_reaches_the_file (Scenario.agent_done [Scenario.REPORT_echo])
              "z1" "report" "echo.sh hi" Scenario.REPORT_echo "echo.sh" ["hi"] []
              (Scenario.the_process (Scenario.agent_running [Scenario.REPORT_echo]))
              ("hi" +:+ String LF ""))
    as (a' & reply & Hturn & Hsent & _ & Hfile).
  - vm_compute. reflexivity.
  - vm_compute. reflexivity.
  - vm_compute. reflexivity.
  - vm_compute. reflexivity.
  - vm_compute. reflexivity.
  - discriminate.
  - vm_compute. reflexivity.
  - vm_compute. reflexivity.
  - refine (bool_decide_unpack _ _). vm_compute. exact I.
  - vm_compute. reflexivity.
  - vm_compute. reflexivity.
  - vm_compute. reflexivity.
  - discriminate.
  - vm_compute. reflexivity.
  - vm_compute. reflexivity.
  - vm_compute. reflexivity.
  - assert (Hreply : reply = zompie.makeZOMPResponse "30" "OK, reporting" "echo.sh hi"
                               ("hi" +:+ String LF "")).
    { pose proof Hturn as Ht. vm_compute in Ht. injection Ht as Ht. rewrite <- Ht in Hsent.
      vm_compute in Hsent. injection Hsent as <-. vm_compute. reflexivity. }
    destruct (Hfile (zomp_cnc.spawn [take 30 reply; drop 30 reply])
                    [take 30 reply; drop 30 reply] [])
      as (r' & Hr & _ & _ & Hfiles & _).
    + repeat split; simpl; lia.
    + rewrite Hreply. repeat constructor; discriminate.
    + rewrite Hreply. vm_compute. reflexivity.
    + reflexivity.
    + exists a', reply, r'. split; [exact Hturn|]. split; [exact Hsent|].
      split; [exact Hr|]. rewrite Hfiles. reflexivity.
Defined.

End ReportEndToEnd.

(* ===================================================================== *)
(** * Exceptions of the controller's decoder *)
(* ===================================================================== *)

Section ReceiverDeath.
Import Py Io Wire zomp_cnc Transport.

(** The entity-body loop raises nothing. *)
Lemma read_body_no_raise inc : forall self fx0 e self' inc' fx',
  read_body self inc fx0 <> (Raise e, self', inc', fx').
Proof.
  induction inc as [|data rest IH]; intros self fx0 e self' inc' fx' H;
    cbn [read_body] in H.
  - destruct (len (buf self) <? num_chars self); discriminate.
  - destruct (len (buf self) <? num_chars self); [|discriminate].
    destruct (len data =? 0); [discriminate|].
    exact (IH _ _ _ _ _ _ H).
Qed.

(** X24.  On 7-bit receives the only exceptions that escape the
    controller's decoder (zomp_cnc.py lines 27-78) are those of lines 62 and
    65: a [ValueError] or an
    [IndexError], raised after the status line of a header has been parsed
    with a code other than 00, 01 and 02, when the rest of that header is
    not an invocation line followed by a line that reads as
    [<name>: <integer>].  The call that raises has sent nothing. *)
Theorem controller_decode_raises_only_on_header_lines (inc : list string)
        (self : ZOMPResponseBuffer) (fx0 : effects) (e : exn)
        (self' : ZOMPResponseBuffer) (inc' : list string) (fx' : effects) :
  Forall (fun d => isascii d = true) inc ->
  bufferMessages self inc fx0 = (Raise e, self', inc', fx') ->
  (e = ValueError \/ e = IndexError)
  /\ code self' <> "00" /\ code self' <> "01" /\ code self' <> "02"
  /\ sent fx' = sent fx0.
Proof.
  intros _. revert self fx0 e self' inc' fx'.
  induction inc as [|data rest IH]; intros self fx0 e self' inc' fx' H;
    cbn [bufferMessages] in H.
  - destruct (num_chars self <=? 0); [discriminate|].
    exfalso. exact (read_body_no_raise _ _ _ _ _ _ _ H).
  - destruct (num_chars self <=? 0).
    2:{ exfalso. exact (read_body_no_raise _ _ _ _ _ _ _ H). }
    destruct (len data =? 0); [discriminate|].
    cbv zeta in H.
    destruct (find _ _) as [i|]; [|exact (IH _ _ _ _ _ _ H)].
    destruct (unpack_status_line _) as [[[[rest_of_header v] c] msg]|]; [|discriminate].
    destruct (String.eqb c "00") eqn:H00; [discriminate|].
    destruct (String.eqb c "01" || String.eqb c "02")%bool eqn:H012; [discriminate|].
    apply orb_false_elim in H012 as [H01 H02].
    apply String.eqb_neq in H00, H01, H02.
    destruct rest_of_header as [|script_line [|content_length [|x l]]].
    + injection H as <- <- _ <-. cbn [code set_status set_buf]. auto 6.
    + injection H as <- <- _ <-. cbn [code set_status set_buf]. auto 6.
    + destruct (split content_length ": " None !! 1%nat) as [digits|].
      2:{ injection H as <- <- _ <-.
          cbn [code set_status set_buf set_script_invocation]. auto 6. }
      destruct (int digits) as [n|].
      2:{ injection H as <- <- _ <-.
          cbn [code set_status set_buf set_script_invocation]. auto 6. }
      destruct (negb (String.eqb c "12") && negb (String.eqb c "30"))%bool;
        [discriminate|].
      destruct (0 <? _).
      * exfalso. exact (read_body_no_raise _ _ _ _ _ _ _ H).
      * destruct (IH _ _ _ _ _ _ H) as (He & Hc & Hs). auto.
    + injection H as <- <- _ <-. cbn [code set_status set_buf]. auto 6.
Qed.

(** A 10 reply whose header lacks the Content-Length line. *)
Lemma controller_decode_raises_only_on_header_lines_witness :
  Forall (fun d => isascii d = true)
    [("ZOMP/1.0 10 OK, running script" +:+ CRLF +:+ "echo.sh hi" +:+ CRLF +:+ CRLF)]
  /\ exists self' inc' fx',
    bufferMessages init
      [("ZOMP/1.0 10 OK, running script" +:+ CRLF +:+ "echo.sh hi" +:+ CRLF +:+ CRLF)] silent
    = (Raise ValueError, self', inc', fx')
    /\ code self' = "10"
    /\ sent fx' = [].
Proof.
  assert (Ha : Forall (fun d => isascii d = true)
    [("ZOMP/1.0 10 OK, running script" +:+ CRLF +:+ "echo.sh hi" +:+ CRLF +:+ CRLF)])
    by (repeat constructor).
  split; [exact Ha|].
  eexists _, _, _.
  assert (H : bufferMessages init
      [("ZOMP/1.0 10 OK, running script" +:+ CRLF +:+ "echo.sh hi" +:+ CRLF +:+ CRLF)] silent
              = (Raise ValueError,
                 set_status "10" "OK, running script" (set_buf "" init), [],
                 print ("ZOMP/1.0 10 OK, running script" +:+ CRLF +:+ "echo.sh hi"
                        +:+ String LF "") silent))
    by (vm_compute; reflexivity).
  destruct (controller_decode_raises_only_on_header_lines _ _ _ _ _ _ _ Ha H)
    as (_ & _ & _ & _ & Hs).
  split; [exact H|]. split; [reflexivity|exact Hs].
Defined.

End ReceiverDeath.
